(** * backend_centra: the job pipeline, certification status and contract numbering

    A shallow embedding of
      - [apps/job_pipeline/models.py]   (JobPipeline.save, advance_stage,
                                         update_from_related_object),
      - [apps/job_pipeline/signals.py]  (the four post_save receivers),
      - [apps/certifications/models.py] (Certification.save) and the status
        actions of [apps/certifications/views.py],
      - [apps/business_development/serializers.py] (ContractSerializer.create).

    Python objects are records, ORM tables are lists of rows inside a [World],
    methods are computations in a state-and-exception monad whose state is the
    receiver together with the world, and [timezone.now()] reads a logical
    clock kept in the world. *)

From Stdlib Require Import String Ascii List ZArith NArith Lia Bool Arith.
From Stdlib Require Import DecimalString DecimalN.
Import ListNotations.
Open Scope string_scope.

(* ================================================================== *)
(** ** Python runtime: exceptions, state, formatting                    *)
(* ================================================================== *)

Module Py.

(** The exceptions the modelled code can raise. *)
Inductive exn : Type :=
| ValueError (msg : string)
| IntegrityError (constraint : string)
| TypeError (msg : string)
| DoesNotExist (model : string).

Inductive res (A : Type) : Type :=
| Ok (a : A)
| Raise (e : exn).
Arguments Ok {A} a.
Arguments Raise {A} e.

(** A computation over a mutable state [S]: the state that is returned
    next to [Raise] is the state at the moment the exception left the
    function, so "unchanged on error" is a statement and not a convention. *)
Definition M (S A : Type) : Type := S -> res A * S.

Definition ret {S A} (a : A) : M S A := fun s => (Ok a, s).

Definition bind {S A B} (m : M S A) (k : A -> M S B) : M S B :=
  fun s => match m s with
           | (Ok a, s') => k a s'
           | (Raise e, s') => (Raise e, s')
           end.

Definition raise {S A} (e : exn) : M S A := fun s => (Raise e, s).
Definition get {S} : M S S := fun s => (Ok s, s).

(** [str(n)] for a non-negative int. *)
Definition str_of_N (n : N) : string := NilEmpty.string_of_uint (N.to_uint n).

Fixpoint zeros (k : nat) : string :=
  match k with
  | O => EmptyString
  | S k' => String "0" (zeros k')
  end.

(** [format(n, "0<w>d")] for a non-negative int: the decimal digits, padded
    on the left with zeros up to width [w], never truncated. *)
Definition format_0wd (w : nat) (n : N) : string :=
  let s := str_of_N n in
  zeros (w - String.length s) ++ s.

(** [x in xs] on strings. *)
Definition str_in (x : string) (xs : list string) : bool :=
  existsb (String.eqb x) xs.

End Py.

Import Py.

Declare Scope py_scope.
Delimit Scope py_scope with py.
Notation "x <- m ;; k" := (bind m (fun x => k))
(at level 61, m at next level, right associativity) : py_scope.
Notation "m ;;; k" := (bind m (fun _ => k))
(at level 61, right associativity) : py_scope.

(* ================================================================== *)
(** ** apps/business_development/models.py, apps/audits/models.py:
       the columns the pipeline code reads                              *)
(* ================================================================== *)

(** A [datetime] is a number of seconds, a [date] a number of days, a
    [Decimal] amount a number of hundredths. *)
Definition datetime := Z.
Definition date := Z.
Definition decimal := Z.
Bind Scope Z_scope with datetime date decimal.

Module Lead.
Record t : Type := mk {
  id : nat;
  company_name : string;
  estimated_value : option decimal;
  currency : string;
  status : string;
  assigned_to : option nat;
  created_at : datetime;
  created_by : option nat
}.
End Lead.

Module Opportunity.
Record t : Type := mk {
  id : nat;
  client : option string;        (* [instance.client.name], [None] for no client *)
  lead : option nat;
  description : string;
  estimated_value : decimal;
  currency : string;
  status : string;
  expected_close_date : date;
  owner : option nat;
  created_at : datetime;
  created_by : option nat
}.
End Opportunity.

Module Contract.
Record t : Type := mk {
  id : nat;
  opportunity : option nat;
  agreement_date : option date;
  client_organization : string;
  start_date : option date;
  contract_value : decimal;
  currency : string;
  status : string;
  created_by : option nat
}.
End Contract.

Module Audit.
Record t : Type := mk {
  id : nat;
  pipeline : option nat;
  audit_type : string;
  planned_start_date : option date;
  planned_end_date : option date;
  lead_auditor : option nat;
  status : string
}.
End Audit.

(* ================================================================== *)
(** ** apps/job_pipeline/models.py                                      *)
(* ================================================================== *)

Record JobPipeline : Type := mkJobPipeline {
  pk : option nat;                          (* [id]; [None] before the first save *)
  number : option N;
  pipeline_id : string;
  client_name : string;
  service_description : string;
  estimated_value : option decimal;
  currency : string;
  current_stage : string;
  status : string;
  lead : option nat;
  opportunity : option nat;
  contract : option nat;
  lead_created_date : option datetime;
  opportunity_created_date : option datetime;
  contract_signed_date : option datetime;
  audit_scheduled_date : option datetime;
  audit_completed_date : option datetime;
  certificate_issued_date : option datetime;
  owner : option nat;
  updated_at : option datetime;
  created_by : option nat
}.

Record PipelineStageTransition : Type := mkTransition {
  tr_pipeline : option nat;
  from_stage : string;
  to_stage : string;
  transitioned_by : option nat
}.

Record PipelineMilestone : Type := mkMilestone {
  ms_pipeline : option nat;
  milestone_type : string;
  title : string;
  due_date : date;
  is_critical : bool;
  assigned_to : option nat
}.

(** The six columns grouped under "Timeline tracking". *)
Definition timeline (p : JobPipeline) : list (option datetime) :=
  [ lead_created_date p; opportunity_created_date p; contract_signed_date p;
    audit_scheduled_date p; audit_completed_date p; certificate_issued_date p ].

(** The database and the clock. [nulls_first] is the one property of the
    configured backend the code depends on: whether [ORDER BY number DESC]
    puts the rows without a number before the others. *)
Record World : Type := mkWorld {
  clock : datetime;
  job_pipelines : list JobPipeline;
  pipeline_stage_transitions : list PipelineStageTransition;
  pipeline_milestones : list PipelineMilestone;
  nulls_first : bool
}.

(** Attribute assignment [self.f = v], one function per assigned column. *)
Definition set_pk (v : option nat) (p : JobPipeline) : JobPipeline :=
  mkJobPipeline v (number p) (pipeline_id p) (client_name p) (service_description p)
    (estimated_value p) (currency p) (current_stage p) (status p) (lead p) (opportunity
    p) (contract p) (lead_created_date p) (opportunity_created_date p)
    (contract_signed_date p) (audit_scheduled_date p) (audit_completed_date p)
    (certificate_issued_date p) (owner p) (updated_at p) (created_by p).
Definition set_number (v : option N) (p : JobPipeline) : JobPipeline :=
  mkJobPipeline (pk p) v (pipeline_id p) (client_name p) (service_description p)
    (estimated_value p) (currency p) (current_stage p) (status p) (lead p) (opportunity
    p) (contract p) (lead_created_date p) (opportunity_created_date p)
    (contract_signed_date p) (audit_scheduled_date p) (audit_completed_date p)
    (certificate_issued_date p) (owner p) (updated_at p) (created_by p).
Definition set_pipeline_id (v : string) (p : JobPipeline) : JobPipeline :=
  mkJobPipeline (pk p) (number p) v (client_name p) (service_description p)
    (estimated_value p) (currency p) (current_stage p) (status p) (lead p) (opportunity
    p) (contract p) (lead_created_date p) (opportunity_created_date p)
    (contract_signed_date p) (audit_scheduled_date p) (audit_completed_date p)
    (certificate_issued_date p) (owner p) (updated_at p) (created_by p).
Definition set_client_name (v : string) (p : JobPipeline) : JobPipeline :=
  mkJobPipeline (pk p) (number p) (pipeline_id p) v (service_description p)
    (estimated_value p) (currency p) (current_stage p) (status p) (lead p) (opportunity
    p) (contract p) (lead_created_date p) (opportunity_created_date p)
    (contract_signed_date p) (audit_scheduled_date p) (audit_completed_date p)
    (certificate_issued_date p) (owner p) (updated_at p) (created_by p).
Definition set_estimated_value (v : option decimal) (p : JobPipeline) : JobPipeline :=
  mkJobPipeline (pk p) (number p) (pipeline_id p) (client_name p) (service_description
    p) v (currency p) (current_stage p) (status p) (lead p) (opportunity p) (contract p)
    (lead_created_date p) (opportunity_created_date p) (contract_signed_date p)
    (audit_scheduled_date p) (audit_completed_date p) (certificate_issued_date p) (owner
    p) (updated_at p) (created_by p).
Definition set_currency (v : string) (p : JobPipeline) : JobPipeline :=
  mkJobPipeline (pk p) (number p) (pipeline_id p) (client_name p) (service_description
    p) (estimated_value p) v (current_stage p) (status p) (lead p) (opportunity p)
    (contract p) (lead_created_date p) (opportunity_created_date p)
    (contract_signed_date p) (audit_scheduled_date p) (audit_completed_date p)
    (certificate_issued_date p) (owner p) (updated_at p) (created_by p).
Definition set_current_stage (v : string) (p : JobPipeline) : JobPipeline :=
  mkJobPipeline (pk p) (number p) (pipeline_id p) (client_name p) (service_description
    p) (estimated_value p) (currency p) v (status p) (lead p) (opportunity p) (contract
    p) (lead_created_date p) (opportunity_created_date p) (contract_signed_date p)
    (audit_scheduled_date p) (audit_completed_date p) (certificate_issued_date p) (owner
    p) (updated_at p) (created_by p).
Definition set_status (v : string) (p : JobPipeline) : JobPipeline :=
  mkJobPipeline (pk p) (number p) (pipeline_id p) (client_name p) (service_description
    p) (estimated_value p) (currency p) (current_stage p) v (lead p) (opportunity p)
    (contract p) (lead_created_date p) (opportunity_created_date p)
    (contract_signed_date p) (audit_scheduled_date p) (audit_completed_date p)
    (certificate_issued_date p) (owner p) (updated_at p) (created_by p).
Definition set_lead (v : option nat) (p : JobPipeline) : JobPipeline :=
  mkJobPipeline (pk p) (number p) (pipeline_id p) (client_name p) (service_description
    p) (estimated_value p) (currency p) (current_stage p) (status p) v (opportunity p)
    (contract p) (lead_created_date p) (opportunity_created_date p)
    (contract_signed_date p) (audit_scheduled_date p) (audit_completed_date p)
    (certificate_issued_date p) (owner p) (updated_at p) (created_by p).
Definition set_opportunity (v : option nat) (p : JobPipeline) : JobPipeline :=
  mkJobPipeline (pk p) (number p) (pipeline_id p) (client_name p) (service_description
    p) (estimated_value p) (currency p) (current_stage p) (status p) (lead p) v
    (contract p) (lead_created_date p) (opportunity_created_date p)
    (contract_signed_date p) (audit_scheduled_date p) (audit_completed_date p)
    (certificate_issued_date p) (owner p) (updated_at p) (created_by p).
Definition set_contract (v : option nat) (p : JobPipeline) : JobPipeline :=
  mkJobPipeline (pk p) (number p) (pipeline_id p) (client_name p) (service_description
    p) (estimated_value p) (currency p) (current_stage p) (status p) (lead p)
    (opportunity p) v (lead_created_date p) (opportunity_created_date p)
    (contract_signed_date p) (audit_scheduled_date p) (audit_completed_date p)
    (certificate_issued_date p) (owner p) (updated_at p) (created_by p).
Definition set_opportunity_created_date (v : option datetime) (p : JobPipeline) :
    JobPipeline :=
  mkJobPipeline (pk p) (number p) (pipeline_id p) (client_name p) (service_description
    p) (estimated_value p) (currency p) (current_stage p) (status p) (lead p)
    (opportunity p) (contract p) (lead_created_date p) v (contract_signed_date p)
    (audit_scheduled_date p) (audit_completed_date p) (certificate_issued_date p) (owner
    p) (updated_at p) (created_by p).
Definition set_contract_signed_date (v : option datetime) (p : JobPipeline) :
    JobPipeline :=
  mkJobPipeline (pk p) (number p) (pipeline_id p) (client_name p) (service_description
    p) (estimated_value p) (currency p) (current_stage p) (status p) (lead p)
    (opportunity p) (contract p) (lead_created_date p) (opportunity_created_date p) v
    (audit_scheduled_date p) (audit_completed_date p) (certificate_issued_date p) (owner
    p) (updated_at p) (created_by p).
Definition set_audit_scheduled_date (v : option datetime) (p : JobPipeline) :
    JobPipeline :=
  mkJobPipeline (pk p) (number p) (pipeline_id p) (client_name p) (service_description
    p) (estimated_value p) (currency p) (current_stage p) (status p) (lead p)
    (opportunity p) (contract p) (lead_created_date p) (opportunity_created_date p)
    (contract_signed_date p) v (audit_completed_date p) (certificate_issued_date p)
    (owner p) (updated_at p) (created_by p).
Definition set_audit_completed_date (v : option datetime) (p : JobPipeline) :
    JobPipeline :=
  mkJobPipeline (pk p) (number p) (pipeline_id p) (client_name p) (service_description
    p) (estimated_value p) (currency p) (current_stage p) (status p) (lead p)
    (opportunity p) (contract p) (lead_created_date p) (opportunity_created_date p)
    (contract_signed_date p) (audit_scheduled_date p) v (certificate_issued_date p)
    (owner p) (updated_at p) (created_by p).
Definition set_certificate_issued_date (v : option datetime) (p : JobPipeline) :
    JobPipeline :=
  mkJobPipeline (pk p) (number p) (pipeline_id p) (client_name p) (service_description
    p) (estimated_value p) (currency p) (current_stage p) (status p) (lead p)
    (opportunity p) (contract p) (lead_created_date p) (opportunity_created_date p)
    (contract_signed_date p) (audit_scheduled_date p) (audit_completed_date p) v (owner
    p) (updated_at p) (created_by p).
Definition set_owner (v : option nat) (p : JobPipeline) : JobPipeline :=
  mkJobPipeline (pk p) (number p) (pipeline_id p) (client_name p) (service_description
    p) (estimated_value p) (currency p) (current_stage p) (status p) (lead p)
    (opportunity p) (contract p) (lead_created_date p) (opportunity_created_date p)
    (contract_signed_date p) (audit_scheduled_date p) (audit_completed_date p)
    (certificate_issued_date p) v (updated_at p) (created_by p).
Definition set_updated_at (v : option datetime) (p : JobPipeline) : JobPipeline :=
  mkJobPipeline (pk p) (number p) (pipeline_id p) (client_name p) (service_description
    p) (estimated_value p) (currency p) (current_stage p) (status p) (lead p)
    (opportunity p) (contract p) (lead_created_date p) (opportunity_created_date p)
    (contract_signed_date p) (audit_scheduled_date p) (audit_completed_date p)
    (certificate_issued_date p) (owner p) v (created_by p).
Definition set_service_description (v : string) (p : JobPipeline) : JobPipeline :=
  mkJobPipeline (pk p) (number p) (pipeline_id p) (client_name p) v (estimated_value p)
    (currency p) (current_stage p) (status p) (lead p) (opportunity p) (contract p)
    (lead_created_date p) (opportunity_created_date p) (contract_signed_date p)
    (audit_scheduled_date p) (audit_completed_date p) (certificate_issued_date p) (owner
    p) (updated_at p) (created_by p).
Definition set_lead_created_date (v : option datetime) (p : JobPipeline) : JobPipeline :=
  mkJobPipeline (pk p) (number p) (pipeline_id p) (client_name p) (service_description
    p) (estimated_value p) (currency p) (current_stage p) (status p) (lead p)
    (opportunity p) (contract p) v (opportunity_created_date p) (contract_signed_date p)
    (audit_scheduled_date p) (audit_completed_date p) (certificate_issued_date p) (owner
    p) (updated_at p) (created_by p).
Definition set_created_by (v : option nat) (p : JobPipeline) : JobPipeline :=
  mkJobPipeline (pk p) (number p) (pipeline_id p) (client_name p) (service_description
    p) (estimated_value p) (currency p) (current_stage p) (status p) (lead p)
    (opportunity p) (contract p) (lead_created_date p) (opportunity_created_date p)
    (contract_signed_date p) (audit_scheduled_date p) (audit_completed_date p)
    (certificate_issued_date p) (owner p) (updated_at p) v.

(* ------------------------------------------------------------------ *)
(** *** The ORM operations the methods use                              *)
(* ------------------------------------------------------------------ *)

Open Scope py_scope.

Definition Self : Type := (JobPipeline * World)%type.

Definition tick (w : World) : World :=
  mkWorld (clock w + 1)%Z (job_pipelines w) (pipeline_stage_transitions w)
          (pipeline_milestones w) (nulls_first w).

Definition with_job_pipelines (rows : list JobPipeline) (w : World) : World :=
  mkWorld (clock w) rows (pipeline_stage_transitions w)
          (pipeline_milestones w) (nulls_first w).

Definition with_transitions (rows : list PipelineStageTransition) (w : World) : World :=
  mkWorld (clock w) (job_pipelines w) rows (pipeline_milestones w) (nulls_first w).

Definition with_milestones (rows : list PipelineMilestone) (w : World) : World :=
  mkWorld (clock w) (job_pipelines w) (pipeline_stage_transitions w) rows (nulls_first w).

(** [timezone.now()]: every reading moves the logical clock on. *)
Definition timezone_now : M World datetime :=
  fun w => (Ok (clock w), tick w).

(** [datetime.date()]. *)
Definition date_of (t : datetime) : date := (t / 86400)%Z.

(** Code that only touches the world, run inside a method. *)
Definition in_world {A} (m : M World A) : M Self A :=
  fun s => let (r, w') := m (snd s) in (r, (fst s, w')).

Definition get_self : M Self JobPipeline := fun s => (Ok (fst s), s).
Definition assign (f : JobPipeline -> JobPipeline) : M Self unit :=
  fun s => (Ok tt, (f (fst s), snd s)).

Definition opt_nat_eqb (a b : option nat) : bool :=
  match a, b with
  | Some x, Some y => Nat.eqb x y
  | None, None => true
  | _, _ => false
  end.

(** [a] is sorted strictly before [b] by [ORDER BY number DESC]. *)
Definition number_desc_before (nf : bool) (a b : option N) : bool :=
  match a, b with
  | Some x, Some y => N.ltb y x
  | None, Some _ => nf
  | Some _, None => negb nf
  | None, None => false
  end.

(** [a] is sorted strictly before [b] by [Meta.ordering = ['-updated_at']]. *)
Definition updated_desc_before (a b : JobPipeline) : bool :=
  match updated_at a, updated_at b with
  | Some x, Some y => Z.ltb y x
  | _, _ => false
  end.

(** [queryset.first()] under an ordering: the row no other row is sorted
    before; among rows the ordering does not separate, the earliest stored. *)
Fixpoint first_by {A} (before : A -> A -> bool) (rows : list A) : option A :=
  match rows with
  | [] => None
  | r :: rest =>
      match first_by before rest with
      | None => Some r
      | Some r' => if before r' r then Some r' else Some r
      end
  end.

(** [JobPipeline.objects.order_by('-number').first()] *)
Definition order_by_number_desc_first (w : World) : option JobPipeline :=
  first_by (fun a b => number_desc_before (nulls_first w) (number a) (number b))
           (job_pipelines w).

(** [JobPipeline.objects.filter(<fk>=<id>)], in the model's default ordering,
    and its [.first()] and [.exists()]. *)
Definition objects_filter (fk : JobPipeline -> option nat) (i : nat) (w : World)
  : list JobPipeline :=
  filter (fun r => opt_nat_eqb (fk r) (Some i)) (job_pipelines w).

Definition filter_first (fk : JobPipeline -> option nat) (i : nat) (w : World)
  : option JobPipeline :=
  first_by updated_desc_before (objects_filter fk i w).

Definition filter_exists (fk : JobPipeline -> option nat) (i : nat) (w : World) : bool :=
  match objects_filter fk i w with [] => false | _ :: _ => true end.

(** The next value of the auto-increment primary key. *)
Definition next_pk (rows : list JobPipeline) : nat :=
  S (fold_right (fun r m => match pk r with Some i => Nat.max i m | None => m end) 0 rows).

(** The two [unique=True] columns, checked against the other rows. Rows
    without a number never collide on [number]. *)
Definition number_taken (self : JobPipeline) (others : list JobPipeline) : bool :=
  match number self with
  | Some n => existsb (fun r => match number r with Some m => N.eqb m n | None => false end) others
  | None => false
  end.

Definition pipeline_id_taken (self : JobPipeline) (others : list JobPipeline) : bool :=
  existsb (fun r => String.eqb (pipeline_id r) (pipeline_id self)) others.

(** [models.Model.save]: [auto_now] stamps [updated_at], the unique
    constraints are checked, then the row with this primary key is updated,
    or a row is inserted (with a fresh key when the object has none). *)
Definition Model_save : M Self unit :=
  fun s =>
    let w := snd s in
    let self := set_updated_at (Some (clock w)) (fst s) in
    let w := tick w in
    let rows := job_pipelines w in
    let others := filter (fun r => negb (opt_nat_eqb (pk r) (pk self))) rows in
    if number_taken self others then
      (Raise (IntegrityError "job_pipelines.number"), (self, w))
    else if pipeline_id_taken self others then
      (Raise (IntegrityError "job_pipelines.pipeline_id"), (self, w))
    else
      match pk self with
      | Some i =>
          if existsb (fun r => opt_nat_eqb (pk r) (Some i)) rows then
            (Ok tt, (self, with_job_pipelines
                             (map (fun r => if opt_nat_eqb (pk r) (Some i) then self else r) rows) w))
          else
            (Ok tt, (self, with_job_pipelines (rows ++ [self]) w))
      | None =>
          let self := set_pk (Some (next_pk rows)) self in
          (Ok tt, (self, with_job_pipelines (rows ++ [self]) w))
      end.

(** Truth value of [self.number]: [None] and [0] are false. *)
Definition number_truthy (n : option N) : bool :=
  match n with
  | Some m => negb (N.eqb m 0)
  | None => false
  end.

Definition number_or_0 (n : option N) : N :=
  match n with Some m => m | None => 0%N end.

(** [JobPipeline.save] *)
Definition save : M Self unit :=
  self <- get_self ;;
  (if negb (number_truthy (number self)) then
     last_pipeline <- in_world (fun w => (Ok (order_by_number_desc_first w), w)) ;;
     assign (set_number
               (Some (match last_pipeline with
                      | Some l => if number_truthy (number l)
                                  then (number_or_0 (number l) + 1)%N else 1%N
                      | None => 1%N
                      end)))
   else ret tt) ;;;
  self <- get_self ;;
  (if String.eqb (pipeline_id self) "" then
     assign (set_pipeline_id ("PL-" ++ format_0wd 5 (number_or_0 (number self))))
   else ret tt) ;;;
  Model_save.

(** The object [JobPipeline(...)] builds before the keyword arguments
    are applied: the column defaults. *)
Definition JobPipeline_new : JobPipeline :=
  mkJobPipeline None None "" "" "" None "USD" "LEAD" "ACTIVE"
                None None None None None None None None None None None None.

(** [JobPipeline.objects.create(...)] for the object [p] the keyword
    arguments describe. *)
Definition objects_create (p : JobPipeline) : M World JobPipeline :=
  fun w => match save (p, w) with
           | (Ok _, s') => (Ok (fst s'), snd s')
           | (Raise e, s') => (Raise e, snd s')
           end.

(** What a caller passes as [user]: [None], a stored [User], or an object
    of another class, as the [AnonymousUser] that [request.user] is when a
    request carries no credentials. *)
Inductive user_arg : Type :=
| NoUser
| User (id : nat)
| AnonymousUser.

(** The key a foreign key to [User] stores for it. *)
Definition user_id (u : user_arg) : option nat :=
  match u with
  | User i => Some i
  | _ => None
  end.

(** [PipelineStageTransition.objects.create(...)]. Assigning to the foreign
    key [transitioned_by] an object that is neither [None] nor a [User]
    raises [ValueError] while the row object is built, before anything is
    written (the message, which quotes the object, is abridged).
    [transitioned_at] is an [auto_now_add] column, not modelled as a field. *)
Definition transitions_create (pipeline : option nat) (old_stage new_stage : string)
  (user : user_arg) : M World unit :=
  match user with
  | AnonymousUser =>
      raise (ValueError
               "Cannot assign AnonymousUser: PipelineStageTransition.transitioned_by must be a User instance.")
  | _ =>
      fun w => (Ok tt, with_transitions
                         (pipeline_stage_transitions w
                            ++ [mkTransition pipeline old_stage new_stage (user_id user)])
                         (tick w))
  end.

Definition milestones_create (m : PipelineMilestone) : M World unit :=
  fun w => (Ok tt, with_milestones (pipeline_milestones w ++ [m]) w).

(* ------------------------------------------------------------------ *)
(** *** JobPipeline.advance_stage                                       *)
(* ------------------------------------------------------------------ *)

Definition STAGE_CHOICES : list string :=
  [ "LEAD"; "OPPORTUNITY"; "CONTRACT"; "AUDIT_SCHEDULED"; "AUDIT_IN_PROGRESS";
    "AUDIT_COMPLETED"; "CERTIFICATE_ISSUED"; "SURVEILLANCE_DUE"; "CLOSED" ].

Definition valid_progressions : list (string * list string) :=
  [ ("LEAD", ["OPPORTUNITY"; "CLOSED"]);
    ("OPPORTUNITY", ["CONTRACT"; "CLOSED"]);
    ("CONTRACT", ["AUDIT_SCHEDULED"; "CLOSED"]);
    ("AUDIT_SCHEDULED", ["AUDIT_IN_PROGRESS"]);
    ("AUDIT_IN_PROGRESS", ["AUDIT_COMPLETED"]);
    ("AUDIT_COMPLETED", ["CERTIFICATE_ISSUED"; "SURVEILLANCE_DUE"]);
    ("CERTIFICATE_ISSUED", ["SURVEILLANCE_DUE"; "CLOSED"]);
    ("SURVEILLANCE_DUE", ["AUDIT_SCHEDULED"; "CLOSED"]) ].

(** [d.get(k, default)] *)
Fixpoint dict_get {V} (d : list (string * V)) (k : string) (default : V) : V :=
  match d with
  | [] => default
  | (k', v) :: rest => if String.eqb k k' then v else dict_get rest k default
  end.

(** [s] is listed as a successor of [c]. *)
Definition successor (c s : string) : bool :=
  str_in s (dict_get valid_progressions c []).

Definition advance_stage (new_stage : string) (user : user_arg) : M Self unit :=
  self <- get_self ;;
  if negb (str_in new_stage (dict_get valid_progressions (current_stage self) [])) then
    raise (ValueError ("Cannot advance from " ++ current_stage self ++ " to " ++ new_stage))
  else
    let old_stage := current_stage self in
    assign (set_current_stage new_stage) ;;;
    now <- in_world timezone_now ;;
    (if String.eqb new_stage "OPPORTUNITY" then
       assign (set_opportunity_created_date (Some now))
     else if String.eqb new_stage "CONTRACT" then
       assign (set_contract_signed_date (Some now))
     else if String.eqb new_stage "AUDIT_SCHEDULED" then
       assign (set_audit_scheduled_date (Some now))
     else if String.eqb new_stage "AUDIT_COMPLETED" then
       assign (set_audit_completed_date (Some now))
     else if String.eqb new_stage "CERTIFICATE_ISSUED" then
       assign (set_certificate_issued_date (Some now))
     else ret tt) ;;;
    save ;;;
    self <- get_self ;;
    in_world (transitions_create (pk self) old_stage new_stage user).

(* ------------------------------------------------------------------ *)
(** *** JobPipeline.update_from_related_object                          *)
(* ------------------------------------------------------------------ *)

(** The argument [obj], by the class [isinstance] finds. *)
Inductive related : Type :=
| ALead (obj : Lead.t)
| AnOpportunity (obj : Opportunity.t)
| AContract (obj : Contract.t)
| AnAudit (obj : Audit.t).

Definition update_from_related_object (obj : related) (user : user_arg) : M Self unit :=
  match obj with
  | ALead obj =>
      assign (set_lead (Some (Lead.id obj))) ;;;
      self <- get_self ;;
      if String.eqb (current_stage self) "LEAD" then
        assign (set_client_name (Lead.company_name obj)) ;;;
        assign (set_estimated_value (Lead.estimated_value obj)) ;;;
        assign (set_currency (Lead.currency obj))
      else ret tt
  | AnOpportunity obj =>
      assign (set_opportunity (Some (Opportunity.id obj))) ;;;
      self <- get_self ;;
      (if String.eqb (Opportunity.status obj) "CLOSED_WON"
          && str_in (current_stage self) ["LEAD"; "OPPORTUNITY"] then
         advance_stage (if String.eqb (current_stage self) "LEAD"
                        then "OPPORTUNITY" else "CONTRACT") user
       else ret tt) ;;;
      assign (fun p => set_client_name
                         (match Opportunity.client obj with
                          | Some name => name
                          | None => client_name p
                          end) p) ;;;
      assign (set_estimated_value (Some (Opportunity.estimated_value obj))) ;;;
      assign (set_currency (Opportunity.currency obj))
  | AContract obj =>
      assign (set_contract (Some (Contract.id obj))) ;;;
      self <- get_self ;;
      (if String.eqb (Contract.status obj) "ACTIVE"
          && str_in (current_stage self) ["LEAD"; "OPPORTUNITY"; "CONTRACT"] then
         advance_stage "CONTRACT" user
       else ret tt) ;;;
      assign (set_client_name (Contract.client_organization obj)) ;;;
      assign (set_estimated_value (Some (Contract.contract_value obj))) ;;;
      assign (set_currency (Contract.currency obj))
  | AnAudit obj =>
      self <- get_self ;;
      if String.eqb (Audit.status obj) "PLANNED"
         && String.eqb (current_stage self) "CONTRACT" then
        advance_stage "AUDIT_SCHEDULED" user
      else if String.eqb (Audit.status obj) "IN_PROGRESS"
              && String.eqb (current_stage self) "AUDIT_SCHEDULED" then
        advance_stage "AUDIT_IN_PROGRESS" user
      else if String.eqb (Audit.status obj) "COMPLETED"
              && String.eqb (current_stage self) "AUDIT_IN_PROGRESS" then
        advance_stage "AUDIT_COMPLETED" user
      else ret tt
  end ;;;
  save.

(* ================================================================== *)
(** ** apps/job_pipeline/signals.py                                     *)
(* ================================================================== *)

(** A method call [p.m()] on an object held in a local variable; the value
    is the object as the call left it. *)
Definition call {A} (p : JobPipeline) (m : M Self A) : M World JobPipeline :=
  fun w => match m (p, w) with
           | (Ok _, s') => (Ok (fst s'), snd s')
           | (Raise e, s') => (Raise e, snd s')
           end.

(** [JobPipeline.objects.get(pk=i)], as the access [instance.pipeline] does. *)
Definition get_by_pk (i : nat) (w : World) : option JobPipeline :=
  find (fun r => opt_nat_eqb (pk r) (Some i)) (job_pipelines w).

Definition datetime_of_date (d : date) : datetime := (d * 86400)%Z.

Definition create_lead_milestones (pipeline : JobPipeline) (lead : Lead.t)
  : M World unit :=
  now <- timezone_now ;;
  milestones_create
    (mkMilestone (pk pipeline) "PROPOSAL_DUE" "Send Proposal" (date_of now + 7)%Z true None).

Definition create_opportunity_milestones (pipeline : JobPipeline) (opportunity : Opportunity.t)
  : M World unit :=
  milestones_create
    (mkMilestone (pk pipeline) "CONTRACT_SIGNATURE" "Contract Signature"
                 (Opportunity.expected_close_date opportunity) true None).

Definition create_contract_milestones (pipeline : JobPipeline) (contract : Contract.t)
  : M World unit :=
  due <- match Contract.start_date contract with
         | Some d => ret (d + 30)%Z
         | None => now <- timezone_now ;; ret (date_of now + 30)%Z
         end ;;
  milestones_create
    (mkMilestone (pk pipeline) "AUDIT_SCHEDULED" "Schedule Initial Audit" due true None).

Definition create_audit_milestones (pipeline : JobPipeline) (audit : Audit.t)
  : M World unit :=
  let start :=
    match Audit.planned_start_date audit with
    | Some d => [ mkMilestone (pk pipeline) "AUDIT_START" "Audit Start" d true
                              (Audit.lead_auditor audit) ]
    | None => []
    end in
  let finish :=
    match Audit.planned_end_date audit with
    | Some d => [ mkMilestone (pk pipeline) "AUDIT_COMPLETION" "Audit Completion" d true
                              (Audit.lead_auditor audit);
                  mkMilestone (pk pipeline) "CERTIFICATE_ISSUE" "Certificate Issue"
                              (d + 14)%Z true (Audit.lead_auditor audit) ]
    | None => []
    end in
  fold_right (fun m k => milestones_create m ;;; k) (ret tt) (start ++ finish).

(** [@receiver(post_save, sender=Lead)] *)
Definition create_pipeline_from_lead (instance : Lead.t) (created : bool) : M World unit :=
  if created && str_in (Lead.status instance) ["QUALIFIED"; "PROPOSAL_SENT"] then
    w <- get ;;
    if negb (filter_exists lead (Lead.id instance) w) then
      pipeline <- objects_create
        (set_client_name (Lead.company_name instance)
        (set_service_description ("Lead for " ++ Lead.company_name instance)
        (set_estimated_value (Lead.estimated_value instance)
        (set_currency (Lead.currency instance)
        (set_current_stage "LEAD"
        (set_lead (Some (Lead.id instance))
        (set_owner (Lead.assigned_to instance)
        (set_lead_created_date (Some (Lead.created_at instance))
        (set_created_by (Lead.created_by instance) JobPipeline_new))))))))) ;;
      create_lead_milestones pipeline instance
    else ret tt
  else ret tt.

(** [@receiver(post_save, sender=Opportunity)] *)
Definition update_pipeline_from_opportunity (instance : Opportunity.t) (created : bool)
  : M World unit :=
  if created then
    w <- get ;;
    let found := match Opportunity.lead instance with
                 | Some l => filter_first lead l w
                 | None => None
                 end in
    pipeline <- match found with
                | Some pipeline =>
                    call
                      (set_owner (Opportunity.owner instance)
                      (set_currency (Opportunity.currency instance)
                      (set_estimated_value (Some (Opportunity.estimated_value instance))
                      (set_client_name (match Opportunity.client instance with
                                        | Some name => name
                                        | None => client_name pipeline
                                        end)
                      (set_opportunity_created_date (Some (Opportunity.created_at instance))
                      (set_current_stage "OPPORTUNITY"
                      (set_opportunity (Some (Opportunity.id instance)) pipeline)))))))
                      save
                | None =>
                    objects_create
                      (set_client_name (match Opportunity.client instance with
                                        | Some name => name
                                        | None => "Unknown Client"
                                        end)
                      (set_service_description (Opportunity.description instance)
                      (set_estimated_value (Some (Opportunity.estimated_value instance))
                      (set_currency (Opportunity.currency instance)
                      (set_current_stage "OPPORTUNITY"
                      (set_opportunity (Some (Opportunity.id instance))
                      (set_owner (Opportunity.owner instance)
                      (set_opportunity_created_date (Some (Opportunity.created_at instance))
                      (set_created_by (Opportunity.created_by instance)
                         JobPipeline_new)))))))))
                end ;;
    create_opportunity_milestones pipeline instance
  else
    w <- get ;;
    match filter_first opportunity (Opportunity.id instance) w with
    | Some pipeline =>
        if String.eqb (Opportunity.status instance) "CLOSED_WON"
           && String.eqb (current_stage pipeline) "OPPORTUNITY" then
          call (set_current_stage "CONTRACT" pipeline) save ;;; ret tt
        else if String.eqb (Opportunity.status instance) "CLOSED_LOST" then
          call (set_status "CANCELLED" pipeline) save ;;; ret tt
        else ret tt
    | None => ret tt
    end.

(** [instance.agreement_date or timezone.now()] *)
Definition agreement_date_or_now (instance : Contract.t) : M World datetime :=
  match Contract.agreement_date instance with
  | Some d => ret (datetime_of_date d)
  | None => timezone_now
  end.

(** [@receiver(post_save, sender=Contract)] *)
Definition update_pipeline_from_contract (instance : Contract.t) (created : bool)
  : M World unit :=
  if created then
    w <- get ;;
    let found := match Contract.opportunity instance with
                 | Some o => filter_first opportunity o w
                 | None => None
                 end in
    pipeline <- match found with
                | Some pipeline =>
                    signed <- agreement_date_or_now instance ;;
                    call
                      (set_currency (Contract.currency instance)
                      (set_estimated_value (Some (Contract.contract_value instance))
                      (set_client_name (Contract.client_organization instance)
                      (set_contract_signed_date (Some signed)
                      (set_current_stage "CONTRACT"
                      (set_contract (Some (Contract.id instance)) pipeline))))))
                      save
                | None =>
                    signed <- agreement_date_or_now instance ;;
                    objects_create
                      (set_client_name (Contract.client_organization instance)
                      (set_service_description
                         ("Contract services for " ++ Contract.client_organization instance)
                      (set_estimated_value (Some (Contract.contract_value instance))
                      (set_currency (Contract.currency instance)
                      (set_current_stage "CONTRACT"
                      (set_contract (Some (Contract.id instance))
                      (set_contract_signed_date (Some signed)
                      (set_created_by (Contract.created_by instance)
                         JobPipeline_new))))))))
                end ;;
    create_contract_milestones pipeline instance
  else
    (* the pipeline of the contract is looked up and nothing is done with it *)
    ret tt.

(** [instance.pipeline]: [None] when the foreign key is null, the row it
    points to otherwise; a key that matches no row raises
    [JobPipeline.DoesNotExist]. *)
Definition Audit_pipeline (instance : Audit.t) : M World (option JobPipeline) :=
  w <- get ;;
  match Audit.pipeline instance with
  | None => ret None
  | Some i =>
      match get_by_pk i w with
      | Some pipeline => ret (Some pipeline)
      | None => raise (DoesNotExist "JobPipeline matching query does not exist.")
      end
  end.

(** [@receiver(post_save, sender=Audit)] *)
Definition update_pipeline_from_audit (instance : Audit.t) (created : bool)
  : M World unit :=
  found <- Audit_pipeline instance ;;
  match created, found with
  | true, Some pipeline =>
      if String.eqb (current_stage pipeline) "CONTRACT" then
        now <- timezone_now ;;
        pipeline <- call (set_audit_scheduled_date (Some now)
                         (set_current_stage "AUDIT_SCHEDULED" pipeline)) save ;;
        create_audit_milestones pipeline instance
      else ret tt
  | true, None => ret tt
  | false, Some pipeline =>
      if String.eqb (Audit.status instance) "IN_PROGRESS"
         && String.eqb (current_stage pipeline) "AUDIT_SCHEDULED" then
        call (set_current_stage "AUDIT_IN_PROGRESS" pipeline) save ;;; ret tt
      else if String.eqb (Audit.status instance) "COMPLETED"
              && String.eqb (current_stage pipeline) "AUDIT_IN_PROGRESS" then
        now <- timezone_now ;;
        call (set_audit_completed_date (Some now)
             (set_current_stage "AUDIT_COMPLETED" pipeline)) save ;;; ret tt
      else ret tt
  | false, None => ret tt
  end.

(* ================================================================== *)
(** ** apps/certifications/models.py and the status actions of
       apps/certifications/views.py                                     *)
(* ================================================================== *)

Module Certifications.

(** What the attribute [expiry_date] can hold: a [date] once the row went
    through a serializer or came from the database, and whatever
    [request.data.get('expiry_date')] gave when the renew action assigned it. *)
Inductive pyval : Type :=
| PyNone
| PyDate (d : date)
| PyStr (s : string).

Definition truthy (v : pyval) : bool :=
  match v with
  | PyNone => false
  | PyDate _ => true
  | PyStr s => negb (String.eqb s "")
  end.

Record Certification : Type := mk {
  id : nat;
  certificate_number : string;
  issue_date : date;
  expiry_date : pyval;
  status : string
}.

Definition STATUS_CHOICES : list string :=
  [ "pending"; "active"; "expiring-soon"; "expired"; "suspended"; "revoked" ].

Definition set_status (v : string) (c : Certification) : Certification :=
  mk (id c) (certificate_number c) (issue_date c) (expiry_date c) v.

Definition set_expiry_date (v : pyval) (c : Certification) : Certification :=
  mk (id c) (certificate_number c) (issue_date c) v (status c).

(** The receiver and the [certifications] table. *)
Definition Self : Type := (Certification * list Certification)%type.

Definition get_self : M Self Certification := fun s => (Ok (fst s), s).
Definition assign (f : Certification -> Certification) : M Self unit :=
  fun s => (Ok tt, (f (fst s), snd s)).

(** [certificate_number] is [unique=True]: another row holds the number. *)
Definition number_taken (self : Certification) (rows : list Certification) : bool :=
  existsb (fun r => String.eqb (certificate_number r) (certificate_number self)
                    && negb (Nat.eqb (id r) (id self))) rows.

(** [models.Model.save]: the unique constraint is checked, then the row
    with this primary key is replaced, or the object is inserted. *)
Definition Model_save : M Self unit :=
  fun s =>
    let self := fst s in
    let rows := snd s in
    if number_taken self rows then
      (Raise (IntegrityError "certifications.certificate_number"), s)
    else if existsb (fun r => Nat.eqb (id r) (id self)) rows then
      (Ok tt, (self, map (fun r => if Nat.eqb (id r) (id self) then self else r) rows))
    else
      (Ok tt, (self, (rows ++ [self])%list)).

(** [Certification.save], with [today] for [date.today()]. *)
Definition save (today : date) : M Self unit :=
  self <- get_self ;;
  (if truthy (expiry_date self) then
     match expiry_date self with
     | PyDate d =>
         let days_until_expiry := (d - today)%Z in
         if negb (str_in (status self) ["suspended"; "revoked"]) then
           if (days_until_expiry <? 0)%Z then assign (set_status "expired")
           else if (days_until_expiry <=? 90)%Z then assign (set_status "expiring-soon")
           else if String.eqb (status self) "pending" then ret tt
           else assign (set_status "active")
         else ret tt
     | _ => raise (TypeError "unsupported operand type(s) for -")
     end
   else ret tt) ;;;
  Model_save.

Inductive response : Type :=
| HTTP_200
| HTTP_201
| HTTP_400.

(** The status actions of [CertificationViewSet]. Each also appends a
    [CertificationHistory] row after the save; that table is not modelled. *)

(** [CertificationViewSet.renew] *)
Definition renew (new_expiry_date : pyval) (today : date) : M Self response :=
  if negb (truthy new_expiry_date) then ret HTTP_400
  else
    assign (set_expiry_date new_expiry_date) ;;;
    assign (set_status "active") ;;;
    save today ;;;
    ret HTTP_200.

(** [CertificationViewSet.suspend] *)
Definition suspend (today : date) : M Self response :=
  self <- get_self ;;
  if String.eqb (status self) "suspended" then ret HTTP_400
  else
    assign (set_status "suspended") ;;;
    save today ;;;
    ret HTTP_200.

(** [CertificationViewSet.revoke] *)
Definition revoke (today : date) : M Self response :=
  self <- get_self ;;
  if String.eqb (status self) "revoked" then ret HTTP_400
  else
    assign (set_status "revoked") ;;;
    save today ;;;
    ret HTTP_200.

(** [CertificationViewSet.reactivate] *)
Definition reactivate (today : date) : M Self response :=
  self <- get_self ;;
  if negb (str_in (status self) ["suspended"; "revoked"]) then ret HTTP_400
  else
    assign (set_status "active") ;;;
    save today ;;;
    ret HTTP_200.

(** The body a client sends to create or update a certification. *)
Record payload : Type := mkPayload {
  data_certificate_number : string;
  data_issue_date : date;
  data_expiry_date : date;
  data_status : option string        (* absent: the column default *)
}.

(** [CertificationCreateUpdateSerializer.is_valid]: the choice field, the
    uniqueness validator and [validate]. [exclude] is the instance updated. *)
Definition is_valid (data : payload) (exclude : option nat) (rows : list Certification)
  : bool :=
  match data_status data with
  | Some s => str_in s STATUS_CHOICES
  | None => true
  end
  && negb (existsb (fun r => String.eqb (certificate_number r) (data_certificate_number data)
                             && match exclude with
                                | Some i => negb (Nat.eqb (id r) i)
                                | None => true
                                end) rows)
  && negb (data_expiry_date data <=? data_issue_date data)%Z.

(** The create action: validation, then [perform_create]. *)
Definition create (data : payload) (new_id : nat) (today : date)
  : M (list Certification) response :=
  fun rows =>
    if is_valid data None rows then
      let obj := mk new_id (data_certificate_number data) (data_issue_date data)
                    (PyDate (data_expiry_date data))
                    (match data_status data with Some s => s | None => "pending" end) in
      match save today (obj, rows) with
      | (Ok _, s') => (Ok HTTP_201, snd s')
      | (Raise e, s') => (Raise e, snd s')
      end
    else (Ok HTTP_400, rows).

(** The update action: validation, then [perform_update]. *)
Definition update (data : payload) (today : date) : M Self response :=
  self <- get_self ;;
  rows <- (fun s => (Ok (snd s), s)) ;;
  if is_valid data (Some (id self)) rows then
    assign (fun c => mk (id c) (data_certificate_number data) (data_issue_date data)
                        (PyDate (data_expiry_date data))
                        (match data_status data with Some s => s | None => status c end)) ;;;
    save today ;;;
    ret HTTP_200
  else ret HTTP_400.

End Certifications.

(* ================================================================== *)
(** ** apps/business_development/serializers.py:
       ContractSerializer.create                                        *)
(* ================================================================== *)

Module BusinessDevelopment.

(** The two columns of [contracts] the numbering reads. *)
Record ContractRow : Type := mkRow {
  contract_number : string;
  created_at : datetime
}.

(** [f"CON-{year}-{count:04d}"] *)
Definition contract_number_of (year count : N) : string :=
  "CON-" ++ str_of_N year ++ "-" ++ format_0wd 4 count.

(** [Contract.objects.filter(contract_number=s).exists()] *)
Definition number_exists (rows : list ContractRow) (s : string) : bool :=
  existsb (fun r => String.eqb (contract_number r) s) rows.

(** [Contract.objects.filter(created_at__gte=year_start).count()] *)
Definition count_since (year_start : datetime) (rows : list ContractRow) : N :=
  N.of_nat (List.length (filter (fun r => (year_start <=? created_at r)%Z) rows)).

(** The [while] loop that steps [count] until the number is free; [fuel]
    bounds the iterations, [None] is "not finished within [fuel]". *)
Fixpoint ensure_unique (fuel : nat) (rows : list ContractRow) (year count : N)
  : option N :=
  match fuel with
  | O => None
  | S fuel' =>
      if number_exists rows (contract_number_of year count)
      then ensure_unique fuel' rows year (count + 1)%N
      else Some count
  end.

(** The number [ContractSerializer.create] puts into [validated_data], for
    [year = datetime.now().year] and [year_start = datetime(year, 1, 1)]. *)
Definition generate_contract_number (fuel : nat) (year : N) (year_start : datetime)
  (rows : list ContractRow) : option string :=
  let count := (count_since year_start rows + 1)%N in
  option_map (contract_number_of year) (ensure_unique fuel rows year count).

(** [ContractSerializer.create]: the number, then the insert of
    [super().create], stamped [now] by [auto_now_add]. *)
Definition create (fuel : nat) (year : N) (year_start now : datetime)
  (rows : list ContractRow) : option (string * list ContractRow) :=
  match generate_contract_number fuel year year_start rows with
  | Some s => Some (s, (rows ++ [mkRow s now])%list)
  | None => None
  end.

End BusinessDevelopment.

(* ================================================================== *)
(** ** Descriptions used in the statements                              *)
(* ================================================================== *)

(** The number [JobPipeline.save] gives an object that has none, read off
    the table: one more than the row [order_by('-number').first()] finds. *)
Definition next_number (w : World) : N :=
  match order_by_number_desc_first w with
  | Some l => if number_truthy (number l) then (number_or_0 (number l) + 1)%N else 1%N
  | None => 1%N
  end.

(** The object as [JobPipeline.save] passes it on to [models.Model.save]. *)
Definition numbered (p : JobPipeline) (w : World) : JobPipeline :=
  let p1 := if number_truthy (number p) then p else set_number (Some (next_number w)) p in
  if String.eqb (pipeline_id p1) ""
  then set_pipeline_id ("PL-" ++ format_0wd 5 (number_or_0 (number p1))) p1
  else p1.

(** The timestamp assignment of [advance_stage], as one function. *)
Definition stamp (new_stage : string) (now : datetime) (p : JobPipeline) : JobPipeline :=
  if String.eqb new_stage "OPPORTUNITY" then set_opportunity_created_date (Some now) p
  else if String.eqb new_stage "CONTRACT" then set_contract_signed_date (Some now) p
  else if String.eqb new_stage "AUDIT_SCHEDULED" then set_audit_scheduled_date (Some now) p
  else if String.eqb new_stage "AUDIT_COMPLETED" then set_audit_completed_date (Some now) p
  else if String.eqb new_stage "CERTIFICATE_ISSUED" then set_certificate_issued_date (Some now) p
  else p.

(** The largest number stored, [0] when no row has one. *)
Definition max_number (rows : list JobPipeline) : N :=
  fold_right (fun r m => N.max (number_or_0 (number r)) m) 0%N rows.

(** Reading a decimal numeral back, leading zeros allowed. *)
Definition parse_N (s : string) : option N :=
  option_map N.of_uint (NilEmpty.uint_of_string s).

(** A row as [JobPipeline.save] leaves it: a primary key, a positive number
    and the identifier derived from the number. *)
Definition numbered_row (r : JobPipeline) : Prop :=
  exists i n, pk r = Some i /\ number r = Some n /\ (0 < n)%N
              /\ pipeline_id r = "PL-" ++ format_0wd 5 n.

(** A table every row of which went through [JobPipeline.save], under the
    primary key and the [unique=True] constraint on [number]. *)
Definition table_ok (rows : list JobPipeline) : Prop :=
  Forall numbered_row rows /\ NoDup (map pk rows) /\ NoDup (map number rows).

(** An object that was loaded from the row [r]: the columns [save] and the
    constraints look at are the row's. *)
Definition loaded_from (p r : JobPipeline) : Prop :=
  pk p = pk r /\ number p = number r /\ pipeline_id p = pipeline_id r.

(** An object [JobPipeline(...)] built without a key, number or identifier. *)
Definition unsaved (p : JobPipeline) : Prop :=
  pk p = None /\ number p = None /\ pipeline_id p = "".

(** [UPDATE ... WHERE id = i]: the stored row with key [i] becomes [p]. *)
Definition replace_row (i : nat) (p : JobPipeline) (rows : list JobPipeline)
  : list JobPipeline :=
  map (fun r => if opt_nat_eqb (pk r) (Some i) then p else r) rows.

(** Running a list of [advance_stage] calls one after the other on the same
    object, each in a [try]: after an exception the object and the database
    are kept as the call left them. *)
Fixpoint advance_each (requests : list (string * user_arg)) (s : Self) : Self :=
  match requests with
  | [] => s
  | (new_stage, user) :: rest => advance_each rest (snd (advance_stage new_stage user s))
  end.




(** A sequence of stages each of which is a listed successor of the one
    before. *)
Fixpoint valid_path (path : list string) : bool :=
  match path with
  | a :: (b :: _) as rest => successor a b && valid_path rest
  | _ => true
  end.

(** The edge that sends a certified client back to a new audit. *)
Definition surveillance_edge (a b : string) : bool :=
  String.eqb a "SURVEILLANCE_DUE" && String.eqb b "AUDIT_SCHEDULED".

(** A valid path that never takes that edge. *)
Fixpoint forward_path (path : list string) : bool :=
  match path with
  | a :: (b :: _) as rest =>
      successor a b && negb (surveillance_edge a b) && forward_path rest
  | _ => true
  end.

(** Position of a stage in [STAGE_CHOICES]. *)
Fixpoint index_of (s : string) (l : list string) : nat :=
  match l with
  | [] => O
  | x :: l' => if String.eqb s x then O else S (index_of s l')
  end.

Definition rank (s : string) : nat := index_of s STAGE_CHOICES.

(* ------------------------------------------------------------------ *)
(** *** Sample data                                                     *)
(* ------------------------------------------------------------------ *)

Definition w_empty : World := mkWorld 1000 [] [] [] false.

Definition lead_acme : Lead.t :=
  Lead.mk 1 "Acme" (Some 50000%Z) "KES" "QUALIFIED" None 990 None.


Definition opportunity_acme : Opportunity.t :=
  Opportunity.mk 1 (Some "Acme Ltd") (Some 1) "ISO 9001 certification" 70000 "KES"
                 "PROSPECTING" 20000 None 995 None.

Definition opportunity_acme_again : Opportunity.t :=
  Opportunity.mk 2 (Some "Acme Ltd") (Some 1) "ISO 14001 certification" 75000 "KES"
                 "PROSPECTING" 20100 None 1005 None.

Definition contract_acme : Contract.t :=
  Contract.mk 1 (Some 1) None "Acme Org" None 90000 "USD" "DRAFT" None.

Definition audit_acme : Audit.t :=
  Audit.mk 1 (Some 1) "CERTIFICATION" (Some 20200%Z) (Some 20203%Z) None "PLANNED".

(** The database after the lead [lead_acme] was created, then after an
    opportunity for it, then after a contract for that opportunity. *)
Definition w_lead : World :=
  Eval vm_compute in snd (create_pipeline_from_lead lead_acme true w_empty).

Definition w_opportunity : World :=
  Eval vm_compute in snd (update_pipeline_from_opportunity opportunity_acme true w_lead).

Definition w_contract : World :=
  Eval vm_compute in snd (update_pipeline_from_contract contract_acme true w_opportunity).

(** The pipeline row of the first. *)
Definition p_lead : JobPipeline := hd JobPipeline_new (job_pipelines w_lead).

Definition surveillance_cycle : list string :=
  [ "LEAD"; "OPPORTUNITY"; "CONTRACT"; "AUDIT_SCHEDULED"; "AUDIT_IN_PROGRESS";
    "AUDIT_COMPLETED"; "SURVEILLANCE_DUE"; "AUDIT_SCHEDULED" ].

(** Two calls on the sample pipeline, and an unsaved pipeline. *)
Definition lead_to_closed : res unit * Self :=
  advance_stage "CLOSED" NoUser (p_lead, w_lead).

Definition lead_to_opportunity : res unit * Self :=
  advance_stage "OPPORTUNITY" (User 7) (p_lead, w_lead).




(** The sample pipeline once closed, and the database then. *)
Definition p_closed : JobPipeline := Eval vm_compute in fst (snd lead_to_closed).
Definition w_closed : World := Eval vm_compute in snd (snd lead_to_closed).

(** A computation that never touches the transition table. *)
Definition keeps_transitions {A} (m : M World A) : Prop :=
  forall w, pipeline_stage_transitions (snd (m w)) = pipeline_stage_transitions w.

(* ------------------------------------------------------------------ *)
(** *** Certifications                                                  *)
(* ------------------------------------------------------------------ *)

(** The number of stored contracts created at [year_start] or later,
    counted row by row. *)
Fixpoint created_since (year_start : datetime)
  (rows : list BusinessDevelopment.ContractRow) : N :=
  match rows with
  | [] => 0%N
  | r :: rest =>
      if (year_start <=? BusinessDevelopment.created_at r)%Z
      then (created_since year_start rest + 1)%N
      else created_since year_start rest
  end.

(** One contract of the year before and two of this year, the second of
    which was numbered out of turn. *)
Definition contracts_2024 : list BusinessDevelopment.ContractRow :=
  [ BusinessDevelopment.mkRow "CON-2023-0009" 50%Z;
    BusinessDevelopment.mkRow "CON-2024-0001" 150%Z;
    BusinessDevelopment.mkRow "CON-2024-0003" 160%Z ].

(** The operations that write a certification's status. *)
Inductive action : Type :=
| Save
| Renew (new_expiry_date : Certifications.pyval)
| Suspend
| Revoke
| Reactivate
| Update (data : Certifications.payload).

Definition perform (a : action) (today : date)
  : M Certifications.Self Certifications.response :=
  match a with
  | Save => Certifications.save today ;;; ret Certifications.HTTP_200
  | Renew v => Certifications.renew v today
  | Suspend => Certifications.suspend today
  | Revoke => Certifications.revoke today
  | Reactivate => Certifications.reactivate today
  | Update data => Certifications.update data today
  end.

Definition status_in_choices (c : Certifications.Certification) : Prop :=
  In (Certifications.status c) Certifications.STATUS_CHOICES.

(** The status of the object and of every stored row is one of the choices. *)
Definition statuses_ok (s : Certifications.Self) : Prop :=
  status_in_choices (fst s) /\ Forall status_in_choices (snd s).

(** The five statuses the glossary lists. *)
Definition glossary_statuses : list string :=
  [ "active"; "expiring"; "expired"; "suspended"; "revoked" ].

Definition cert_active : Certifications.Certification :=
  Certifications.mk 1 "CERT-0001" 19000 (Certifications.PyDate 20030) "active".

(** The same certification as the renew action hands it to [save] for the
    request body [{expiry_date: 2020-01-01}]. *)
Definition cert_renewed : Certifications.Certification :=
  Certifications.set_status "active"
    (Certifications.set_expiry_date (Certifications.PyStr "2020-01-01") cert_active).

(* ------------------------------------------------------------------ *)
(** *** Stage changes                                                   *)
(* ------------------------------------------------------------------ *)

(** From the object [p] and database [w] to [p'] and [w'], for a call made
    for [user]: either the stage and the transition rows are as before, or
    the stage moved along a listed edge and exactly one row that records
    the move was appended. *)
Definition moved (p : JobPipeline) (w : World) (user : option nat)
  (p' : JobPipeline) (w' : World) : Prop :=
  (current_stage p' = current_stage p
   /\ pipeline_stage_transitions w' = pipeline_stage_transitions w)
  \/ (successor (current_stage p) (current_stage p') = true
      /\ exists t, pipeline_stage_transitions w' = (pipeline_stage_transitions w ++ [t])%list
                   /\ from_stage t = current_stage p
                   /\ to_stage t = current_stage p'
                   /\ transitioned_by t = user).

(** Every row of [rows'] is a row of [rows] (by primary key) whose stage is
    the same or a listed successor. *)
Definition stages_follow_edges (rows rows' : list JobPipeline) : Prop :=
  forall row', In row' rows' ->
    exists row, In row rows /\ pk row = pk row'
                /\ (current_stage row' = current_stage row
                    \/ successor (current_stage row) (current_stage row') = true).

(** The database after a second opportunity for the same lead was created
    once the pipeline had reached CONTRACT. *)
Definition w_reopened : World :=
  Eval vm_compute in
    snd (update_pipeline_from_opportunity opportunity_acme_again true w_contract).

(* ================================================================== *)
(** ** apps/job_pipeline/models.py: the computed properties             *)
(* ================================================================== *)

Definition stage_weights : list (string * Z) :=
  [ ("LEAD", 10%Z); ("OPPORTUNITY", 25%Z); ("CONTRACT", 50%Z);
    ("AUDIT_SCHEDULED", 70%Z); ("AUDIT_IN_PROGRESS", 85%Z);
    ("AUDIT_COMPLETED", 95%Z); ("CERTIFICATE_ISSUED", 100%Z);
    ("SURVEILLANCE_DUE", 100%Z); ("CLOSED", 100%Z) ].

(** [JobPipeline.stage_progress_percentage] *)
Definition stage_progress_percentage (p : JobPipeline) : Z :=
  dict_get stage_weights (current_stage p) 0%Z.

Definition stage_start_dates (p : JobPipeline) : list (string * option datetime) :=
  [ ("LEAD", lead_created_date p);
    ("OPPORTUNITY", opportunity_created_date p);
    ("CONTRACT", contract_signed_date p);
    ("AUDIT_SCHEDULED", audit_scheduled_date p);
    ("AUDIT_IN_PROGRESS", audit_scheduled_date p);
    ("AUDIT_COMPLETED", audit_completed_date p);
    ("CERTIFICATE_ISSUED", certificate_issued_date p) ].

(** [JobPipeline.days_in_current_stage], with [now] for [timezone.now()];
    [timedelta.days] rounds towards minus infinity. *)
Definition days_in_current_stage (now : datetime) (p : JobPipeline) : Z :=
  match dict_get (stage_start_dates p) (current_stage p) None with
  | Some start_date => ((now - start_date) / 86400)%Z
  | None => 0%Z
  end.

Definition is_some {A} (o : option A) : bool :=
  match o with Some _ => true | None => false end.

(** [JobPipeline.opportunity_ref] *)
Definition opportunity_ref (p : JobPipeline) : option string :=
  if is_some (opportunity p) && number_truthy (number p)
  then Some ("PL-O-" ++ format_0wd 5 (number_or_0 (number p)))
  else None.

(** [JobPipeline.contract_ref] *)
Definition contract_ref (p : JobPipeline) : option string :=
  if is_some (contract p) && number_truthy (number p)
  then Some ("PL-C-" ++ format_0wd 5 (number_or_0 (number p)))
  else None.

(** [JobPipeline.get_audit_ref]; the audit passed is not looked at. *)
Definition get_audit_ref (p : JobPipeline) (audit : Audit.t) : option string :=
  if number_truthy (number p)
  then Some ("PL-A-" ++ format_0wd 5 (number_or_0 (number p)))
  else None.

(** The two columns of [PipelineMilestone] its properties read. *)
Module Milestone.
Record t : Type := mk {
  due_date : date;
  is_completed : bool
}.

(** [PipelineMilestone.is_overdue], with [today] for [timezone.now().date()]. *)
Definition is_overdue (today : date) (m : t) : bool :=
  negb (is_completed m) && (due_date m <? today)%Z.

(** [PipelineMilestone.days_remaining] *)
Definition days_remaining (today : date) (m : t) : Z :=
  if (today <=? due_date m)%Z then (due_date m - today)%Z else 0%Z.
End Milestone.

(* ================================================================== *)
(** ** apps/certifications/models.py: the computed properties           *)
(* ================================================================== *)

Module CertificationProperties.

(** [Certification.days_until_expiry] *)
Definition days_until_expiry (today : date) (c : Certifications.Certification)
  : res (option Z) :=
  if Certifications.truthy (Certifications.expiry_date c) then
    match Certifications.expiry_date c with
    | Certifications.PyDate d => Ok (Some (d - today)%Z)
    | _ => Raise (TypeError "unsupported operand type(s) for -")
    end
  else Ok None.

(** [Certification.is_expired] *)
Definition is_expired (today : date) (c : Certifications.Certification) : res bool :=
  if Certifications.truthy (Certifications.expiry_date c) then
    match Certifications.expiry_date c with
    | Certifications.PyDate d => Ok (d <? today)%Z
    | _ => Raise (TypeError "'<' not supported")
    end
  else Ok false.

(** [Certification.is_expiring_soon] *)
Definition is_expiring_soon (today : date) (c : Certifications.Certification) : res bool :=
  match days_until_expiry today c with
  | Ok (Some days) => Ok ((0 <=? days)%Z && (days <=? 90)%Z)
  | Ok None => Ok false
  | Raise e => Raise e
  end.

End CertificationProperties.

(* ================================================================== *)
(** ** apps/job_pipeline/views.py: JobPipelineViewSet.advance_stage     *)
(* ================================================================== *)

Inductive http : Type :=
| HTTP_200_OK
| HTTP_400_BAD_REQUEST
| HTTP_404_NOT_FOUND.

(** [with transaction.atomic():] an exception that leaves the block undoes
    the writes to the tables; the object in memory and the clock stay as
    they are. *)
Definition atomic {A} (m : M Self A) : M Self A :=
  fun s =>
    match m s with
    | (Ok a, s') => (Ok a, s')
    | (Raise e, s') =>
        let w := snd s in
        (Raise e, (fst s', mkWorld (clock (snd s')) (job_pipelines w)
                                   (pipeline_stage_transitions w) (pipeline_milestones w)
                                   (nulls_first w)))
    end.

(** The action [advance_stage] of the view set, for a request without query
    parameters (so that [get_queryset] filters nothing and [get_object]
    finds the pipeline by its primary key [i] or answers 404), with
    [stage = request.data.get('stage')], a string or absent, and [user] the
    key of the stored user who makes the request ([request.user]). The
    value is the status of the response; its body is not modelled. *)
Definition view_advance_stage (i : nat) (stage : option string) (user : nat)
  : M World http :=
  w <- get ;;
  match get_by_pk i w with
  | None => ret HTTP_404_NOT_FOUND
  | Some pipeline =>
      match stage with
      | None => ret HTTP_400_BAD_REQUEST
      | Some new_stage =>
          if String.eqb new_stage "" then ret HTTP_400_BAD_REQUEST
          else
            fun w =>
              match atomic (advance_stage new_stage (User user)) (pipeline, w) with
              | (Ok _, s') => (Ok HTTP_200_OK, snd s')
              | (Raise (ValueError _), s') => (Ok HTTP_400_BAD_REQUEST, snd s')
              | (Raise e, s') => (Raise e, snd s')
              end
      end
  end.

(* ================================================================== *)
(** ** apps/business_development/contract_template_service.py:
       ContractTemplateService._generate_contract_number                *)
(* ================================================================== *)

(** [f"CNT-{current_year}-{yearly_count:04d}"], where [yearly_count] is one
    more than the number of contracts whose number starts with
    [f"CNT-{current_year}"]. *)
Definition cnt_number_of (year count : N) : string :=
  "CNT-" ++ str_of_N year ++ "-" ++ format_0wd 4 count.

Definition yearly_count (year : N) (rows : list BusinessDevelopment.ContractRow) : N :=
  (N.of_nat (List.length
               (filter (fun r => String.prefix ("CNT-" ++ str_of_N year)
                                               (BusinessDevelopment.contract_number r))
                       rows)) + 1)%N.

Definition _generate_contract_number (year : N) (rows : list BusinessDevelopment.ContractRow)
  : string :=
  cnt_number_of year (yearly_count year rows).

(* ------------------------------------------------------------------ *)
(** *** Descriptions used in the further statements                     *)
(* ------------------------------------------------------------------ *)

(** A computation that only appends to the milestone table, and only
    milestones marked critical. *)
Definition appends_critical {A} (m : M World A) : Prop :=
  forall w, exists added,
    pipeline_milestones (snd (m w)) = (pipeline_milestones w ++ added)%list
    /\ Forall (fun x => is_critical x = true) added.

(** A path through the stage graph from [a] to [b]. *)
Definition reaches (a b : string) : Prop :=
  exists path, valid_path (a :: path) = true /\ last (a :: path) "" = b.

(** An object that has its key, number and identifier. *)
Definition identified (p : JobPipeline) : Prop :=
  (exists i, pk p = Some i) /\ number_truthy (number p) = true /\ pipeline_id p <> "".

Definition same_identity (p p' : JobPipeline) : Prop :=
  pk p' = pk p /\ number p' = number p /\ pipeline_id p' = pipeline_id p.

(** [n] contracts created one after the other in the same year, each
    bounded by as many loop iterations as there are rows plus one. *)
Fixpoint create_many (n : nat) (year : N) (year_start now : datetime)
  (rows : list BusinessDevelopment.ContractRow)
  : option (list BusinessDevelopment.ContractRow) :=
  match n with
  | O => Some rows
  | S n' =>
      match BusinessDevelopment.create (S (List.length rows)) year year_start now rows with
      | Some (_, rows') => create_many n' year year_start now rows'
      | None => None
      end
  end.

(** The status [Certification.save] computes from the expiry date [d] for a
    certification that is neither suspended nor revoked and had status
    [old]. *)
Definition status_for (today d : date) (old : string) : string :=
  if (d - today <? 0)%Z then "expired"
  else if (d - today <=? 90)%Z then "expiring-soon"
  else if String.eqb old "pending" then "pending"
  else "active".

(** The certificates table under its primary key and the uniqueness of
    [certificate_number]. *)
Definition certificates_ok (rows : list Certifications.Certification) : Prop :=
  NoDup (map Certifications.id rows) /\ NoDup (map Certifications.certificate_number rows).

Definition cert_payload : Certifications.payload :=
  Certifications.mkPayload "CERT-0009" 19990 20500 None.

Definition cert_expiring : Certifications.Certification :=
  Certifications.mk 2 "CERT-0002" 19000 (Certifications.PyDate 20030) "suspended".

(* ================================================================== *)
(** ** JobPipeline.save and advance_stage, step by step                 *)
(* ================================================================== *)

Lemma save_unfold (p : JobPipeline) (w : World) :
  save (p, w) = Model_save (numbered p w, w).
Proof.
  unfold save, numbered, next_number, bind, get_self, assign, in_world, ret; simpl.
  destruct (number_truthy (number p)); simpl.
  - destruct (String.eqb (pipeline_id p) ""); reflexivity.
  - destruct (String.eqb _ ""); reflexivity.
Qed.

Lemma advance_stage_invalid (p : JobPipeline) (w : World) (s : string) (user : user_arg) :
  successor (current_stage p) s = false ->
  advance_stage s user (p, w)
  = (Raise (ValueError ("Cannot advance from " ++ current_stage p ++ " to " ++ s)), (p, w)).
Proof.
  unfold successor, advance_stage, bind, get_self, raise; simpl.
  intros ->. reflexivity.
Qed.

(** A valid request: the stamped object is saved, then the log row is
    created for [user]. *)
Lemma advance_stage_saves_then_logs (p : JobPipeline) (w : World) (s : string)
  (user : user_arg) :
  successor (current_stage p) s = true ->
  advance_stage s user (p, w)
  = match save (stamp s (clock w) (set_current_stage s p), tick w) with
    | (Ok _, (p', w')) =>
        in_world (transitions_create (pk p') (current_stage p) s user) (p', w')
    | (Raise e, s') => (Raise e, s')
    end.
Proof.
  unfold successor, advance_stage, stamp; intros E.
  unfold bind at 1. unfold get_self at 1. cbn [fst snd].
  rewrite E. cbn [negb].
  unfold bind, assign, in_world, timezone_now, get_self, ret; cbn [fst snd].
  repeat match goal with
         | |- context [String.eqb s ?c] => destruct (String.eqb s c)
         end;
    cbn [fst snd]; destruct (save _) as [[u|e] [p' w']]; reflexivity.
Qed.

Lemma advance_stage_valid (p : JobPipeline) (w : World) (s : string) (user : user_arg) :
  successor (current_stage p) s = true -> user <> AnonymousUser ->
  advance_stage s user (p, w)
  = match save (stamp s (clock w) (set_current_stage s p), tick w) with
    | (Ok _, (p', w')) =>
        (Ok tt, (p', with_transitions
                       (pipeline_stage_transitions w'
                          ++ [mkTransition (pk p') (current_stage p) s (user_id user)])
                       (tick w')))
    | (Raise e, s') => (Raise e, s')
    end.
Proof.
  intros E U. rewrite (advance_stage_saves_then_logs p w s user E).
  destruct (save _) as [[u|e] [p' w']]; [|reflexivity].
  destruct user; [reflexivity|reflexivity|contradiction].
Qed.

(** The same request made for an object that is no [User]: what [save]
    wrote stays, and the log insert raises. *)
Lemma advance_stage_anonymous (p : JobPipeline) (w : World) (s : string) :
  successor (current_stage p) s = true ->
  exists msg,
    advance_stage s AnonymousUser (p, w)
    = match save (stamp s (clock w) (set_current_stage s p), tick w) with
      | (Ok _, s') => (Raise (ValueError msg), s')
      | (Raise e, s') => (Raise e, s')
      end.
Proof.
  intros E. eexists. rewrite (advance_stage_saves_then_logs p w s AnonymousUser E).
  destruct (save _) as [[u|e] [p' w']]; reflexivity.
Qed.

(** A call that returns was for a listed successor and for [None] or a
    [User]. *)
Lemma advance_stage_returned_for (p : JobPipeline) (w : World) (s : string)
  (user : user_arg) :
  fst (advance_stage s user (p, w)) = Ok tt ->
  successor (current_stage p) s = true /\ user <> AnonymousUser.
Proof.
  intros H. destruct (successor (current_stage p) s) eqn:E.
  - split; [reflexivity|]. intros ->.
    destruct (advance_stage_anonymous p w s E) as (msg & A).
    rewrite A in H. destruct (save _) as [[u|e] s']; discriminate H.
  - rewrite (advance_stage_invalid p w s user E) in H. discriminate H.
Qed.

(* ------------------------------------------------------------------ *)
(** *** Number formatting is injective                                  *)
(* ------------------------------------------------------------------ *)

Lemma parse_N_zeros (k : nat) (s : string) : parse_N (zeros k ++ s) = parse_N s.
Proof.
  unfold parse_N. induction k as [|k IH]; simpl; [reflexivity|].
  destruct (NilEmpty.uint_of_string (zeros k ++ s)) as [d|] eqn:E;
    destruct (NilEmpty.uint_of_string s) as [d'|] eqn:E'; simpl in *;
    try discriminate; try reflexivity.
  injection IH as IH. f_equal. exact IH.
Qed.

Lemma parse_N_str_of_N (n : N) : parse_N (str_of_N n) = Some n.
Proof.
  unfold parse_N, str_of_N. rewrite NilEmpty.usu. simpl.
  f_equal. apply DecimalN.Unsigned.of_to.
Qed.

Lemma parse_N_format (w : nat) (n : N) : parse_N (format_0wd w n) = Some n.
Proof. unfold format_0wd. rewrite parse_N_zeros. apply parse_N_str_of_N. Qed.

Lemma format_0wd_inj (w : nat) (a b : N) : format_0wd w a = format_0wd w b -> a = b.
Proof.
  intros E. assert (H : parse_N (format_0wd w a) = parse_N (format_0wd w b)) by now rewrite E.
  rewrite !parse_N_format in H. now injection H.
Qed.

Lemma append_cancel_l (s a b : string) : s ++ a = s ++ b -> a = b.
Proof.
  induction s as [|c s IH]; simpl; intros E; [exact E|].
  injection E as E. auto.
Qed.

Lemma str_of_N_nonempty (n : N) : str_of_N n <> "".
Proof.
  intros E. pose proof (parse_N_str_of_N n) as H. rewrite E in H.
  pose proof (parse_N_str_of_N 0) as H0.
  destruct n; [discriminate E|]. cbv in H. discriminate H.
Qed.

(* ------------------------------------------------------------------ *)
(** *** models.Model.save                                               *)
(* ------------------------------------------------------------------ *)

Lemma NoDup_map_eq {A B} (f : A -> B) (l : list A) (a b : A) :
  NoDup (map f l) -> In a l -> In b l -> f a = f b -> a = b.
Proof.
  induction l as [|x l IH]; simpl; intros ND Ha Hb E; [contradiction|].
  inversion ND as [|? ? Hx ND']; subst.
  destruct Ha as [<-|Ha], Hb as [<-|Hb]; auto.
  - exfalso. apply Hx. rewrite E. now apply in_map.
  - exfalso. apply Hx. rewrite <- E. now apply in_map.
Qed.

Lemma opt_nat_eqb_eq (a b : option nat) : opt_nat_eqb a b = true <-> a = b.
Proof.
  destruct a as [x|], b as [y|]; simpl; try (split; [discriminate|discriminate]);
    try (split; reflexivity).
  rewrite Nat.eqb_eq. split; [now intros ->|now intros [= ->]].
Qed.

Lemma opt_nat_eqb_refl (a : option nat) : opt_nat_eqb a a = true.
Proof. now apply opt_nat_eqb_eq. Qed.

Lemma existsb_false {A} (f : A -> bool) (l : list A) :
  (forall x, In x l -> f x = false) -> existsb f l = false.
Proof.
  intros H. destruct (existsb f l) eqn:E; [|reflexivity].
  apply existsb_exists in E as (x & Hx & Hf). rewrite (H x Hx) in Hf. discriminate.
Qed.

(** What [models.Model.save] leaves alone, whatever its outcome. *)
Lemma Model_save_frame (p : JobPipeline) (w : World) :
  let out := Model_save (p, w) in
  let p' := fst (snd out) in
  let w' := snd (snd out) in
  (forall msg, fst out <> Raise (ValueError msg))
  /\ current_stage p' = current_stage p /\ timeline p' = timeline p
  /\ number p' = number p /\ pipeline_id p' = pipeline_id p
  /\ pipeline_stage_transitions w' = pipeline_stage_transitions w
  /\ pipeline_milestones w' = pipeline_milestones w
  /\ nulls_first w' = nulls_first w
  /\ clock w' = (clock w + 1)%Z.
Proof.
  unfold Model_save; cbn [fst snd].
  destruct (number_taken _ _); [cbn; repeat split; discriminate|].
  destruct (pipeline_id_taken _ _); [cbn; repeat split; discriminate|].
  destruct p as [[i|] ? ? ? ? ? ? ? ? ? ? ? ? ? ? ? ? ? ? ? ?]; cbn [pk set_updated_at].
  - destruct (existsb _ _); cbn; repeat split; discriminate.
  - cbn; repeat split; discriminate.
Qed.

(** Saving an object loaded from a stored row updates that row. *)
Lemma Model_save_update (p r : JobPipeline) (w : World) (i : nat) :
  table_ok (job_pipelines w) -> In r (job_pipelines w) -> loaded_from p r ->
  pk r = Some i ->
  Model_save (p, w)
  = (Ok tt, (set_updated_at (Some (clock w)) p,
             with_job_pipelines
               (replace_row i (set_updated_at (Some (clock w)) p) (job_pipelines w))
               (tick w))).
Proof.
  intros (Hrows & NDpk & NDnum) Hr (Epk & Enum & Eid) Hi.
  unfold Model_save; cbn [fst snd].
  set (q := set_updated_at (Some (clock w)) p).
  assert (Hq : pk q = Some i /\ number q = number r /\ pipeline_id q = pipeline_id r).
  { unfold q. destruct p; cbn in *. now rewrite Epk, Hi. }
  destruct Hq as (Hqpk & Hqnum & Hqid).
  change (job_pipelines (tick w)) with (job_pipelines w).
  rewrite Forall_forall in Hrows.
  destruct (Hrows r Hr) as (ir & nr & Hpk_r & Hnum_r & Hpos_r & Hid_r).
  assert (Hnum : number_taken q
                   (filter (fun x => negb (opt_nat_eqb (pk x) (pk q))) (job_pipelines w))
                 = false).
  { unfold number_taken. rewrite Hqnum, Hnum_r. apply existsb_false.
    intros x Hx. apply filter_In in Hx as (Hx & Hne).
    destruct (number x) as [m|] eqn:Em; [|reflexivity].
    destruct (N.eqb m nr) eqn:E; [|reflexivity]. apply N.eqb_eq in E. subst m.
    assert (x = r) by (apply (NoDup_map_eq number (job_pipelines w)); congruence).
    subst x. rewrite Hqpk, Hi, opt_nat_eqb_refl in Hne. discriminate. }
  rewrite Hnum.
  assert (Hpid : pipeline_id_taken q
                   (filter (fun x => negb (opt_nat_eqb (pk x) (pk q))) (job_pipelines w))
                 = false).
  { unfold pipeline_id_taken. apply existsb_false.
    intros x Hx. apply filter_In in Hx as (Hx & Hne).
    destruct (String.eqb (pipeline_id x) (pipeline_id q)) eqn:E; [|reflexivity].
    apply String.eqb_eq in E.
    destruct (Hrows x Hx) as (ix & nx & Hpk_x & Hnum_x & _ & Hid_x).
    rewrite Hqid, Hid_r, Hid_x in E.
    apply append_cancel_l, format_0wd_inj in E. subst nx.
    assert (x = r) by (apply (NoDup_map_eq number (job_pipelines w)); congruence).
    subst x. rewrite Hqpk, Hi, opt_nat_eqb_refl in Hne. discriminate. }
  rewrite Hpid, Hqpk.
  assert (Hex : existsb (fun x => opt_nat_eqb (pk x) (Some i)) (job_pipelines w) = true).
  { apply existsb_exists. exists r. split; [exact Hr|]. rewrite Hi. apply opt_nat_eqb_refl. }
  rewrite Hex. reflexivity.
Qed.


(** Saving an unsaved object whose number and identifier are free inserts it. *)
Lemma Model_save_insert (p : JobPipeline) (w : World) (n : N) :
  table_ok (job_pipelines w) -> pk p = None -> number p = Some n ->
  (forall r, In r (job_pipelines w) -> number r <> Some n) ->
  pipeline_id p = "PL-" ++ format_0wd 5 n ->
  Model_save (p, w)
  = (Ok tt, (set_pk (Some (next_pk (job_pipelines w))) (set_updated_at (Some (clock w)) p),
             with_job_pipelines
               (job_pipelines w
                  ++ [set_pk (Some (next_pk (job_pipelines w)))
                             (set_updated_at (Some (clock w)) p)])
               (tick w))).
Proof.
  intros (Hrows & NDpk & NDnum) Hpk Hnum Hfree Hid.
  unfold Model_save; cbn [fst snd].
  set (q := set_updated_at (Some (clock w)) p).
  assert (Hq : pk q = None /\ number q = Some n /\ pipeline_id q = "PL-" ++ format_0wd 5 n).
  { unfold q. destruct p; cbn in *. auto. }
  destruct Hq as (Hqpk & Hqnum & Hqid).
  change (job_pipelines (tick w)) with (job_pipelines w).
  rewrite Forall_forall in Hrows.
  assert (H1 : number_taken q
                 (filter (fun x => negb (opt_nat_eqb (pk x) (pk q))) (job_pipelines w))
               = false).
  { unfold number_taken. rewrite Hqnum. apply existsb_false.
    intros x Hx. apply filter_In in Hx as (Hx & _).
    destruct (number x) as [m|] eqn:Em; [|reflexivity].
    destruct (N.eqb m n) eqn:E; [|reflexivity]. apply N.eqb_eq in E. subst m.
    now destruct (Hfree x Hx). }
  rewrite H1.
  assert (H2 : pipeline_id_taken q
                 (filter (fun x => negb (opt_nat_eqb (pk x) (pk q))) (job_pipelines w))
               = false).
  { unfold pipeline_id_taken. apply existsb_false.
    intros x Hx. apply filter_In in Hx as (Hx & _).
    destruct (String.eqb (pipeline_id x) (pipeline_id q)) eqn:E; [|reflexivity].
    apply String.eqb_eq in E.
    destruct (Hrows x Hx) as (ix & nx & Hpk_x & Hnum_x & _ & Hid_x).
    rewrite Hqid, Hid_x in E. apply append_cancel_l, format_0wd_inj in E. subst nx.
    now destruct (Hfree x Hx). }
  rewrite H2, Hqpk. reflexivity.
Qed.

Lemma table_ok_replace (rows : list JobPipeline) (r q : JobPipeline) (i : nat) :
  table_ok rows -> In r rows -> pk r = Some i -> loaded_from q r ->
  table_ok (replace_row i q rows).
Proof.
  intros (Hrows & NDpk & NDnum) Hr Hi (Epk & Enum & Eid).
  assert (Hsame : forall x, In x rows -> opt_nat_eqb (pk x) (Some i) = true -> x = r).
  { intros x Hx E. apply opt_nat_eqb_eq in E.
    apply (NoDup_map_eq pk rows); congruence. }
  unfold table_ok, replace_row. repeat split.
  - rewrite Forall_forall in *. intros y Hy.
    apply in_map_iff in Hy as (x & <- & Hx).
    destruct (opt_nat_eqb (pk x) (Some i)); [|auto].
    destruct (Hrows r Hr) as (ir & nr & H1 & H2 & H3 & H4).
    exists ir, nr. repeat split; congruence.
  - rewrite map_map. erewrite map_ext_in; [exact NDpk|].
    intros x Hx; cbn. destruct (opt_nat_eqb (pk x) (Some i)) eqn:E; [|reflexivity].
    rewrite (Hsame x Hx E). exact Epk.
  - rewrite map_map. erewrite map_ext_in; [exact NDnum|].
    intros x Hx; cbn. destruct (opt_nat_eqb (pk x) (Some i)) eqn:E; [|reflexivity].
    rewrite (Hsame x Hx E). exact Enum.
Qed.


(* ------------------------------------------------------------------ *)
(** *** order_by('-number').first()                                     *)
(* ------------------------------------------------------------------ *)

Lemma max_number_ge (rows : list JobPipeline) (r : JobPipeline) :
  In r rows -> (number_or_0 (number r) <= max_number rows)%N.
Proof.
  induction rows as [|x rows IH]; simpl; [contradiction|].
  intros [->|Hr]; [lia|]. specialize (IH Hr). lia.
Qed.

Lemma first_by_number (nf : bool) (rows : list JobPipeline) :
  nf = false \/ Forall (fun r => number r <> None) rows ->
  match first_by (fun a b => number_desc_before nf (number a) (number b)) rows with
  | Some l => In l rows /\ number_or_0 (number l) = max_number rows
  | None => rows = []
  end.
Proof.
  induction rows as [|r rest IH]; intros Hnf; [reflexivity|].
  assert (Hnf' : nf = false \/ Forall (fun r => number r <> None) rest).
  { destruct Hnf as [H|H]; [now left|right; now inversion H]. }
  specialize (IH Hnf'). cbn [first_by].
  destruct (first_by _ rest) as [r'|].
  - destruct IH as (Hin & Hmax).
    assert (Hr' : nf = true -> number r' <> None).
    { intros ->. destruct Hnf as [H|H]; [discriminate|].
      inversion H as [|? ? _ H']. rewrite Forall_forall in H'. now apply H'. }
    assert (Hr : nf = true -> number r <> None).
    { intros ->. destruct Hnf as [H|H]; [discriminate|]. now inversion H. }
    cbn [max_number fold_right]. fold (max_number rest). rewrite <- Hmax.
    unfold number_desc_before.
    destruct (number r') as [x|] eqn:E', (number r) as [y|] eqn:E; cbn [number_or_0].
    + destruct (N.ltb y x) eqn:L.
      * apply N.ltb_lt in L. split; [now right|]. rewrite E'. cbn. lia.
      * apply N.ltb_ge in L. split; [now left|]. rewrite E. cbn. lia.
    + destruct nf; cbn [negb].
      * now destruct (Hr eq_refl).
      * split; [now right|]. rewrite E'. cbn. lia.
    + destruct nf.
      * now destruct (Hr' eq_refl).
      * split; [now left|]. rewrite E. cbn. lia.
    + split; [now left|]. rewrite E. reflexivity.
  - subst rest. split; [now left|]. cbn. lia.
Qed.

Lemma next_number_max (w : World) :
  nulls_first w = false \/ Forall (fun r => number r <> None) (job_pipelines w) ->
  next_number w = (max_number (job_pipelines w) + 1)%N.
Proof.
  intros H. unfold next_number, order_by_number_desc_first.
  pose proof (first_by_number (nulls_first w) (job_pipelines w) H) as F.
  destruct (first_by _ _) as [l|].
  - destruct F as (_ & <-). unfold number_truthy.
    destruct (number l) as [m|]; cbn; [|reflexivity].
    destruct (N.eqb_spec m 0); cbn; [subst; reflexivity|reflexivity].
  - rewrite F. reflexivity.
Qed.

Lemma table_ok_numbered (rows : list JobPipeline) :
  table_ok rows -> Forall (fun r => number r <> None) rows.
Proof.
  intros (H & _). rewrite Forall_forall in *. intros r Hr.
  destruct (H r Hr) as (_ & n & _ & E & _). rewrite E. discriminate.
Qed.

Lemma table_ok_pk (rows : list JobPipeline) (r : JobPipeline) :
  table_ok rows -> In r rows -> exists i, pk r = Some i.
Proof.
  intros (H & _) Hr. rewrite Forall_forall in H.
  destruct (H r Hr) as (i & _ & E & _). now exists i.
Qed.

(* ------------------------------------------------------------------ *)
(** *** JobPipeline.save                                                *)
(* ------------------------------------------------------------------ *)

Lemma numbered_row_truthy (r : JobPipeline) :
  numbered_row r -> number_truthy (number r) = true /\ String.eqb (pipeline_id r) "" = false.
Proof.
  intros (i & n & _ & En & Hpos & Eid). rewrite En, Eid. split.
  - cbn. destruct (N.eqb_spec n 0); [lia|reflexivity].
  - reflexivity.
Qed.

Lemma numbered_loaded (p r : JobPipeline) (w : World) :
  numbered_row r -> loaded_from p r -> numbered p w = p.
Proof.
  intros Hr (_ & En & Eid). destruct (numbered_row_truthy r Hr) as (T & I).
  unfold numbered. rewrite En, T, Eid, I. reflexivity.
Qed.

Lemma save_loaded (p r : JobPipeline) (w : World) (i : nat) :
  table_ok (job_pipelines w) -> In r (job_pipelines w) -> loaded_from p r ->
  pk r = Some i ->
  save (p, w)
  = (Ok tt, (set_updated_at (Some (clock w)) p,
             with_job_pipelines
               (replace_row i (set_updated_at (Some (clock w)) p) (job_pipelines w))
               (tick w))).
Proof.
  intros Hok Hr Hl Hi. rewrite save_unfold.
  assert (Hn : numbered_row r).
  { destruct Hok as (H & _). rewrite Forall_forall in H. auto. }
  rewrite (numbered_loaded p r w Hn Hl). now apply (Model_save_update p r).
Qed.

Lemma numbered_unsaved (p : JobPipeline) (w : World) :
  unsaved p ->
  numbered p w
  = set_pipeline_id ("PL-" ++ format_0wd 5 (next_number w)) (set_number (Some (next_number w)) p).
Proof.
  intros (_ & En & Eid). unfold numbered. rewrite En. cbn [number_truthy].
  destruct p; cbn in *. subst. reflexivity.
Qed.

Lemma save_unsaved (p : JobPipeline) (w : World) :
  table_ok (job_pipelines w) -> unsaved p ->
  let n := (max_number (job_pipelines w) + 1)%N in
  let q := set_pk (Some (next_pk (job_pipelines w)))
             (set_updated_at (Some (clock w))
                (set_pipeline_id ("PL-" ++ format_0wd 5 n) (set_number (Some n) p))) in
  save (p, w) = (Ok tt, (q, with_job_pipelines (job_pipelines w ++ [q]) (tick w))).
Proof.
  intros Hok Hu n q. rewrite save_unfold, (numbered_unsaved p w Hu).
  rewrite (next_number_max w) by (right; now apply table_ok_numbered). fold n.
  destruct Hu as (Epk & _ & _).
  apply (Model_save_insert _ w n); auto;
    try (destruct p; cbn in *; auto; fail).
  intros r Hr E. pose proof (max_number_ge _ r Hr) as L. rewrite E in L. cbn in L.
  unfold n in L. lia.
Qed.

(* ================================================================== *)
(** ** Claims about JobPipeline.advance_stage                           *)
(* ================================================================== *)

Lemma save_never_ValueError (p : JobPipeline) (w : World) (msg : string) :
  fst (save (p, w)) <> Raise (ValueError msg).
Proof. rewrite save_unfold. apply (Model_save_frame (numbered p w) w). Qed.

(** C1, as the code has it. A stage that is not listed as a successor of
    the current stage in [valid_progressions] makes [advance_stage] raise
    [ValueError], whatever user is passed, and then the object and the whole
    database are as before: in particular the current stage, the six
    timeline columns and the transition rows. Called for [None] or for a
    [User], [advance_stage] raises [ValueError] in no other case. *)
Theorem advance_stage_raises_iff_not_successor
  (p : JobPipeline) (w : World) (s : string) (user : user_arg) :
  let out := advance_stage s user (p, w) in
  let p' := fst (snd out) in
  let w' := snd (snd out) in
  (successor (current_stage p) s = false ->
   (exists msg, fst out = Raise (ValueError msg))
   /\ p' = p /\ w' = w
   /\ current_stage p' = current_stage p
   /\ timeline p' = timeline p
   /\ pipeline_stage_transitions w' = pipeline_stage_transitions w
   /\ job_pipelines w' = job_pipelines w)
  /\ (user <> AnonymousUser ->
      ((exists msg, fst out = Raise (ValueError msg))
       <-> successor (current_stage p) s = false))
  /\ (user <> AnonymousUser ->
      (exists msg, fst out = Raise (ValueError msg)) ->
      p' = p /\ w' = w
      /\ current_stage p' = current_stage p
      /\ timeline p' = timeline p
      /\ pipeline_stage_transitions w' = pipeline_stage_transitions w
      /\ job_pipelines w' = job_pipelines w).
Proof.
  cbv zeta.
  assert (I : successor (current_stage p) s = false ->
              (exists msg, fst (advance_stage s user (p, w)) = Raise (ValueError msg))
              /\ fst (snd (advance_stage s user (p, w))) = p
              /\ snd (snd (advance_stage s user (p, w))) = w
              /\ current_stage (fst (snd (advance_stage s user (p, w)))) = current_stage p
              /\ timeline (fst (snd (advance_stage s user (p, w)))) = timeline p
              /\ pipeline_stage_transitions (snd (snd (advance_stage s user (p, w))))
                 = pipeline_stage_transitions w
              /\ job_pipelines (snd (snd (advance_stage s user (p, w)))) = job_pipelines w).
  { intros E. rewrite (advance_stage_invalid p w s user E); cbn.
    split; [eexists; reflexivity|]. repeat split; reflexivity. }
  assert (V : user <> AnonymousUser ->
              (exists msg, fst (advance_stage s user (p, w)) = Raise (ValueError msg)) ->
              successor (current_stage p) s = false).
  { intros U (msg & H). destruct (successor (current_stage p) s) eqn:E; [|reflexivity].
    rewrite (advance_stage_valid p w s user E U) in H.
    pose proof (save_never_ValueError
                  (stamp s (clock w) (set_current_stage s p)) (tick w) msg) as NV.
    destruct (save _) as [[u|e] [p' w']]; cbn in *; [discriminate|contradiction]. }
  split; [exact I|split].
  - intros U. split; [exact (V U)|]. intros E. apply (I E).
  - intros U H. apply (I (V U H)).
Qed.

Lemma advance_stage_raises_iff_not_successor_witness :
  exists msg,
    fst (advance_stage "AUDIT_SCHEDULED" NoUser (p_lead, w_lead)) = Raise (ValueError msg).
Proof.
  destruct (advance_stage_raises_iff_not_successor p_lead w_lead "AUDIT_SCHEDULED" NoUser)
    as (_ & H & _).
  cbv zeta in H. apply H; [discriminate|reflexivity].
Defined.

(** C1 as stated fails: OPPORTUNITY is a listed successor of LEAD, yet the
    call made for an [AnonymousUser] raises [ValueError], from the insert of
    the log row, after the new stage and its timestamp were assigned and
    saved; no transition row is written. *)
Lemma advance_stage_raises_after_saving_for_anonymous_user :
  successor (current_stage p_lead) "OPPORTUNITY" = true
  /\ (exists msg,
        fst (advance_stage "OPPORTUNITY" AnonymousUser (p_lead, w_lead))
        = Raise (ValueError msg))
  /\ current_stage p_lead = "LEAD"
  /\ current_stage (fst (snd (advance_stage "OPPORTUNITY" AnonymousUser (p_lead, w_lead))))
     = "OPPORTUNITY"
  /\ timeline (fst (snd (advance_stage "OPPORTUNITY" AnonymousUser (p_lead, w_lead))))
     <> timeline p_lead
  /\ map current_stage (job_pipelines w_lead) = ["LEAD"]
  /\ map current_stage
         (job_pipelines (snd (snd (advance_stage "OPPORTUNITY" AnonymousUser (p_lead, w_lead)))))
     = ["OPPORTUNITY"]
  /\ pipeline_stage_transitions
       (snd (snd (advance_stage "OPPORTUNITY" AnonymousUser (p_lead, w_lead)))) = [].
Proof.
  vm_compute. repeat split; try reflexivity.
  - eexists. reflexivity.
  - discriminate.
Qed.

(** C9. CLOSED is terminal: from CLOSED every [advance_stage] call raises
    [ValueError] and changes nothing, whatever stage is requested, so no
    sequence of calls moves a pipeline out of CLOSED. *)
Theorem closed_is_terminal (p : JobPipeline) (w : World) :
  current_stage p = "CLOSED" ->
  (forall s user, exists msg,
      advance_stage s user (p, w) = (Raise (ValueError msg), (p, w)))
  /\ (forall requests, advance_each requests (p, w) = (p, w))
  /\ (forall requests, current_stage (fst (advance_each requests (p, w))) = "CLOSED").
Proof.
  intros E.
  assert (H : forall s user, exists msg,
             advance_stage s user (p, w) = (Raise (ValueError msg), (p, w))).
  { intros s user. eexists. apply advance_stage_invalid.
    unfold successor. rewrite E. reflexivity. }
  assert (A : forall requests, advance_each requests (p, w) = (p, w)).
  { induction requests as [|[s user] rest IH]; [reflexivity|].
    cbn [advance_each]. destruct (H s user) as (msg & ->). exact IH. }
  repeat split; auto. intros requests. now rewrite A.
Qed.

Lemma closed_is_terminal_witness :
  current_stage p_closed = "CLOSED"
  /\ advance_each [("OPPORTUNITY", NoUser); ("AUDIT_SCHEDULED", User 7); ("LEAD", NoUser)]
                  (p_closed, w_closed)
     = (p_closed, w_closed).
Proof.
  split; [reflexivity|].
  apply (proj1 (proj2 (closed_is_terminal p_closed w_closed eq_refl))).
Defined.

(* ------------------------------------------------------------------ *)
(** *** The stage graph                                                 *)
(* ------------------------------------------------------------------ *)

Lemma successor_cases (a b : string) :
  successor a b = true ->
  In (a, b)
     [ ("LEAD", "OPPORTUNITY"); ("LEAD", "CLOSED");
       ("OPPORTUNITY", "CONTRACT"); ("OPPORTUNITY", "CLOSED");
       ("CONTRACT", "AUDIT_SCHEDULED"); ("CONTRACT", "CLOSED");
       ("AUDIT_SCHEDULED", "AUDIT_IN_PROGRESS");
       ("AUDIT_IN_PROGRESS", "AUDIT_COMPLETED");
       ("AUDIT_COMPLETED", "CERTIFICATE_ISSUED"); ("AUDIT_COMPLETED", "SURVEILLANCE_DUE");
       ("CERTIFICATE_ISSUED", "SURVEILLANCE_DUE"); ("CERTIFICATE_ISSUED", "CLOSED");
       ("SURVEILLANCE_DUE", "AUDIT_SCHEDULED"); ("SURVEILLANCE_DUE", "CLOSED") ].
Proof.
  unfold successor, valid_progressions, dict_get, str_in. intros H.
  repeat match type of H with
         | context [String.eqb a ?c] =>
             destruct (String.eqb_spec a c);
             [subst a; cbn [existsb] in H;
              repeat match type of H with
                     | context [String.eqb b ?d] =>
                         destruct (String.eqb_spec b d); [subst b; cbn; tauto|]
                     end; discriminate H
             |]
         end.
  discriminate H.
Qed.

Lemma forward_edge_rank (a b : string) :
  successor a b = true -> surveillance_edge a b = false -> rank a < rank b.
Proof.
  intros H F. apply successor_cases in H. cbn [In] in H.
  repeat (destruct H as [H|H]; [injection H as <- <-; first [discriminate F | cbv; lia]|]).
  contradiction.
Qed.

Lemma forward_path_above (a : string) (rest : list string) :
  forward_path (a :: rest) = true -> forall x, In x rest -> rank a < rank x.
Proof.
  revert a. induction rest as [|b rest IH]; intros a H x Hx; [contradiction|].
  cbn [forward_path] in H. apply andb_prop in H as (H & Hrest).
  apply andb_prop in H as (Hs & Hf). apply negb_true_iff in Hf.
  pose proof (forward_edge_rank a b Hs Hf) as L.
  destruct Hx as [<-|Hx]; [exact L|].
  specialize (IH b Hrest x Hx). lia.
Qed.

Lemma forward_path_tail (a : string) (rest : list string) :
  forward_path (a :: rest) = true -> forward_path rest = true.
Proof.
  destruct rest as [|b rest]; [reflexivity|]. cbn [forward_path].
  intros H. now apply andb_prop in H as (_ & H).
Qed.

(** C3, as the code has it. The adjacency dict is a graph on the nine
    stages of [STAGE_CHOICES], whose order is itself a path from LEAD to
    CLOSED; every edge except SURVEILLANCE_DUE -> AUDIT_SCHEDULED goes
    strictly forward in that order, so a sequence of valid transitions that
    does not take that edge never enters a stage twice. *)
Theorem stage_graph_forward_without_surveillance_edge :
  (forall a b, successor a b = true -> In a STAGE_CHOICES /\ In b STAGE_CHOICES)
  /\ forward_path STAGE_CHOICES = true
  /\ (forall a b, successor a b = true ->
        rank a < rank b \/ (a = "SURVEILLANCE_DUE" /\ b = "AUDIT_SCHEDULED"))
  /\ (forall path, forward_path path = true -> NoDup path).
Proof.
  split; [|split; [reflexivity|split]].
  - intros a b H. apply successor_cases in H. cbn [In] in H.
    repeat (destruct H as [H|H]; [injection H as <- <-; cbn; tauto|]). contradiction.
  - intros a b H. destruct (surveillance_edge a b) eqn:F.
    + right. unfold surveillance_edge in F. apply andb_prop in F as (Fa & Fb).
      apply String.eqb_eq in Fa, Fb. auto.
    + left. now apply forward_edge_rank.
  - induction path as [|a rest IH]; intros H; constructor.
    + intros Hin. pose proof (forward_path_above a rest H a Hin). lia.
    + apply IH. now apply (forward_path_tail a).
Qed.

Lemma stage_graph_forward_witness : NoDup STAGE_CHOICES.
Proof.
  apply (proj2 (proj2 (proj2 stage_graph_forward_without_surveillance_edge))).
  reflexivity.
Defined.

(** C3 as stated fails: the valid sequence LEAD, ..., AUDIT_COMPLETED,
    SURVEILLANCE_DUE, AUDIT_SCHEDULED starts at LEAD and enters
    AUDIT_SCHEDULED twice. *)
Lemma stage_graph_has_cycle :
  valid_path surveillance_cycle = true
  /\ hd "" surveillance_cycle = "LEAD"
  /\ ~ NoDup surveillance_cycle.
Proof.
  split; [reflexivity|split; [reflexivity|]].
  intros ND. unfold surveillance_cycle in ND.
  do 3 (inversion ND as [|? ? _ ND']; subst; clear ND; rename ND' into ND).
  inversion ND as [|? ? Hn _]; subst. apply Hn. cbn. tauto.
Qed.

(* ------------------------------------------------------------------ *)
(** *** A valid transition                                              *)
(* ------------------------------------------------------------------ *)

Lemma stamp_loaded (p r : JobPipeline) (s : string) (now : datetime) :
  loaded_from p r -> loaded_from (stamp s now (set_current_stage s p)) r.
Proof.
  unfold loaded_from, stamp. intros H.
  repeat match goal with
         | |- context [String.eqb s ?c] => destruct (String.eqb s c)
         end; destruct p; cbn in *; exact H.
Qed.

Lemma replace_row_In (i : nat) (q r : JobPipeline) (rows : list JobPipeline) :
  In r rows -> pk r = Some i -> In q (replace_row i q rows).
Proof.
  intros Hr Hi. unfold replace_row. apply in_map_iff. exists r. split; [|exact Hr].
  rewrite Hi, opt_nat_eqb_refl. reflexivity.
Qed.

Lemma w_lead_ok : table_ok (job_pipelines w_lead).
Proof.
  unfold table_ok. cbn. repeat split.
  - constructor; [|constructor]. exists 1, 1%N. repeat split.
  - constructor; [intros []|constructor].
  - constructor; [intros []|constructor].
Qed.

Lemma loaded_from_refl (p : JobPipeline) : loaded_from p p.
Proof. repeat split. Qed.






(* ================================================================== *)
(** ** Claim about JobPipeline.save                                     *)
(* ================================================================== *)







(* ================================================================== *)
(** ** Claims about Certification                                       *)
(* ================================================================== *)

(** What [models.Model.save] does in every case: the object is as it was,
    and the table afterwards holds stored rows and the object only. *)
Lemma cert_Model_save_frame (c : Certifications.Certification)
  (rows : list Certifications.Certification) :
  fst (snd (Certifications.Model_save (c, rows))) = c
  /\ (forall x, In x (snd (snd (Certifications.Model_save (c, rows)))) -> x = c \/ In x rows).
Proof.
  unfold Certifications.Model_save; cbn [fst snd].
  destruct (Certifications.number_taken c rows); cbn [fst snd]; [auto|].
  destruct (existsb _ rows) eqn:E; cbn [fst snd].
  - split; [reflexivity|].
    intros x Hx. apply in_map_iff in Hx as (r & <- & Hr).
    destruct (Nat.eqb _ _); auto.
  - split; [reflexivity|].
    intros x Hx. apply in_app_or in Hx as [Hx|[<-|[]]]; auto.
Qed.

(** When no other row holds the certificate number, the object is stored. *)
Lemma cert_Model_save (c : Certifications.Certification)
  (rows : list Certifications.Certification) :
  Certifications.number_taken c rows = false ->
  fst (Certifications.Model_save (c, rows)) = Ok tt
  /\ fst (snd (Certifications.Model_save (c, rows))) = c
  /\ In c (snd (snd (Certifications.Model_save (c, rows))))
  /\ (forall x, In x (snd (snd (Certifications.Model_save (c, rows)))) -> x = c \/ In x rows).
Proof.
  intros T. destruct (cert_Model_save_frame c rows) as (F1 & F2).
  split; [|split; [exact F1|split; [|exact F2]]];
    unfold Certifications.Model_save; cbn [fst snd]; rewrite T;
    destruct (existsb _ rows) eqn:E; cbn [fst snd]; try reflexivity.
  - apply existsb_exists in E as (r & Hr & Hid).
    apply in_map_iff. exists r. now rewrite Hid.
  - apply in_or_app. right. now left.
Qed.

(** When another row holds it, the unique constraint rejects the save. *)
Lemma cert_Model_save_taken (c : Certifications.Certification)
  (rows : list Certifications.Certification) :
  Certifications.number_taken c rows = true ->
  Certifications.Model_save (c, rows)
  = (Raise (IntegrityError "certifications.certificate_number"), (c, rows)).
Proof. intros T. unfold Certifications.Model_save; cbn [fst snd]. now rewrite T. Qed.

Lemma number_taken_set_status (v : string) (c : Certifications.Certification)
  (rows : list Certifications.Certification) :
  Certifications.number_taken (Certifications.set_status v c) rows
  = Certifications.number_taken c rows.
Proof. reflexivity. Qed.

(** The status [Certification.save] leaves on the object. *)
Lemma cert_save_status (today : date) (c : Certifications.Certification)
  (rows : list Certifications.Certification) :
  Certifications.status (fst (snd (Certifications.save today (c, rows))))
  = match Certifications.expiry_date c with
    | Certifications.PyDate d =>
        if str_in (Certifications.status c) ["suspended"; "revoked"]
        then Certifications.status c
        else if (d - today <? 0)%Z then "expired"
        else if (d - today <=? 90)%Z then "expiring-soon"
        else if String.eqb (Certifications.status c) "pending" then "pending"
        else "active"
    | _ => Certifications.status c
    end.
Proof.
  unfold Certifications.save, bind, Certifications.get_self, Certifications.assign, ret, raise;
    cbn [fst snd].
  destruct (Certifications.expiry_date c) as [|d|s]; cbn [Certifications.truthy].
  - now rewrite (proj1 (cert_Model_save_frame c rows)).
  - destruct (str_in _ _); cbn [negb].
    + now rewrite (proj1 (cert_Model_save_frame c rows)).
    + destruct (d - today <? 0)%Z;
        [|destruct (d - today <=? 90)%Z;
          [|destruct (String.eqb_spec (Certifications.status c) "pending")]];
        cbn [fst snd];
        rewrite (proj1 (cert_Model_save_frame _ rows)); auto.
  - destruct (negb (String.eqb s "")); cbn [fst snd]; [reflexivity|].
    now rewrite (proj1 (cert_Model_save_frame c rows)).
Qed.

(** C8, as the code has it. Saving a certification whose expiry date is a
    date and whose status is neither suspended nor revoked gives it the
    status computed from the expiry date: expired when the date is before
    today, expiring-soon when it is 0 to 90 days away, the old value when
    that is pending, and active otherwise; a suspended or revoked status is
    left as it is. The object is stored with that status unless another row
    holds its certificate number: then the unique constraint rejects the
    save and nothing is written. *)
Theorem save_recomputes_status (today : date) (c : Certifications.Certification)
  (rows : list Certifications.Certification) :
  let out := Certifications.save today (c, rows) in
  let c' := fst (snd out) in
  (forall d, Certifications.expiry_date c = Certifications.PyDate d ->
     Certifications.status c <> "suspended" -> Certifications.status c <> "revoked" ->
     ((d < today)%Z -> Certifications.status c' = "expired")
     /\ ((today <= d <= today + 90)%Z -> Certifications.status c' = "expiring-soon")
     /\ ((today + 90 < d)%Z -> Certifications.status c = "pending" ->
         Certifications.status c' = "pending")
     /\ ((today + 90 < d)%Z -> Certifications.status c <> "pending" ->
         Certifications.status c' = "active")
     /\ (Certifications.number_taken c rows = false ->
         fst out = Ok tt /\ In c' (snd (snd out)))
     /\ (Certifications.number_taken c rows = true ->
         fst out = Raise (IntegrityError "certifications.certificate_number")
         /\ snd (snd out) = rows))
  /\ (Certifications.status c = "suspended" \/ Certifications.status c = "revoked" ->
      Certifications.status c' = Certifications.status c).
Proof.
  cbv zeta. split.
  - intros d Ed Hs Hr.
    assert (Hin : str_in (Certifications.status c) ["suspended"; "revoked"] = false).
    { cbn. destruct (String.eqb_spec (Certifications.status c) "suspended"); [contradiction|].
      destruct (String.eqb_spec (Certifications.status c) "revoked"); [contradiction|].
      reflexivity. }
    pose proof (cert_save_status today c rows) as S. rewrite Ed, Hin in S.
    assert (Q : exists x,
               Certifications.save today (c, rows) = Certifications.Model_save (x, rows)
               /\ Certifications.number_taken x rows = Certifications.number_taken c rows).
    { unfold Certifications.save, bind, Certifications.get_self, Certifications.assign, ret;
        cbn [fst snd]. rewrite Ed, Hin; cbn [Certifications.truthy negb].
      destruct (d - today <? 0)%Z;
        [|destruct (d - today <=? 90)%Z;
          [|destruct (String.eqb (Certifications.status c) "pending")]];
        cbn [fst snd]; eexists; split; reflexivity. }
    destruct Q as (x & Q & Tx).
    split; [|split; [|split; [|split; [|split]]]].
    + intros L. rewrite S. destruct (Z.ltb_spec (d - today) 0); [reflexivity|lia].
    + intros L. rewrite S. destruct (Z.ltb_spec (d - today) 0); [lia|].
      destruct (Z.leb_spec (d - today) 90); [reflexivity|lia].
    + intros L P. rewrite S. destruct (Z.ltb_spec (d - today) 0); [lia|].
      destruct (Z.leb_spec (d - today) 90); [lia|]. rewrite P. reflexivity.
    + intros L P. rewrite S. destruct (Z.ltb_spec (d - today) 0); [lia|].
      destruct (Z.leb_spec (d - today) 90); [lia|].
      destruct (String.eqb_spec (Certifications.status c) "pending"); [contradiction|].
      reflexivity.
    + intros T. rewrite Q. rewrite <- Tx in T.
      destruct (cert_Model_save x rows T) as (A & B & C & _).
      split; [exact A|rewrite B; exact C].
    + intros T. rewrite Q. rewrite <- Tx in T.
      rewrite (cert_Model_save_taken x rows T). split; reflexivity.
  - intros H. rewrite cert_save_status.
    destruct (Certifications.expiry_date c); try reflexivity.
    destruct H as [-> | ->]; reflexivity.
Qed.

Lemma save_recomputes_status_witness :
  Certifications.status (fst (snd (Certifications.save 20000 (cert_active, [])))) = "expiring-soon".
Proof.
  destruct (save_recomputes_status 20000 cert_active []) as (H & _).
  destruct (H 20030%Z eq_refl) as (_ & E & _); try discriminate.
  apply E. lia.
Defined.

(** C8 as stated fails for an expiry date that is set but is not a date:
    the renew action assigns the string of the request, and saving the
    certification then raises [TypeError]; the status stays active although
    the day the string names is past, and nothing is written. *)
Lemma save_raises_for_expiry_date_string :
  Certifications.truthy (Certifications.expiry_date cert_renewed) = true
  /\ Certifications.status cert_renewed = "active"
  /\ (exists msg,
        Certifications.save 20000 (cert_renewed, [cert_active])
        = (Raise (TypeError msg), (cert_renewed, [cert_active])))
  /\ Certifications.status
       (fst (snd (Certifications.save 20000 (cert_renewed, [cert_active])))) <> "expired".
Proof.
  vm_compute. repeat split; try discriminate. eexists. reflexivity.
Qed.

Lemma bind_ret_snd {S A B} (m : M S A) (b : B) (s : S) :
  snd (bind m (fun _ => ret b) s) = snd (m s).
Proof. unfold bind, ret. destruct (m s) as [[a|e] s']; reflexivity. Qed.

Lemma cert_Model_save_ok (s : Certifications.Self) :
  statuses_ok s -> statuses_ok (snd (Certifications.Model_save s)).
Proof.
  destruct s as [c rows]. intros (Hc & Hrows).
  destruct (cert_Model_save_frame c rows) as (E & Hin).
  split; [now rewrite E|].
  rewrite Forall_forall in *. intros x Hx.
  destruct (Hin x Hx) as [->|Hx']; auto.
Qed.

Lemma cert_save_ok (today : date) (s : Certifications.Self) :
  statuses_ok s -> statuses_ok (snd (Certifications.save today s)).
Proof.
  destruct s as [c rows]. intros H.
  assert (K : forall v, In v Certifications.STATUS_CHOICES ->
                statuses_ok (Certifications.set_status v c, rows)).
  { intros v Hv. split; [exact Hv|apply H]. }
  unfold Certifications.save, bind, Certifications.get_self, Certifications.assign, ret, raise;
    cbn [fst snd].
  destruct (Certifications.truthy (Certifications.expiry_date c));
    [|now apply cert_Model_save_ok].
  destruct (Certifications.expiry_date c) as [|d|str]; try exact H.
  destruct (negb (str_in _ _)); [|now apply cert_Model_save_ok].
  destruct (d - today <? 0)%Z;
    [|destruct (d - today <=? 90)%Z;
      [|destruct (String.eqb (Certifications.status c) "pending")]];
    cbn [fst snd]; apply cert_Model_save_ok; try exact H; apply K; cbn; tauto.
Qed.

Lemma is_valid_status (data : Certifications.payload) (exclude : option nat)
  (rows : list Certifications.Certification) (s : string) :
  Certifications.is_valid data exclude rows = true ->
  Certifications.data_status data = Some s -> In s Certifications.STATUS_CHOICES.
Proof.
  unfold Certifications.is_valid. intros V E. rewrite E in V.
  apply andb_prop in V as (V & _). apply andb_prop in V as (V & _).
  unfold str_in in V. apply existsb_exists in V as (x & Hx & Ex).
  apply String.eqb_eq in Ex. now subst.
Qed.

(** C7, as the code has it. The status of every certification is one of the
    six [STATUS_CHOICES] (pending, active, expiring-soon, expired, suspended,
    revoked), and [save], the renew, suspend, revoke and reactivate actions
    and the validated create and update keep it so, for the object and for
    every stored row, whether they return or raise. *)
Theorem certification_status_stays_in_choices :
  Certifications.STATUS_CHOICES
  = ["pending"; "active"; "expiring-soon"; "expired"; "suspended"; "revoked"]
  /\ (forall (a : action) (today : date) (s : Certifications.Self),
        statuses_ok s -> statuses_ok (snd (perform a today s)))
  /\ (forall (data : Certifications.payload) (new_id : nat) (today : date)
             (rows : list Certifications.Certification),
        Forall status_in_choices rows ->
        Forall status_in_choices (snd (Certifications.create data new_id today rows))).
Proof.
  split; [reflexivity|split].
  - intros a today [c rows] H.
    assert (K : forall v, In v Certifications.STATUS_CHOICES ->
                  statuses_ok (Certifications.set_status v c, rows)).
    { intros v Hv. split; [exact Hv|apply H]. }
    destruct a as [|v| | | |data]; cbn [perform].
    + rewrite bind_ret_snd. now apply cert_save_ok.
    + unfold Certifications.renew.
      destruct (negb (Certifications.truthy v)); [exact H|].
      unfold bind at 1. unfold Certifications.assign at 1. cbn [fst snd].
      unfold bind at 1. unfold Certifications.assign at 1. cbn [fst snd].
      rewrite bind_ret_snd. apply cert_save_ok.
      split; [cbn; tauto|apply H].
    + unfold Certifications.suspend. unfold bind at 1.
      unfold Certifications.get_self at 1. cbn [fst snd].
      destruct (String.eqb _ _); [exact H|].
      unfold bind at 1. unfold Certifications.assign at 1. cbn [fst snd].
      rewrite bind_ret_snd. apply cert_save_ok, K. cbn; tauto.
    + unfold Certifications.revoke. unfold bind at 1.
      unfold Certifications.get_self at 1. cbn [fst snd].
      destruct (String.eqb _ _); [exact H|].
      unfold bind at 1. unfold Certifications.assign at 1. cbn [fst snd].
      rewrite bind_ret_snd. apply cert_save_ok, K. cbn; tauto.
    + unfold Certifications.reactivate. unfold bind at 1.
      unfold Certifications.get_self at 1. cbn [fst snd].
      destruct (negb _); [exact H|].
      unfold bind at 1. unfold Certifications.assign at 1. cbn [fst snd].
      rewrite bind_ret_snd. apply cert_save_ok, K. cbn; tauto.
    + unfold Certifications.update. unfold bind at 1.
      unfold Certifications.get_self at 1. cbn [fst snd].
      unfold bind at 1. cbn [fst snd].
      destruct (Certifications.is_valid data _ rows) eqn:V; [|exact H].
      unfold bind at 1. unfold Certifications.assign at 1. cbn [fst snd].
      rewrite bind_ret_snd. apply cert_save_ok.
      split; [|apply H]. unfold status_in_choices; cbn.
      destruct (Certifications.data_status data) as [st|] eqn:E.
      * apply (is_valid_status data _ rows st V E).
      * apply H.
  - intros data new_id today rows H. unfold Certifications.create.
    destruct (Certifications.is_valid data None rows) eqn:V; [|exact H].
    match goal with
    | |- context [Certifications.save today ?s] =>
        assert (S : statuses_ok (snd (Certifications.save today s)))
    end.
    { apply cert_save_ok. split; [|exact H]. unfold status_in_choices; cbn.
      destruct (Certifications.data_status data) as [st|] eqn:E.
      - apply (is_valid_status data _ rows st V E).
      - tauto. }
    destruct (Certifications.save today _) as [[u|e] s']; apply S.
Qed.

Lemma cert_active_ok : statuses_ok (cert_active, [cert_active]).
Proof. split; [|constructor; [|constructor]]; cbn; tauto. Qed.

Lemma certification_status_stays_in_choices_witness :
  statuses_ok (snd (perform Suspend 20000 (cert_active, [cert_active]))).
Proof.
  apply (proj1 (proj2 certification_status_stays_in_choices)). exact cert_active_ok.
Defined.

(** C7 as stated fails: saving an active certification that expires in 30
    days stores the status expiring-soon, which is not among active,
    expiring, expired, suspended, revoked; and pending, the status a new
    certification starts with, is not among them either. *)
Lemma certification_status_leaves_glossary_enumeration :
  In (Certifications.status cert_active) glossary_statuses
  /\ fst (Certifications.save 20000 (cert_active, [cert_active])) = Ok tt
  /\ ~ In (Certifications.status
             (fst (snd (Certifications.save 20000 (cert_active, [cert_active])))))
          glossary_statuses
  /\ Forall (fun r => ~ In (Certifications.status r) glossary_statuses)
            (snd (snd (Certifications.save 20000 (cert_active, [cert_active]))))
  /\ ~ In "pending" glossary_statuses.
Proof.
  vm_compute. repeat split; try tauto.
  - intros H. repeat (destruct H as [H|H]; [discriminate H|]). exact H.
  - constructor; [|constructor].
    intros H. repeat (destruct H as [H|H]; [discriminate H|]). exact H.
  - intros H. repeat (destruct H as [H|H]; [discriminate H|]). exact H.
Qed.

(* ================================================================== *)
(** ** Claim about ContractSerializer.create                            *)
(* ================================================================== *)

Lemma contract_number_of_inj (year a b : N) :
  BusinessDevelopment.contract_number_of year a = BusinessDevelopment.contract_number_of year b ->
  a = b.
Proof.
  unfold BusinessDevelopment.contract_number_of. intros E.
  apply append_cancel_l, append_cancel_l, append_cancel_l in E.
  now apply format_0wd_inj in E.
Qed.

Lemma number_exists_In (rows : list BusinessDevelopment.ContractRow) (s : string) :
  BusinessDevelopment.number_exists rows s = true
  <-> In s (map BusinessDevelopment.contract_number rows).
Proof.
  unfold BusinessDevelopment.number_exists. rewrite existsb_exists, in_map_iff.
  split; intros (r & H1 & H2).
  - exists r. apply String.eqb_eq in H2. auto.
  - exists r. split; [exact H2|]. now apply String.eqb_eq.
Qed.

(** The loop ends within [fuel] iterations as soon as [fuel] exceeds the
    length of a list that holds every taken candidate from [count] on; it
    ends on a candidate that is free, having passed only taken ones. *)
Lemma ensure_unique_finds (rows : list BusinessDevelopment.ContractRow) (year : N) :
  forall (fuel : nat) (count : N) (taken : list string),
    List.length taken < fuel ->
    (forall j, (count <= j)%N ->
               BusinessDevelopment.number_exists rows
                 (BusinessDevelopment.contract_number_of year j) = true ->
               In (BusinessDevelopment.contract_number_of year j) taken) ->
    exists k, BusinessDevelopment.ensure_unique fuel rows year count = Some k
              /\ (count <= k)%N
              /\ BusinessDevelopment.number_exists rows
                   (BusinessDevelopment.contract_number_of year k) = false
              /\ (forall j, (count <= j < k)%N ->
                            BusinessDevelopment.number_exists rows
                              (BusinessDevelopment.contract_number_of year j) = true).
Proof.
  induction fuel as [|fuel IH]; intros count taken Hlen Htaken; [lia|].
  cbn [BusinessDevelopment.ensure_unique].
  destruct (BusinessDevelopment.number_exists rows
              (BusinessDevelopment.contract_number_of year count)) eqn:E.
  - pose proof (Htaken count (N.le_refl _) E) as Hin.
    apply in_split in Hin as (l1 & l2 & ->).
    destruct (IH (count + 1)%N (l1 ++ l2)%list) as (k & Hk & Hle & Hfree & Hpassed).
    + rewrite length_app in *. cbn [List.length] in Hlen. lia.
    + intros j Hj Hex. specialize (Htaken j ltac:(lia) Hex).
      apply in_app_or in Htaken as [H|[H|H]].
      * apply in_or_app. now left.
      * apply contract_number_of_inj in H. lia.
      * apply in_or_app. now right.
    + exists k. repeat split; auto; try lia.
      intros j Hj. destruct (N.eq_dec j count) as [->|Hne]; [exact E|].
      apply Hpassed. lia.
  - exists count. repeat split; auto; try lia; intros j Hj; lia.
Qed.

Lemma ensure_unique_more_fuel (rows : list BusinessDevelopment.ContractRow) (year : N) :
  forall (fuel fuel' : nat) (count k : N),
    BusinessDevelopment.ensure_unique fuel rows year count = Some k -> fuel <= fuel' ->
    BusinessDevelopment.ensure_unique fuel' rows year count = Some k.
Proof.
  induction fuel as [|fuel IH]; intros fuel' count k H L; [discriminate|].
  destruct fuel' as [|fuel']; [lia|].
  cbn [BusinessDevelopment.ensure_unique] in *.
  destruct (BusinessDevelopment.number_exists rows _); [|exact H].
  apply (IH fuel'); [exact H|lia].
Qed.

Lemma format_0wd_length (w : nat) (n : N) : w <= String.length (format_0wd w n).
Proof.
  unfold format_0wd.
  assert (Z : forall k, String.length (zeros k) = k) by (induction k; cbn; auto).
  assert (A : forall a b, String.length (a ++ b) = String.length a + String.length b).
  { induction a as [|c a IHa]; intros b; cbn; [reflexivity|]. now rewrite IHa. }
  rewrite A, Z. lia.
Qed.

Lemma count_since_created_since (year_start : datetime)
  (rows : list BusinessDevelopment.ContractRow) :
  BusinessDevelopment.count_since year_start rows = created_since year_start rows.
Proof.
  unfold BusinessDevelopment.count_since.
  induction rows as [|r rows IH]; [reflexivity|].
  cbn [filter created_since].
  destruct (year_start <=? BusinessDevelopment.created_at r)%Z; [|exact IH].
  cbn [List.length]. rewrite Nat2N.inj_succ, IH. lia.
Qed.

(** C6. [ContractSerializer.create] numbers a contract
    CON-<year>-<count, at least four digits>: it starts from the number of
    stored contracts created since the start of the year plus one, its loop
    ends (within one more iteration than there are contracts), and the
    number it ends on is the first from there on that no stored contract
    has, so it differs from every stored [contract_number]. *)
Theorem contract_number_is_fresh (year : N) (year_start now : datetime)
  (rows : list BusinessDevelopment.ContractRow) :
  exists k : N,
    (created_since year_start rows + 1 <= k)%N
    /\ (forall fuel, List.length rows < fuel ->
          BusinessDevelopment.create fuel year year_start now rows
          = Some ("CON-" ++ str_of_N year ++ "-" ++ format_0wd 4 k,
                  (rows ++ [BusinessDevelopment.mkRow
                              ("CON-" ++ str_of_N year ++ "-" ++ format_0wd 4 k) now])%list))
    /\ 4 <= String.length (format_0wd 4 k)
    /\ (forall r, In r rows ->
          BusinessDevelopment.contract_number r
          <> "CON-" ++ str_of_N year ++ "-" ++ format_0wd 4 k)
    /\ (forall j, (created_since year_start rows + 1 <= j < k)%N ->
          exists r, In r rows
                    /\ BusinessDevelopment.contract_number r
                       = "CON-" ++ str_of_N year ++ "-" ++ format_0wd 4 j).
Proof.
  rewrite <- count_since_created_since.
  destruct (ensure_unique_finds rows year (S (List.length rows))
              (BusinessDevelopment.count_since year_start rows + 1)%N
              (map BusinessDevelopment.contract_number rows))
    as (k & Hk & Hle & Hfree & Hpassed).
  - rewrite length_map. lia.
  - intros j _ H. now apply number_exists_In.
  - exists k. split; [exact Hle|split; [|split; [apply format_0wd_length|split]]].
    + intros fuel Hf.
      unfold BusinessDevelopment.create, BusinessDevelopment.generate_contract_number.
      rewrite (ensure_unique_more_fuel rows year _ fuel _ k Hk) by lia. reflexivity.
    + intros r Hr E.
      assert (T : BusinessDevelopment.number_exists rows
                    (BusinessDevelopment.contract_number_of year k) = true).
      { apply number_exists_In, in_map_iff. exists r. split; [exact E|exact Hr]. }
      rewrite T in Hfree. discriminate.
    + intros j Hj. specialize (Hpassed j Hj).
      apply number_exists_In, in_map_iff in Hpassed as (r & E & Hr).
      exists r. split; [exact Hr|exact E].
Qed.

(** With two contracts of this year stored, the count starts at 3; 0003 is
    taken, so the loop steps once and the contract gets 0004. *)
Lemma contract_number_is_fresh_witness :
  BusinessDevelopment.create 4 2024 100 200 contracts_2024
  = Some ("CON-2024-0004",
          (contracts_2024 ++ [BusinessDevelopment.mkRow "CON-2024-0004" 200%Z])%list).
Proof.
  destruct (contract_number_is_fresh 2024 100 200 contracts_2024)
    as (k & Hle & Hcreate & _ & Hfresh & Hpassed).
  change (created_since 100 contracts_2024 + 1)%N with 3%N in Hle, Hpassed.
  assert (E : k = 4%N).
  { destruct (N.eq_dec k 3) as [->|N3].
    - exfalso. apply (Hfresh (BusinessDevelopment.mkRow "CON-2024-0003" 160%Z));
        [right; right; left; reflexivity|reflexivity].
    - destruct (N.eq_dec k 4) as [->|N4]; [reflexivity|].
      exfalso. destruct (Hpassed 4%N ltac:(lia)) as (r & Hr & Er).
      cbn in Hr. destruct Hr as [<-|[<-|[<-|[]]]]; discriminate Er. }
  subst k. apply (Hcreate 4). cbn. lia.
Defined.

(* ================================================================== *)
(** ** Claims about the post_save receivers                             *)
(* ================================================================== *)

Lemma first_by_In {A} (before : A -> A -> bool) (l : list A) (x : A) :
  first_by before l = Some x -> In x l.
Proof.
  revert x. induction l as [|a l IH]; intros x H; [discriminate|].
  cbn [first_by] in H. destruct (first_by before l) as [y|].
  - destruct (before y a); injection H as <-; [right; now apply IH|now left].
  - injection H as <-. now left.
Qed.

Lemma filter_first_In (fk : JobPipeline -> option nat) (i : nat) (w : World)
  (p : JobPipeline) :
  filter_first fk i w = Some p -> In p (job_pipelines w) /\ fk p = Some i.
Proof.
  intros H. apply first_by_In in H. unfold objects_filter in H.
  apply filter_In in H as (H & E). now apply opt_nat_eqb_eq in E.
Qed.

Lemma get_by_pk_In (i : nat) (w : World) (p : JobPipeline) :
  get_by_pk i w = Some p -> In p (job_pipelines w) /\ pk p = Some i.
Proof.
  intros H. apply find_some in H as (H & E). now apply opt_nat_eqb_eq in E.
Qed.

(** [p.save()] on an object [q] made from the stored row [r] by assignments
    that leave key, number and identifier alone. *)
Lemma call_save_loaded (q r : JobPipeline) (w : World) (i : nat) :
  table_ok (job_pipelines w) -> In r (job_pipelines w) -> pk r = Some i ->
  loaded_from q r ->
  call q save w
  = (Ok (set_updated_at (Some (clock w)) q),
     with_job_pipelines (replace_row i (set_updated_at (Some (clock w)) q) (job_pipelines w))
                        (tick w)).
Proof.
  intros Hok Hr Hi Hl. unfold call. now rewrite (save_loaded q r w i Hok Hr Hl Hi).
Qed.

Lemma objects_create_unsaved (p : JobPipeline) (w : World) :
  table_ok (job_pipelines w) -> unsaved p ->
  let n := (max_number (job_pipelines w) + 1)%N in
  let q := set_pk (Some (next_pk (job_pipelines w)))
             (set_updated_at (Some (clock w))
                (set_pipeline_id ("PL-" ++ format_0wd 5 n) (set_number (Some n) p))) in
  objects_create p w = (Ok q, with_job_pipelines (job_pipelines w ++ [q]) (tick w)).
Proof.
  intros Hok Hu n q. unfold objects_create.
  pose proof (save_unsaved p w Hok Hu) as S. cbv zeta in S. now rewrite S.
Qed.


(** What [JobPipeline.save] leaves alone, whatever its outcome. *)
Lemma save_frame (p : JobPipeline) (w : World) :
  pipeline_stage_transitions (snd (snd (save (p, w)))) = pipeline_stage_transitions w
  /\ current_stage (fst (snd (save (p, w)))) = current_stage p.
Proof.
  rewrite save_unfold.
  destruct (Model_save_frame (numbered p w) w) as (_ & Hs & _ & _ & _ & Ht & _).
  split; [exact Ht|]. rewrite Hs. unfold numbered.
  destruct (number_truthy (number p)); destruct (String.eqb _ ""); destruct p; reflexivity.
Qed.

Lemma call_save_transitions (p : JobPipeline) (w : World) :
  pipeline_stage_transitions (snd (call p save w)) = pipeline_stage_transitions w.
Proof.
  unfold call. pose proof (proj1 (save_frame p w)) as F.
  destruct (save (p, w)) as [[u|e] [p' w']]; exact F.
Qed.

Lemma objects_create_transitions (p : JobPipeline) (w : World) :
  pipeline_stage_transitions (snd (objects_create p w)) = pipeline_stage_transitions w.
Proof. apply (call_save_transitions p w). Qed.

Lemma keeps_bind {A B} (m : M World A) (k : A -> M World B) :
  keeps_transitions m -> (forall a, keeps_transitions (k a)) ->
  keeps_transitions (bind m k).
Proof.
  intros Hm Hk w. unfold bind. specialize (Hm w).
  destruct (m w) as [[a|e] w']; cbn [snd] in *; [|exact Hm].
  now rewrite (Hk a w').
Qed.

Lemma keeps_ret {A} (a : A) : keeps_transitions (ret a).
Proof. intros w. reflexivity. Qed.

Lemma keeps_get : keeps_transitions (@get World).
Proof. intros w. reflexivity. Qed.

Lemma keeps_now : keeps_transitions timezone_now.
Proof. intros w. reflexivity. Qed.

Lemma keeps_milestone (m : PipelineMilestone) : keeps_transitions (milestones_create m).
Proof. intros w. reflexivity. Qed.

Lemma keeps_call_save (p : JobPipeline) : keeps_transitions (call p save).
Proof. intros w. apply call_save_transitions. Qed.

Lemma keeps_objects_create (p : JobPipeline) : keeps_transitions (objects_create p).
Proof. intros w. apply objects_create_transitions. Qed.

Lemma keeps_audit_milestones (p : JobPipeline) (a : Audit.t) :
  keeps_transitions (create_audit_milestones p a).
Proof.
  unfold create_audit_milestones.
  match goal with |- keeps_transitions (fold_right _ _ ?l) => generalize l end.
  induction l as [|m l IH]; cbn [fold_right]; [apply keeps_ret|].
  apply keeps_bind; [apply keeps_milestone|intros _; exact IH].
Qed.

(** [instance.pipeline] only reads: the world is as before, whether the
    row is found or not. *)
Lemma Audit_pipeline_reads (a : Audit.t) (w : World) :
  snd (Audit_pipeline a w) = w.
Proof.
  unfold Audit_pipeline, bind, get, ret, raise. cbv beta iota.
  destruct (Audit.pipeline a) as [i|]; [|reflexivity].
  destruct (get_by_pk i w); reflexivity.
Qed.

Lemma keeps_audit_pipeline (a : Audit.t) : keeps_transitions (Audit_pipeline a).
Proof. intros w. now rewrite Audit_pipeline_reads. Qed.

Ltac keeps :=
  repeat lazymatch goal with
    | |- keeps_transitions (bind _ _) => apply keeps_bind; [|intros ?]
    | |- keeps_transitions (Audit_pipeline _) => apply keeps_audit_pipeline
    | |- keeps_transitions (ret _) => apply keeps_ret
    | |- keeps_transitions get => apply keeps_get
    | |- keeps_transitions timezone_now => apply keeps_now
    | |- keeps_transitions (milestones_create _) => apply keeps_milestone
    | |- keeps_transitions (call _ save) => apply keeps_call_save
    | |- keeps_transitions (objects_create _) => apply keeps_objects_create
    | |- keeps_transitions (create_audit_milestones _ _) => apply keeps_audit_milestones
    | |- keeps_transitions (let _ := _ in _) => cbv zeta
    | |- keeps_transitions (match ?x with _ => _ end) => destruct x; cbv beta iota
    end.

(** No receiver writes a [PipelineStageTransition] row. *)
Lemma receivers_keep_transitions :
  (forall l created, keeps_transitions (create_pipeline_from_lead l created))
  /\ (forall o created, keeps_transitions (update_pipeline_from_opportunity o created))
  /\ (forall c created, keeps_transitions (update_pipeline_from_contract c created))
  /\ (forall a created, keeps_transitions (update_pipeline_from_audit a created)).
Proof.
  repeat split; intros x created.
  - unfold create_pipeline_from_lead, create_lead_milestones. keeps.
  - unfold update_pipeline_from_opportunity, create_opportunity_milestones. keeps.
  - unfold update_pipeline_from_contract, create_contract_milestones, agreement_date_or_now.
    keeps.
  - unfold update_pipeline_from_audit. keeps.
Qed.




(** Creating a lead that qualifies: its pipeline row afterwards. *)
Lemma lead_created_projected (l : Lead.t) (w : World) :
  table_ok (job_pipelines w) ->
  str_in (Lead.status l) ["QUALIFIED"; "PROPOSAL_SENT"] = true ->
  fst (create_pipeline_from_lead l true w) = Ok tt
  /\ exists row,
       In row (job_pipelines (snd (create_pipeline_from_lead l true w)))
       /\ lead row = Some (Lead.id l)
       /\ (filter_exists lead (Lead.id l) w = false ->
           current_stage row = "LEAD"
           /\ client_name row = Lead.company_name l
           /\ estimated_value row = Lead.estimated_value l
           /\ currency row = Lead.currency l
           /\ owner row = Lead.assigned_to l
           /\ lead_created_date row = Some (Lead.created_at l)).
Proof.
  intros Hok Hs. unfold create_pipeline_from_lead. rewrite Hs.
  unfold bind, get. cbv beta iota zeta. cbn [andb].
  destruct (filter_exists lead (Lead.id l) w) eqn:E; cbn [negb]; cbv beta iota.
  - split; [reflexivity|]. unfold filter_exists in E.
    destruct (objects_filter lead (Lead.id l) w) as [|row rest] eqn:F; [discriminate|].
    assert (Hin : In row (objects_filter lead (Lead.id l) w)) by (rewrite F; now left).
    apply filter_In in Hin as (Hin & Hl). apply opt_nat_eqb_eq in Hl.
    exists row. cbn [snd ret]. split; [exact Hin|split; [exact Hl|discriminate]].
  - match goal with
    | |- context [objects_create ?x w] => set (p0 := x)
    end.
    assert (Hu : unsaved p0) by (repeat split).
    pose proof (objects_create_unsaved p0 w Hok Hu) as C. cbv zeta in C. rewrite C.
    unfold create_lead_milestones, bind, timezone_now, milestones_create.
    cbn [fst snd job_pipelines with_milestones with_job_pipelines tick].
    split; [reflexivity|].
    eexists. split; [apply in_or_app; right; left; reflexivity|].
    repeat split.
Qed.




(* ------------------------------------------------------------------ *)
(** *** The two update paths                                            *)
(* ------------------------------------------------------------------ *)

Lemma stamp_current_stage (s : string) (now : datetime) (p : JobPipeline) :
  current_stage (stamp s now p) = current_stage p.
Proof.
  unfold stamp.
  repeat match goal with
         | |- context [String.eqb s ?c] => destruct (String.eqb s c)
         end; destruct p; reflexivity.
Qed.

(** A call of [advance_stage] that returns has moved along a listed edge
    and logged it. *)
Lemma advance_stage_moved (p p0 : JobPipeline) (w : World) (s : string) (user : user_arg) :
  current_stage p0 = current_stage p ->
  fst (advance_stage s user (p0, w)) = Ok tt ->
  moved p w (user_id user) (fst (snd (advance_stage s user (p0, w))))
                           (snd (snd (advance_stage s user (p0, w)))).
Proof.
  intros E0 H. destruct (successor (current_stage p0) s) eqn:E.
  - assert (U : user <> AnonymousUser).
    { intros ->. destruct (advance_stage_anonymous p0 w s E) as (msg & A).
      rewrite A in H. destruct (save _) as [[u|e] s']; discriminate H. }
    rewrite (advance_stage_valid p0 w s user E U) in *.
    destruct (save_frame (stamp s (clock w) (set_current_stage s p0)) (tick w)) as (Ft & Fs).
    destruct (save _) as [[u|e] [p1 w1]]; [|discriminate H].
    cbn [fst snd] in *. right.
    rewrite stamp_current_stage in Fs.
    replace (current_stage (set_current_stage s p0)) with s in Fs by (destruct p0; reflexivity).
    rewrite Fs, <- E0. split; [exact E|].
    exists (mkTransition (pk p1) (current_stage p0) s (user_id user)).
    split; [|repeat split].
    cbn. rewrite Ft. reflexivity.
  - rewrite (advance_stage_invalid p0 w s user E) in H. discriminate H.
Qed.

(** The closing [self.save()] keeps what was reached. *)
Lemma moved_then_save (p : JobPipeline) (w : World) (user : option nat)
  (p1 : JobPipeline) (w1 : World) :
  moved p w user p1 w1 ->
  moved p w user (fst (snd (save (p1, w1)))) (snd (snd (save (p1, w1)))).
Proof.
  intros M. destruct (save_frame p1 w1) as (Ft & Fs). unfold moved in *.
  rewrite Ft, Fs. exact M.
Qed.

Lemma moved_same (p : JobPipeline) (w : World) (user : option nat) (p1 : JobPipeline) :
  current_stage p1 = current_stage p -> moved p w user p1 w.
Proof. intros E. left. auto. Qed.

Lemma moved_assign (p : JobPipeline) (w : World) (user : option nat)
  (p1 p2 : JobPipeline) (w1 : World) :
  moved p w user p1 w1 -> current_stage p2 = current_stage p1 -> moved p w user p2 w1.
Proof. unfold moved. intros M ->. exact M. Qed.

Ltac after_advance p w user :=
  match goal with
  | H : context [advance_stage ?s user (?p0, w)] |- _ =>
      let A := fresh "A" in
      let M := fresh "M" in
      pose proof (advance_stage_moved p p0 w s user) as M;
      destruct (advance_stage s user (p0, w)) as [[[]|e] [p1 w1]] eqn:A;
      cbn [fst snd] in *; [|discriminate];
      specialize (M ltac:(destruct p; reflexivity) eq_refl);
      apply moved_then_save;
      apply (moved_assign p w (user_id user) p1); [exact M|destruct p1; reflexivity]
  end.

Lemma update_from_related_object_moved
  (obj : related) (user : user_arg) (p : JobPipeline) (w : World) :
  fst (update_from_related_object obj user (p, w)) = Ok tt ->
  moved p w (user_id user) (fst (snd (update_from_related_object obj user (p, w))))
                           (snd (snd (update_from_related_object obj user (p, w)))).
Proof.
  unfold update_from_related_object, bind, assign, get_self, ret.
  cbv beta iota zeta. cbn [fst snd].
  destruct obj as [l|o|c|a]; cbv beta iota; cbn [fst snd].
  - destruct (String.eqb _ "LEAD"); intros _; cbn [fst snd];
      apply moved_then_save, moved_same; destruct p; reflexivity.
  - destruct (String.eqb (Opportunity.status o) "CLOSED_WON" && _)%bool; intros H.
    + after_advance p w user.
    + cbn [fst snd] in *. apply moved_then_save, moved_same. destruct p; reflexivity.
  - destruct (String.eqb (Contract.status c) "ACTIVE" && _)%bool; intros H.
    + after_advance p w user.
    + cbn [fst snd] in *. apply moved_then_save, moved_same. destruct p; reflexivity.
  - destruct (String.eqb (Audit.status a) "PLANNED" && _)%bool;
      [|destruct (String.eqb (Audit.status a) "IN_PROGRESS" && _)%bool;
        [|destruct (String.eqb (Audit.status a) "COMPLETED" && _)%bool]]; intros H.
    + after_advance p w user.
    + after_advance p w user.
    + after_advance p w user.
    + cbn [fst snd] in *. apply moved_then_save, moved_same. reflexivity.
Qed.

Lemma follows_refl (rows : list JobPipeline) : stages_follow_edges rows rows.
Proof. intros row Hr. exists row. auto. Qed.

Lemma replace_row_follows (rows : list JobPipeline) (pipeline q : JobPipeline) (i : nat) :
  table_ok rows -> In pipeline rows -> pk pipeline = Some i -> pk q = Some i ->
  current_stage q = current_stage pipeline
  \/ successor (current_stage pipeline) (current_stage q) = true ->
  stages_follow_edges rows (replace_row i q rows).
Proof.
  intros (_ & NDpk & _) Hin Hi Hq Hs row' Hr.
  unfold replace_row in Hr. apply in_map_iff in Hr as (x & <- & Hx).
  destruct (opt_nat_eqb (pk x) (Some i)) eqn:E.
  - apply opt_nat_eqb_eq in E.
    assert (x = pipeline) by (apply (NoDup_map_eq pk rows); congruence). subst x.
    exists pipeline. rewrite Hq, Hi. auto.
  - exists x. auto.
Qed.

Lemma audit_milestones_rows (p : JobPipeline) (a : Audit.t) (w : World) :
  job_pipelines (snd (create_audit_milestones p a w)) = job_pipelines w.
Proof.
  unfold create_audit_milestones.
  match goal with |- context [fold_right _ _ ?l] => generalize l end.
  intros l. revert w. induction l as [|m l IH]; intros w; [reflexivity|].
  cbn [fold_right]. unfold bind at 1. unfold milestones_create at 1.
  rewrite IH. reflexivity.
Qed.

(** Saving an object made from a stored row, and going on with [k]: the
    table afterwards follows the edges when the object does. *)
Lemma call_save_follows (w w0 : World) (pipeline q : JobPipeline)
  (k : JobPipeline -> M World unit) :
  table_ok (job_pipelines w) -> In pipeline (job_pipelines w) ->
  job_pipelines w0 = job_pipelines w ->
  loaded_from q pipeline ->
  current_stage q = current_stage pipeline
  \/ successor (current_stage pipeline) (current_stage q) = true ->
  (forall x y, job_pipelines (snd (k x y)) = job_pipelines y) ->
  stages_follow_edges (job_pipelines w)
    (job_pipelines (snd (let (r, s') := call q save w0 in
                         match r with
                         | Ok x => k x s'
                         | Raise e => (Raise e, s')
                         end))).
Proof.
  intros Hok Hin E0 Hl Hs Hk.
  destruct (table_ok_pk _ _ Hok Hin) as (i & Hi).
  rewrite <- E0 in Hok, Hin.
  rewrite (call_save_loaded q pipeline w0 i Hok Hin Hi Hl). rewrite Hk.
  cbn [job_pipelines with_job_pipelines tick]. rewrite <- E0.
  apply (replace_row_follows _ pipeline); auto.
  destruct Hl as (E & _). destruct q; cbn in *. congruence.
Qed.

(** The three outcomes of [instance.pipeline]. *)
Lemma Audit_pipeline_cases (a : Audit.t) (w : World) :
  (exists pipeline, Audit_pipeline a w = (Ok (Some pipeline), w)
                    /\ In pipeline (job_pipelines w)
                    /\ Audit.pipeline a = pk pipeline)
  \/ (Audit_pipeline a w = (Ok None, w) /\ Audit.pipeline a = None)
  \/ (exists msg i, Audit_pipeline a w = (Raise (DoesNotExist msg), w)
                    /\ Audit.pipeline a = Some i /\ get_by_pk i w = None).
Proof.
  unfold Audit_pipeline, bind, get, ret, raise. cbv beta iota.
  destruct (Audit.pipeline a) as [i|]; [|right; left; auto].
  destruct (get_by_pk i w) as [pipeline|] eqn:F.
  - left. exists pipeline. apply get_by_pk_In in F as (Hin & Hi). auto.
  - right. right. eexists. exists i. auto.
Qed.

(** The receiver for audits only moves a pipeline along a listed edge. *)
Lemma audit_receiver_follows_edges (a : Audit.t) (created : bool) (w : World) :
  table_ok (job_pipelines w) ->
  stages_follow_edges (job_pipelines w)
                      (job_pipelines (snd (update_pipeline_from_audit a created w))).
Proof.
  intros Hok. unfold update_pipeline_from_audit. unfold bind at 1.
  destruct (Audit_pipeline_cases a w) as [(pipeline & -> & Hin & _)|[(-> & _)|(msg & i & -> & _)]];
    [|destruct created; apply follows_refl|apply follows_refl].
  unfold bind, timezone_now. cbv beta iota zeta.
  destruct created.
  - destruct (String.eqb_spec (current_stage pipeline) "CONTRACT") as [Es|];
      [|apply follows_refl].
    apply (call_save_follows w _ pipeline);
      [exact Hok|exact Hin|reflexivity|destruct pipeline; repeat split| |].
    + right. rewrite Es. reflexivity.
    + intros x y. apply audit_milestones_rows.
  - destruct (String.eqb (Audit.status a) "IN_PROGRESS"); cbn [andb].
    + destruct (String.eqb_spec (current_stage pipeline) "AUDIT_SCHEDULED") as [Es|].
      * apply (call_save_follows w _ pipeline _ (fun _ => ret tt));
          [exact Hok|exact Hin|reflexivity|destruct pipeline; repeat split| |reflexivity].
        right. rewrite Es. reflexivity.
      * destruct (String.eqb (Audit.status a) "COMPLETED"); cbn [andb]; [|apply follows_refl].
        destruct (String.eqb_spec (current_stage pipeline) "AUDIT_IN_PROGRESS") as [Es|];
          [|apply follows_refl].
        apply (call_save_follows w _ pipeline _ (fun _ => ret tt));
          [exact Hok|exact Hin|reflexivity|destruct pipeline; repeat split| |reflexivity].
        right. rewrite Es. reflexivity.
    + destruct (String.eqb (Audit.status a) "COMPLETED"); cbn [andb]; [|apply follows_refl].
      destruct (String.eqb_spec (current_stage pipeline) "AUDIT_IN_PROGRESS") as [Es|];
        [|apply follows_refl].
      apply (call_save_follows w _ pipeline _ (fun _ => ret tt));
        [exact Hok|exact Hin|reflexivity|destruct pipeline; repeat split| |reflexivity].
      right. rewrite Es. reflexivity.
Qed.

(** So does the receiver for opportunities when an opportunity is updated. *)
Lemma opportunity_update_follows_edges (o : Opportunity.t) (w : World) :
  table_ok (job_pipelines w) ->
  stages_follow_edges (job_pipelines w)
                      (job_pipelines (snd (update_pipeline_from_opportunity o false w))).
Proof.
  intros Hok. unfold update_pipeline_from_opportunity, bind, get.
  cbv beta iota zeta.
  destruct (filter_first opportunity (Opportunity.id o) w) as [pipeline|] eqn:F;
    [|apply follows_refl].
  assert (Hin : In pipeline (job_pipelines w)) by now apply filter_first_In in F.
  destruct (String.eqb (Opportunity.status o) "CLOSED_WON"); cbn [andb].
  - destruct (String.eqb_spec (current_stage pipeline) "OPPORTUNITY") as [Es|].
    + apply (call_save_follows w _ pipeline _ (fun _ => ret tt));
        [exact Hok|exact Hin|reflexivity|destruct pipeline; repeat split| |reflexivity].
      right. rewrite Es. reflexivity.
    + destruct (String.eqb (Opportunity.status o) "CLOSED_LOST"); [|apply follows_refl].
      apply (call_save_follows w _ pipeline _ (fun _ => ret tt));
        [exact Hok|exact Hin|reflexivity|destruct pipeline; repeat split| |reflexivity].
      left. destruct pipeline; reflexivity.
  - destruct (String.eqb (Opportunity.status o) "CLOSED_LOST"); [|apply follows_refl].
    apply (call_save_follows w _ pipeline _ (fun _ => ret tt));
      [exact Hok|exact Hin|reflexivity|destruct pipeline; repeat split| |reflexivity].
    left. destruct pipeline; reflexivity.
Qed.

(** C5, as the code has it. [update_from_related_object] changes the stage
    only through [advance_stage]: when it returns, the stage is as before
    and nothing was logged, or it moved along a listed edge and exactly one
    transition row records the move. The post_save receivers assign the
    stage themselves and never write a transition row; the moves they make
    under a guard on the current stage (an updated opportunity that is
    CLOSED_WON, a created or updated audit) are along listed edges. *)
Theorem stage_changes_of_the_two_paths :
  (forall obj user p w,
     fst (update_from_related_object obj user (p, w)) = Ok tt ->
     (current_stage (fst (snd (update_from_related_object obj user (p, w))))
      = current_stage p
      /\ pipeline_stage_transitions (snd (snd (update_from_related_object obj user (p, w))))
         = pipeline_stage_transitions w)
     \/ (successor (current_stage p)
           (current_stage (fst (snd (update_from_related_object obj user (p, w))))) = true
         /\ exists t,
              pipeline_stage_transitions
                (snd (snd (update_from_related_object obj user (p, w))))
              = (pipeline_stage_transitions w ++ [t])%list
              /\ from_stage t = current_stage p
              /\ to_stage t
                 = current_stage (fst (snd (update_from_related_object obj user (p, w))))
              /\ transitioned_by t = user_id user))
  /\ (forall l created w,
        pipeline_stage_transitions (snd (create_pipeline_from_lead l created w))
        = pipeline_stage_transitions w)
  /\ (forall o created w,
        pipeline_stage_transitions (snd (update_pipeline_from_opportunity o created w))
        = pipeline_stage_transitions w)
  /\ (forall c created w,
        pipeline_stage_transitions (snd (update_pipeline_from_contract c created w))
        = pipeline_stage_transitions w)
  /\ (forall a created w,
        pipeline_stage_transitions (snd (update_pipeline_from_audit a created w))
        = pipeline_stage_transitions w)
  /\ (forall a created w, table_ok (job_pipelines w) ->
        stages_follow_edges (job_pipelines w)
          (job_pipelines (snd (update_pipeline_from_audit a created w))))
  /\ (forall o w, table_ok (job_pipelines w) ->
        stages_follow_edges (job_pipelines w)
          (job_pipelines (snd (update_pipeline_from_opportunity o false w)))).
Proof.
  destruct receivers_keep_transitions as (K1 & K2 & K3 & K4).
  split; [|split; [|split; [|split; [|split; [|split]]]]].
  - intros obj user p w H. exact (update_from_related_object_moved obj user p w H).
  - intros l created w. apply K1.
  - intros o created w. apply K2.
  - intros c created w. apply K3.
  - intros a created w. apply K4.
  - intros a created w. apply audit_receiver_follows_edges.
  - intros o w. apply opportunity_update_follows_edges.
Qed.

Lemma stage_changes_of_the_two_paths_witness :
  stages_follow_edges (job_pipelines w_contract)
    (job_pipelines (snd (update_pipeline_from_audit audit_acme true w_contract))).
Proof.
  apply (proj1 (proj2 (proj2 (proj2 (proj2 (proj2 stage_changes_of_the_two_paths)))))).
  unfold table_ok. cbn. repeat split.
  - constructor; [|constructor]. exists 1, 1%N. repeat split.
  - constructor; [intros []|constructor].
  - constructor; [intros []|constructor].
Defined.

(** C5 as stated fails: the pipeline of the sample lead stands at CONTRACT;
    creating a second opportunity for the lead puts the same pipeline at
    OPPORTUNITY, which is no successor of CONTRACT, and after three stage
    changes made by receivers the transition table is still empty. *)
Lemma receiver_moves_off_the_graph_unlogged :
  map current_stage (job_pipelines w_lead) = ["LEAD"]
  /\ map current_stage (job_pipelines w_opportunity) = ["OPPORTUNITY"]
  /\ map current_stage (job_pipelines w_contract) = ["CONTRACT"]
  /\ snd (update_pipeline_from_opportunity opportunity_acme_again true w_contract)
     = w_reopened
  /\ map current_stage (job_pipelines w_reopened) = ["OPPORTUNITY"]
  /\ map pk (job_pipelines w_reopened) = map pk (job_pipelines w_contract)
  /\ successor "CONTRACT" "OPPORTUNITY" = false
  /\ pipeline_stage_transitions w_reopened = [].
Proof. vm_compute. repeat split. Qed.

(* ================================================================== *)
(** ** Further properties of the stage graph                            *)
(* ================================================================== *)

(** X1. CLOSED is the only stage no transition leaves; every stage can be
    reached from LEAD and, unless it is CLOSED already, can reach CLOSED;
    and no transition enters LEAD or a string that is not a stage. *)
Theorem every_stage_between_lead_and_closed (s : string) :
  In s STAGE_CHOICES ->
  ((forall next, successor s next = false) <-> s = "CLOSED")
  /\ (s <> "LEAD" -> reaches "LEAD" s)
  /\ (s <> "CLOSED" -> reaches s "CLOSED")
  /\ (forall from, successor from "LEAD" = false)
  /\ (forall from other, ~ In other STAGE_CHOICES -> successor from other = false).
Proof.
  intros Hs.
  assert (E1 : forall from, successor from "LEAD" = false).
  { intros from. destruct (successor from "LEAD") eqn:E; [|reflexivity].
    apply successor_cases in E. cbn [In] in E.
    repeat (destruct E as [E|E]; [discriminate E|]). contradiction. }
  assert (E2 : forall from other, ~ In other STAGE_CHOICES -> successor from other = false).
  { intros from other Hn. destruct (successor from other) eqn:E; [|reflexivity].
    exfalso. apply Hn. apply successor_cases in E. cbn [In] in E.
    repeat (destruct E as [E|E]; [injection E as _ <-; cbn; tauto|]). contradiction. }
  cbn [STAGE_CHOICES In] in Hs.
  repeat (destruct Hs as [<-|Hs]); try contradiction.
  all: split; [split|split; [|split; [|split; [exact E1|exact E2]]]].
  all: try (intros H; discriminate H).
  all: try (intros H; exfalso; congruence).
  all: try (intros _ next; reflexivity).
  all: try (intros _;
            match goal with
            | |- reaches "LEAD" ?s =>
                exists (firstn (rank s) (tl STAGE_CHOICES)); split; reflexivity
            | |- reaches ?s "CLOSED" =>
                exists (skipn (S (rank s)) STAGE_CHOICES); split; reflexivity
            end).
  all: try reflexivity.
  all: intros H;
    match goal with
    | H : forall next, successor ?s next = false |- _ =>
        specialize (H (nth (S (rank s)) STAGE_CHOICES "")); discriminate H
    end.
Qed.

Lemma every_stage_between_lead_and_closed_witness :
  reaches "LEAD" "SURVEILLANCE_DUE" /\ reaches "AUDIT_SCHEDULED" "CLOSED".
Proof.
  split.
  - apply (every_stage_between_lead_and_closed "SURVEILLANCE_DUE");
      [cbn; tauto|discriminate].
  - apply (every_stage_between_lead_and_closed "AUDIT_SCHEDULED");
      [cbn; tauto|discriminate].
Defined.

(* ================================================================== *)
(** ** The computed properties of JobPipeline                           *)
(* ================================================================== *)

Lemma stage_weight_cases (c : string) :
  (~ In c STAGE_CHOICES /\ dict_get stage_weights c 0%Z = 0%Z)
  \/ (exists v, In (c, v) stage_weights /\ dict_get stage_weights c 0%Z = v).
Proof.
  unfold stage_weights, dict_get.
  repeat match goal with
         | |- context [String.eqb c ?k] =>
             destruct (String.eqb_spec c k);
             [subst c; right; eexists; split; [|reflexivity]; cbn; tauto|]
         end.
  left. split; [|reflexivity]. cbn. intuition congruence.
Qed.

(** A call of [advance_stage] that returns was for a listed successor and
    left the object at the requested stage with the timeline [stamp] gives. *)
Lemma advance_stage_returned (p : JobPipeline) (w : World) (s : string) (user : user_arg) :
  fst (advance_stage s user (p, w)) = Ok tt ->
  successor (current_stage p) s = true
  /\ current_stage (fst (snd (advance_stage s user (p, w)))) = s
  /\ timeline (fst (snd (advance_stage s user (p, w))))
     = timeline (stamp s (clock w) p).
Proof.
  intros H. destruct (advance_stage_returned_for p w s user H) as (_ & U).
  destruct (successor (current_stage p) s) eqn:E.
  - split; [reflexivity|]. rewrite (advance_stage_valid p w s user E U) in *.
    rewrite save_unfold in *.
    destruct (Model_save_frame
                (numbered (stamp s (clock w) (set_current_stage s p)) (tick w)) (tick w))
      as (_ & Fs & Ft & _).
    destruct (Model_save _) as [[u|e] [p1 w1]]; [|discriminate H].
    cbn [fst snd] in *. rewrite Fs, Ft. clear.
    assert (N : forall q x, current_stage (numbered q x) = current_stage q
                            /\ timeline (numbered q x) = timeline q).
    { intros q x. unfold numbered.
      destruct (number_truthy (number q)); destruct (String.eqb _ ""); destruct q;
        split; reflexivity. }
    destruct (N (stamp s (clock w) (set_current_stage s p)) (tick w)) as (-> & ->).
    rewrite stamp_current_stage. split; [destruct p; reflexivity|].
    unfold stamp.
    repeat match goal with
           | |- context [String.eqb s ?c] => destruct (String.eqb s c)
           end; destruct p; reflexivity.
  - rewrite (advance_stage_invalid p w s user E) in H. discriminate H.
Qed.

(** X2. The progress percentage is 0 for a string that is not a stage and
    between 10 and 100 for a stage; it is 100 exactly from
    CERTIFICATE_ISSUED on; and a call of [advance_stage] that returns never
    lowers it, except for the step from SURVEILLANCE_DUE back to
    AUDIT_SCHEDULED, which brings it from 100 down to 70. *)
Theorem progress_never_decreases_forward
  (p : JobPipeline) (w : World) (s : string) (user : user_arg) :
  (0 <= stage_progress_percentage p <= 100)%Z
  /\ (In (current_stage p) STAGE_CHOICES -> (10 <= stage_progress_percentage p)%Z)
  /\ (~ In (current_stage p) STAGE_CHOICES -> stage_progress_percentage p = 0%Z)
  /\ (stage_progress_percentage p = 100%Z
      <-> In (current_stage p) ["CERTIFICATE_ISSUED"; "SURVEILLANCE_DUE"; "CLOSED"])
  /\ (fst (advance_stage s user (p, w)) = Ok tt ->
      (surveillance_edge (current_stage p) s = false ->
       (stage_progress_percentage p
        <= stage_progress_percentage (fst (snd (advance_stage s user (p, w)))))%Z)
      /\ (surveillance_edge (current_stage p) s = true ->
          stage_progress_percentage p = 100%Z
          /\ stage_progress_percentage (fst (snd (advance_stage s user (p, w)))) = 70%Z)).
Proof.
  unfold stage_progress_percentage.
  split; [|split; [|split; [|split]]].
  - destruct (stage_weight_cases (current_stage p)) as [(_ & ->)|(v & H & ->)]; [lia|].
    cbn [stage_weights In] in H.
    repeat (destruct H as [H|H]; [injection H as _ <-; lia|]). contradiction.
  - intros Hin.
    destruct (stage_weight_cases (current_stage p)) as [(Hn & _)|(v & H & ->)];
      [exact (False_ind _ (Hn Hin))|].
    cbn [stage_weights In] in H.
    repeat (destruct H as [H|H]; [injection H as _ <-; lia|]). contradiction.
  - intros Hn.
    destruct (stage_weight_cases (current_stage p)) as [(_ & E)|(v & H & _)]; [exact E|].
    exfalso. apply Hn. cbn [stage_weights In] in H.
    repeat (destruct H as [H|H]; [injection H as <- _; cbn; tauto|]). contradiction.
  - destruct (stage_weight_cases (current_stage p)) as [(Hn & E)|(v & H & ->)].
    + rewrite E. split; [discriminate|]. intros H. exfalso. apply Hn.
      cbn in *. tauto.
    + cbn [stage_weights In] in H.
      repeat (destruct H as [H|H];
              [injection H as <- <-; cbn;
               split; intros G; try discriminate G; try tauto;
               repeat (destruct G as [G|G]; [discriminate G|]); contradiction|]).
      contradiction.
  - intros H. destruct (advance_stage_returned p w s user H) as (S & -> & _).
    apply successor_cases in S. cbn [In] in S.
    repeat (destruct S as [S|S];
            [injection S as <- <-; split; intros F;
             first [discriminate F | cbv; intros G; discriminate G
                   | split; reflexivity ]|]).
    contradiction.
Qed.

Lemma progress_never_decreases_forward_witness :
  (stage_progress_percentage p_lead
   <= stage_progress_percentage (fst (snd lead_to_opportunity)))%Z.
Proof.
  apply (progress_never_decreases_forward p_lead w_lead "OPPORTUNITY" (User 7));
    reflexivity.
Defined.

Lemma days_by_timeline (now : datetime) (p q : JobPipeline) :
  current_stage p = current_stage q -> timeline p = timeline q ->
  days_in_current_stage now p = days_in_current_stage now q.
Proof.
  unfold timeline, days_in_current_stage, stage_start_dates.
  intros -> E. injection E as -> -> -> -> -> ->. reflexivity.
Qed.

(** X3. After a call of [advance_stage] that returns, the days in the
    current stage count from the moment of the call when the new stage has
    a timeline column of its own; for AUDIT_IN_PROGRESS they go on counting
    from the date the audit was scheduled; for SURVEILLANCE_DUE and CLOSED
    they are 0 whatever the time. *)
Theorem days_in_stage_after_advance
  (p : JobPipeline) (w : World) (s : string) (user : user_arg) (now : datetime) :
  fst (advance_stage s user (p, w)) = Ok tt ->
  (In s ["OPPORTUNITY"; "CONTRACT"; "AUDIT_SCHEDULED"; "AUDIT_COMPLETED";
         "CERTIFICATE_ISSUED"] ->
   days_in_current_stage now (fst (snd (advance_stage s user (p, w))))
   = ((now - clock w) / 86400)%Z)
  /\ (s = "AUDIT_IN_PROGRESS" ->
      days_in_current_stage now (fst (snd (advance_stage s user (p, w))))
      = match audit_scheduled_date p with
        | Some scheduled => ((now - scheduled) / 86400)%Z
        | None => 0%Z
        end)
  /\ (In s ["SURVEILLANCE_DUE"; "CLOSED"] ->
      days_in_current_stage now (fst (snd (advance_stage s user (p, w)))) = 0%Z).
Proof.
  intros H. destruct (advance_stage_returned p w s user H) as (_ & Es & Et).
  assert (D : days_in_current_stage now (fst (snd (advance_stage s user (p, w))))
              = days_in_current_stage now (set_current_stage s (stamp s (clock w) p))).
  { apply days_by_timeline.
    - rewrite Es. now destruct (stamp _ _ _).
    - rewrite Et. now destruct (stamp _ _ _). }
  rewrite D. clear.
  split; [|split].
  - cbn [In]. intros [<-|[<-|[<-|[<-|[<-|[]]]]]]; destruct p; reflexivity.
  - intros ->. destruct p; reflexivity.
  - cbn [In]. intros [<-|[<-|[]]]; destruct p; reflexivity.
Qed.

Lemma days_in_stage_after_advance_witness :
  days_in_current_stage (clock w_lead + 3 * 86400 + 5)%Z (fst (snd lead_to_opportunity))
  = 3%Z.
Proof.
  unfold lead_to_opportunity.
  rewrite (proj1 (days_in_stage_after_advance p_lead w_lead "OPPORTUNITY" (User 7)
                    (clock w_lead + 3 * 86400 + 5)%Z eq_refl)).
  - reflexivity.
  - cbn. tauto.
Defined.

(** X4. A pipeline that [save] has numbered carries one rendering of its
    number in all its references: the identifier is PL-<d>, the audit
    reference PL-A-<d>, the opportunity and contract references PL-O-<d>
    and PL-C-<d> when the link is set and [None] when it is not. Within a
    table no two rows share an audit reference; an object without a number
    has no reference at all. *)
Theorem references_render_the_number (r : JobPipeline) (a : Audit.t) :
  (numbered_row r ->
   exists d, pipeline_id r = "PL-" ++ d
             /\ get_audit_ref r a = Some ("PL-A-" ++ d)
             /\ opportunity_ref r
                = (if is_some (opportunity r) then Some ("PL-O-" ++ d) else None)
             /\ contract_ref r
                = (if is_some (contract r) then Some ("PL-C-" ++ d) else None))
  /\ (forall rows r' a',
        table_ok rows -> In r rows -> In r' rows ->
        get_audit_ref r a = get_audit_ref r' a' -> r = r')
  /\ (number_truthy (number r) = false ->
      get_audit_ref r a = None /\ opportunity_ref r = None /\ contract_ref r = None).
Proof.
  split; [|split].
  - intros Hr. destruct (numbered_row_truthy r Hr) as (T & _).
    destruct Hr as (i & n & _ & En & _ & Ei).
    exists (format_0wd 5 n).
    unfold get_audit_ref, opportunity_ref, contract_ref. rewrite T, En, Ei. cbn.
    repeat split; [destruct (opportunity r)|destruct (contract r)]; reflexivity.
  - intros rows r' a' Hok Hin Hin' E.
    destruct Hok as (Hrows & _ & ND). rewrite Forall_forall in Hrows.
    pose proof (Hrows r Hin) as Hr. pose proof (Hrows r' Hin') as Hr'.
    destruct (numbered_row_truthy r Hr) as (T & _).
    destruct (numbered_row_truthy r' Hr') as (T' & _).
    destruct Hr as (i & n & _ & En & _ & _), Hr' as (i' & n' & _ & En' & _ & _).
    unfold get_audit_ref in E. rewrite T, T', En, En' in E. cbn [number_or_0] in E.
    assert (E' : "PL-A-" ++ format_0wd 5 n = "PL-A-" ++ format_0wd 5 n') by congruence.
    apply (append_cancel_l "PL-A-"), format_0wd_inj in E'.
    apply (NoDup_map_eq number rows); congruence.
  - intros T. unfold get_audit_ref, opportunity_ref, contract_ref. rewrite T.
    rewrite !andb_false_r. auto.
Qed.

Lemma references_render_the_number_witness :
  get_audit_ref p_lead audit_acme = Some "PL-A-00001" /\ opportunity_ref p_lead = None.
Proof.
  destruct (proj1 (references_render_the_number p_lead audit_acme)) as (d & E1 & E2 & E3 & _).
  - exists 1, 1%N. repeat split.
  - apply (append_cancel_l "PL-") in E1. subst d. split; [exact E2|exact E3].
Defined.

(** X5. A milestone never has a negative number of days remaining; an
    overdue milestone is not completed and has none; on its due date it is
    not overdue and has none left either; and a milestone with days
    remaining is not overdue. *)
Theorem milestone_overdue_and_remaining (today : date) (m : Milestone.t) :
  (0 <= Milestone.days_remaining today m)%Z
  /\ (Milestone.is_overdue today m = true ->
      Milestone.is_completed m = false /\ (Milestone.due_date m < today)%Z
      /\ Milestone.days_remaining today m = 0%Z)
  /\ (Milestone.due_date m = today ->
      Milestone.is_overdue today m = false /\ Milestone.days_remaining today m = 0%Z)
  /\ ((0 < Milestone.days_remaining today m)%Z ->
      Milestone.is_overdue today m = false
      /\ Milestone.days_remaining today m = (Milestone.due_date m - today)%Z)
  /\ (Milestone.is_completed m = true -> Milestone.is_overdue today m = false).
Proof.
  unfold Milestone.days_remaining, Milestone.is_overdue.
  destruct (Z.leb_spec today (Milestone.due_date m));
    destruct (Z.ltb_spec (Milestone.due_date m) today);
    destruct (Milestone.is_completed m); cbn; repeat split; intros; try lia;
    try discriminate; auto.
Qed.

Lemma milestone_overdue_and_remaining_witness :
  Milestone.days_remaining 20000 (Milestone.mk 19990 false) = 0%Z.
Proof.
  destruct (milestone_overdue_and_remaining 20000 (Milestone.mk 19990 false))
    as (_ & H & _).
  apply H. reflexivity.
Defined.

(* ================================================================== *)
(** ** Identity and history of a stored pipeline                        *)
(* ================================================================== *)

Lemma same_identity_identified (p p1 : JobPipeline) :
  identified p -> same_identity p p1 -> identified p1.
Proof.
  intros ((i & Hi) & Hn & Hid) (E1 & E2 & E3). unfold identified.
  rewrite E1, E2, E3. split; [now exists i|auto].
Qed.

Lemma save_identity (p p1 : JobPipeline) (w : World) :
  identified p -> same_identity p p1 ->
  same_identity p (fst (snd (save (p1, w)))).
Proof.
  intros Hp Hs. pose proof (same_identity_identified p p1 Hp Hs) as ((i & Hi) & Hn & Hid).
  rewrite save_unfold.
  assert (N : numbered p1 w = p1).
  { unfold numbered. rewrite Hn.
    destruct (String.eqb_spec (pipeline_id p1) ""); [contradiction|reflexivity]. }
  rewrite N.
  destruct (Model_save_frame p1 w) as (_ & _ & _ & En & Eid & _).
  destruct Hs as (E1 & E2 & E3).
  split; [|split; congruence].
  rewrite <- E1. unfold Model_save; cbn [fst snd].
  destruct (number_taken _ _); [destruct p1; reflexivity|].
  destruct (pipeline_id_taken _ _); [destruct p1; reflexivity|].
  replace (pk (set_updated_at (Some (clock w)) p1)) with (Some i)
    by (destruct p1; cbn in *; congruence).
  destruct (existsb _ _); destruct p1; reflexivity.
Qed.

Lemma advance_stage_identity (p p1 : JobPipeline) (w : World) (s : string) (user : user_arg) :
  identified p -> same_identity p p1 ->
  same_identity p (fst (snd (advance_stage s user (p1, w)))).
Proof.
  intros Hp Hs. destruct (successor (current_stage p1) s) eqn:E.
  - rewrite (advance_stage_saves_then_logs p1 w s user E).
    assert (Hq : same_identity p (stamp s (clock w) (set_current_stage s p1))).
    { unfold same_identity, stamp in *.
      repeat match goal with
             | |- context [String.eqb s ?c] => destruct (String.eqb s c)
             end; destruct p1; exact Hs. }
    pose proof (save_identity p _ (tick w) Hp Hq) as S.
    destruct (save _) as [[u|e] [p2 w2]]; [destruct user|]; exact S.
  - rewrite (advance_stage_invalid p1 w s user E). exact Hs.
Qed.

Ltac identity_after_advance p w :=
  match goal with
  | |- context [advance_stage ?s ?user (?p0, w)] =>
      let A := fresh "A" in
      let M := fresh "M" in
      assert (M : same_identity p (fst (snd (advance_stage s user (p0, w)))))
        by (apply advance_stage_identity; [assumption|destruct p; repeat split]);
      destruct (advance_stage s user (p0, w)) as [[[]|e] [p1 w1]] eqn:A;
      cbn [fst snd] in *; [|exact M];
      apply save_identity; [assumption|];
      destruct M as (M1 & M2 & M3); destruct p1; exact (conj M1 (conj M2 M3))
  end.

Lemma update_from_related_object_identity
  (obj : related) (user : user_arg) (p : JobPipeline) (w : World) :
  identified p ->
  same_identity p (fst (snd (update_from_related_object obj user (p, w)))).
Proof.
  intros Hp.
  unfold update_from_related_object, bind, assign, get_self, ret.
  cbv beta iota zeta. cbn [fst snd].
  destruct obj as [l|o|c|a]; cbv beta iota; cbn [fst snd].
  - destruct (String.eqb _ "LEAD"); cbn [fst snd];
      apply save_identity; try assumption; destruct p; repeat split.
  - destruct (String.eqb (Opportunity.status o) "CLOSED_WON" && _)%bool.
    + identity_after_advance p w.
    + cbn [fst snd]. apply save_identity; [assumption|destruct p; repeat split].
  - destruct (String.eqb (Contract.status c) "ACTIVE" && _)%bool.
    + identity_after_advance p w.
    + cbn [fst snd]. apply save_identity; [assumption|destruct p; repeat split].
  - destruct (String.eqb (Audit.status a) "PLANNED" && _)%bool;
      [|destruct (String.eqb (Audit.status a) "IN_PROGRESS" && _)%bool;
        [|destruct (String.eqb (Audit.status a) "COMPLETED" && _)%bool]].
    + identity_after_advance p w.
    + identity_after_advance p w.
    + identity_after_advance p w.
    + cbn [fst snd]. apply save_identity; [assumption|repeat split].
Qed.

(** X6. Once a pipeline has its primary key, number and identifier, none
    of the three is changed by [save], [advance_stage] or
    [update_from_related_object], whether the call returns or raises. *)
Theorem identity_is_never_reassigned (p : JobPipeline) (w : World) :
  identified p ->
  same_identity p (fst (snd (save (p, w))))
  /\ (forall s user, same_identity p (fst (snd (advance_stage s user (p, w)))))
  /\ (forall obj user,
        same_identity p (fst (snd (update_from_related_object obj user (p, w))))).
Proof.
  intros Hp. split; [|split].
  - apply save_identity; [exact Hp|repeat split].
  - intros s user. apply advance_stage_identity; [exact Hp|repeat split].
  - intros obj user. now apply update_from_related_object_identity.
Qed.

Lemma identity_is_never_reassigned_witness :
  pipeline_id (fst (snd (advance_stage "CLOSED" NoUser (p_lead, w_lead)))) = "PL-00001".
Proof.
  assert (H : identified p_lead).
  { split; [now exists 1|split; [reflexivity|discriminate]]. }
  destruct (identity_is_never_reassigned p_lead w_lead H) as (_ & A & _).
  destruct (A "CLOSED" NoUser) as (_ & _ & E). rewrite E. reflexivity.
Defined.

(** A valid [advance_stage] on an object loaded from a stored row, spelled
    out. *)
Lemma advance_stage_loaded
  (p r : JobPipeline) (w : World) (i : nat) (s : string) (user : user_arg) :
  table_ok (job_pipelines w) -> In r (job_pipelines w) -> pk r = Some i ->
  loaded_from p r -> successor (current_stage p) s = true -> user <> AnonymousUser ->
  exists q w',
    advance_stage s user (p, w) = (Ok tt, (q, w'))
    /\ current_stage q = s /\ loaded_from q r /\ In q (job_pipelines w')
    /\ table_ok (job_pipelines w')
    /\ job_pipelines w' = replace_row i q (job_pipelines w)
    /\ pipeline_stage_transitions w'
       = (pipeline_stage_transitions w
            ++ [mkTransition (Some i) (current_stage p) s (user_id user)])%list
    /\ pipeline_milestones w' = pipeline_milestones w
    /\ nulls_first w' = nulls_first w.
Proof.
  intros Hok Hr Hi Hl Hs U.
  rewrite (advance_stage_valid p w s user Hs U).
  pose proof (stamp_loaded p r s (clock w) Hl) as Hl'.
  rewrite (save_loaded _ r (tick w) i Hok Hr Hl' Hi).
  set (q := set_updated_at (Some (clock (tick w)))
              (stamp s (clock w) (set_current_stage s p))).
  assert (Hq : loaded_from q r).
  { unfold q. destruct Hl' as (A & B & C). destruct (stamp _ _ _). exact (conj A (conj B C)). }
  assert (Epk : pk q = Some i) by (destruct Hq as (E & _); congruence).
  assert (Es : current_stage q = s).
  { unfold q.
    transitivity (current_stage (stamp s (clock w) (set_current_stage s p)));
      [now destruct (stamp _ _ _)|].
    rewrite stamp_current_stage. destruct p; reflexivity. }
  eexists. eexists. split; [reflexivity|].
  cbn [job_pipelines pipeline_stage_transitions pipeline_milestones nulls_first
       with_transitions with_job_pipelines tick].
  rewrite Epk.
  split; [exact Es|split; [exact Hq|split; [now apply (replace_row_In i q r)|]]].
  split; [apply (table_ok_replace _ r); auto|].
  repeat split.
Qed.

(** X7. Calls of [advance_stage] made one after another on a stored
    pipeline, each for [None] or for a [User], write its history: the rows
    appended to the transition table are all for this pipeline, each starts
    where the one before ended, and read in order they are a valid path
    from the stage the pipeline had to the stage it has; rejected calls
    leave no row. *)
Theorem advance_stage_writes_the_history
  (requests : list (string * user_arg)) (p r : JobPipeline) (w : World) (i : nat) :
  table_ok (job_pipelines w) -> In r (job_pipelines w) -> pk r = Some i ->
  loaded_from p r ->
  Forall (fun request => snd request <> AnonymousUser) requests ->
  exists log,
    pipeline_stage_transitions (snd (advance_each requests (p, w)))
    = (pipeline_stage_transitions w ++ log)%list
    /\ valid_path (current_stage p :: map to_stage log) = true
    /\ last (current_stage p :: map to_stage log) ""
       = current_stage (fst (advance_each requests (p, w)))
    /\ map from_stage log = removelast (current_stage p :: map to_stage log)
    /\ Forall (fun t => tr_pipeline t = Some i) log
    /\ List.length log <= List.length requests
    /\ table_ok (job_pipelines (snd (advance_each requests (p, w)))).
Proof.
  revert p r w. induction requests as [|[s user] rest IH]; intros p r w Hok Hr Hi Hl Hu.
  - exists []. cbn [advance_each fst snd map List.length]. rewrite app_nil_r.
    split; [reflexivity|split; [reflexivity|split; [reflexivity|split; [reflexivity|]]]].
    split; [constructor|split; [lia|exact Hok]].
  - inversion Hu as [|x l U Hu' Ex]; subst x l. cbn [snd] in U.
    cbn [advance_each]. destruct (successor (current_stage p) s) eqn:E.
    + destruct (advance_stage_loaded p r w i s user Hok Hr Hi Hl E U)
        as (q & w' & A & Es & Hq & Hin & Hok' & _ & Htr & _).
      rewrite A. cbn [snd].
      assert (Hqi : pk q = Some i) by (destruct Hq as (Eq & _); congruence).
      destruct (IH q q w' Hok' Hin Hqi (loaded_from_refl q) Hu')
        as (log & L1 & L2 & L3 & L4 & L5 & L6 & L7).
      exists (mkTransition (Some i) (current_stage p) s (user_id user) :: log).
      rewrite Es in *. cbn [map to_stage from_stage List.length].
      split; [rewrite L1, Htr, <- app_assoc; reflexivity|].
      split; [change (successor (current_stage p) s
                      && valid_path (s :: map to_stage log) = true)%bool;
              rewrite E, L2; reflexivity|].
      split; [exact L3|].
      split; [cbn [removelast]; rewrite L4; reflexivity|].
      split; [constructor; [reflexivity|exact L5]|].
      split; [lia|exact L7].
    + rewrite (advance_stage_invalid p w s user E). cbn [snd].
      destruct (IH p r w Hok Hr Hi Hl Hu') as (log & L1 & L2 & L3 & L4 & L5 & L6 & L7).
      exists log. cbn [List.length].
      split; [exact L1|split; [exact L2|split; [exact L3|split; [exact L4|]]]].
      split; [exact L5|split; [lia|exact L7]].
Qed.

Lemma advance_stage_writes_the_history_witness :
  exists log,
    pipeline_stage_transitions
      (snd (advance_each [("OPPORTUNITY", NoUser); ("LEAD", NoUser); ("CONTRACT", User 7)]
                         (p_lead, w_lead)))
    = (pipeline_stage_transitions w_lead ++ log)%list
    /\ valid_path ("LEAD" :: map to_stage log) = true
    /\ last ("LEAD" :: map to_stage log) "" = "CONTRACT"
    /\ Forall (fun t => tr_pipeline t = Some 1) log.
Proof.
  destruct (advance_stage_writes_the_history
              [("OPPORTUNITY", NoUser); ("LEAD", NoUser); ("CONTRACT", User 7)]
              p_lead p_lead w_lead 1 w_lead_ok)
    as (log & L1 & L2 & L3 & _ & L5 & _);
    [now left|reflexivity|apply loaded_from_refl|repeat constructor; discriminate|].
  exists log. split; [exact L1|split; [exact L2|split; [|exact L5]]].
  change (last (current_stage p_lead :: map to_stage log) "" = "CONTRACT").
  rewrite L3. reflexivity.
Defined.

(* ================================================================== *)
(** ** JobPipelineViewSet.advance_stage                                 *)
(* ================================================================== *)

(** X8. On a well-numbered table the [advance_stage] action, requested by
    a stored user, never raises. It answers 404 for a key no pipeline has; 400, with the database left
    exactly as it was, when the stage is missing, empty or not a listed
    successor of the pipeline's stage; and 200 otherwise, with the stored
    row at the requested stage and one transition row appended. *)
Theorem view_advance_stage_responses
  (i : nat) (stage : option string) (user : nat) (w : World) :
  table_ok (job_pipelines w) ->
  (get_by_pk i w = None -> view_advance_stage i stage user w = (Ok HTTP_404_NOT_FOUND, w))
  /\ (forall p, get_by_pk i w = Some p ->
        (stage = None \/ stage = Some ""
         \/ (exists s, stage = Some s /\ successor (current_stage p) s = false) ->
         view_advance_stage i stage user w = (Ok HTTP_400_BAD_REQUEST, w))
        /\ (forall s, stage = Some s -> s <> "" -> successor (current_stage p) s = true ->
              fst (view_advance_stage i stage user w) = Ok HTTP_200_OK
              /\ (exists q, In q (job_pipelines (snd (view_advance_stage i stage user w)))
                            /\ pk q = Some i /\ current_stage q = s)
              /\ pipeline_stage_transitions (snd (view_advance_stage i stage user w))
                 = (pipeline_stage_transitions w
                      ++ [mkTransition (Some i) (current_stage p) s (Some user)])%list)).
Proof.
  intros Hok. unfold view_advance_stage, bind, get. cbv beta iota.
  split.
  - intros ->. reflexivity.
  - intros p Hp. rewrite Hp. split.
    + intros [->|[->|(s & -> & Hs)]]; try reflexivity.
      destruct (String.eqb s ""); [reflexivity|].
      unfold atomic. rewrite (advance_stage_invalid p w s (User user) Hs). cbn [fst snd].
      destruct w; reflexivity.
    + intros s -> Hne Hs.
      destruct (String.eqb_spec s ""); [contradiction|].
      apply get_by_pk_In in Hp as (Hin & Hi).
      assert (U : User user <> AnonymousUser) by discriminate.
      destruct (advance_stage_loaded p p w i s (User user) Hok Hin Hi (loaded_from_refl p) Hs U)
        as (q & w' & A & Es & Hq & Hq_in & _ & _ & Htr & _).
      unfold atomic. rewrite A. cbn [fst snd].
      split; [reflexivity|split; [|exact Htr]].
      exists q. split; [exact Hq_in|split; [|exact Es]].
      destruct Hq as (E & _). congruence.
Qed.

Lemma view_advance_stage_responses_witness :
  view_advance_stage 1 (Some "AUDIT_SCHEDULED") 7 w_lead = (Ok HTTP_400_BAD_REQUEST, w_lead).
Proof.
  destruct (view_advance_stage_responses 1 (Some "AUDIT_SCHEDULED") 7 w_lead w_lead_ok)
    as (_ & H).
  apply (H p_lead eq_refl). right. right. exists "AUDIT_SCHEDULED". split; reflexivity.
Defined.

(* ================================================================== *)
(** ** The receivers keep the table numbered                            *)
(* ================================================================== *)






(* ================================================================== *)
(** ** When update_from_related_object raises ValueError                *)
(* ================================================================== *)

Lemma advance_valid_never_ValueError
  (p : JobPipeline) (w : World) (s : string) (user : user_arg)
  (U : user <> AnonymousUser) (msg : string) :
  successor (current_stage p) s = true ->
  fst (advance_stage s user (p, w)) <> Raise (ValueError msg).
Proof.
  intros E H. rewrite (advance_stage_valid p w s user E U) in H.
  pose proof (save_never_ValueError (stamp s (clock w) (set_current_stage s p)) (tick w) msg)
    as NV.
  destruct (save _) as [[u|e] [p' w']]; cbn in *; [discriminate|contradiction].
Qed.

Ltac no_ValueError_after_advance w :=
  match goal with
  | U : ?user <> AnonymousUser, H : context [advance_stage ?s ?user (?p0, w)] |- _ =>
      let A := fresh "A" in
      let NV := fresh "NV" in
      pose proof (advance_valid_never_ValueError p0 w s user U) as NV;
      destruct (advance_stage s user (p0, w)) as [[[]|e] [p1 w1]] eqn:A;
      cbn [fst snd] in *;
      [exfalso; eapply save_never_ValueError; eassumption
      |exfalso; eapply NV; [|eassumption]]
  end.

(** X10. Called for [None] or for a [User], [update_from_related_object]
    raises [ValueError] in exactly one situation: a contract whose status
    is ACTIVE is passed for a pipeline that stands at LEAD or at CONTRACT.
    In that situation, whatever the user, the database is untouched and the
    object in memory has the contract linked and nothing else changed. *)
Theorem update_raises_only_for_active_contract
  (obj : related) (user : user_arg) (p : JobPipeline) (w : World) :
  (user <> AnonymousUser ->
   ((exists msg, fst (update_from_related_object obj user (p, w)) = Raise (ValueError msg))
    <-> (exists c, obj = AContract c /\ Contract.status c = "ACTIVE"
                   /\ (current_stage p = "LEAD" \/ current_stage p = "CONTRACT"))))
  /\ (forall c, obj = AContract c -> Contract.status c = "ACTIVE" ->
        current_stage p = "LEAD" \/ current_stage p = "CONTRACT" ->
        update_from_related_object obj user (p, w)
        = (Raise (ValueError ("Cannot advance from " ++ current_stage p ++ " to CONTRACT")),
           (set_contract (Some (Contract.id c)) p, w))).
Proof.
  assert (R : forall c, obj = AContract c -> Contract.status c = "ACTIVE" ->
                current_stage p = "LEAD" \/ current_stage p = "CONTRACT" ->
                update_from_related_object obj user (p, w)
                = (Raise (ValueError ("Cannot advance from " ++ current_stage p
                                        ++ " to CONTRACT")),
                   (set_contract (Some (Contract.id c)) p, w))).
  { intros c -> Hs Hst.
    unfold update_from_related_object, bind, assign, get_self, ret.
    cbv beta iota zeta. cbn [fst snd]. rewrite Hs.
    replace (current_stage (set_contract (Some (Contract.id c)) p)) with (current_stage p)
      by (destruct p; reflexivity).
    assert (E : successor (current_stage (set_contract (Some (Contract.id c)) p)) "CONTRACT"
                = false).
    { replace (current_stage (set_contract (Some (Contract.id c)) p)) with (current_stage p)
        by (destruct p; reflexivity).
      destruct Hst as [-> | ->]; reflexivity. }
    assert (C : (("ACTIVE" =? "ACTIVE")
                 && str_in (current_stage p) ["LEAD"; "OPPORTUNITY"; "CONTRACT"])%bool
                = true).
    { destruct Hst as [-> | ->]; reflexivity. }
    rewrite C, (advance_stage_invalid _ w "CONTRACT" user E).
    replace (current_stage (set_contract (Some (Contract.id c)) p)) with (current_stage p)
      by (destruct p; reflexivity).
    reflexivity. }
  split; [intros U; split|exact R].
  - intros (msg & H). revert H.
    unfold update_from_related_object, bind, assign, get_self, ret.
    cbv beta iota zeta. cbn [fst snd].
    destruct obj as [l|o|c|a]; cbv beta iota; cbn [fst snd].
    + destruct (String.eqb _ "LEAD"); cbn [fst snd]; intros H;
        exfalso; eapply save_never_ValueError; eassumption.
    + replace (current_stage (set_opportunity (Some (Opportunity.id o)) p))
        with (current_stage p) by (destruct p; reflexivity).
      destruct (String.eqb (Opportunity.status o) "CLOSED_WON"); cbn [andb str_in existsb].
      * destruct (String.eqb_spec (current_stage p) "LEAD") as [El|];
          [|destruct (String.eqb_spec (current_stage p) "OPPORTUNITY") as [Eo|]];
          cbn [orb]; intros H.
        -- no_ValueError_after_advance w.
           replace (current_stage (set_opportunity (Some (Opportunity.id o)) p))
             with (current_stage p) by (destruct p; reflexivity).
           rewrite El. reflexivity.
        -- no_ValueError_after_advance w.
           replace (current_stage (set_opportunity (Some (Opportunity.id o)) p))
             with (current_stage p) by (destruct p; reflexivity).
           rewrite Eo. reflexivity.
        -- cbn [fst snd] in H. exfalso; eapply save_never_ValueError; eassumption.
      * intros H. cbn [fst snd] in H. exfalso; eapply save_never_ValueError; eassumption.
    + replace (current_stage (set_contract (Some (Contract.id c)) p))
        with (current_stage p) by (destruct p; reflexivity).
      destruct (String.eqb_spec (Contract.status c) "ACTIVE") as [Ea|];
        cbn [andb str_in existsb].
      * destruct (String.eqb_spec (current_stage p) "LEAD") as [El|];
          [|destruct (String.eqb_spec (current_stage p) "OPPORTUNITY") as [Eo|];
            [|destruct (String.eqb_spec (current_stage p) "CONTRACT") as [Ec|]]];
          cbn [orb]; intros H.
        -- exists c. auto.
        -- no_ValueError_after_advance w.
           replace (current_stage (set_contract (Some (Contract.id c)) p))
             with (current_stage p) by (destruct p; reflexivity).
           rewrite Eo. reflexivity.
        -- exists c. auto.
        -- cbn [fst snd] in H. exfalso; eapply save_never_ValueError; eassumption.
      * intros H. cbn [fst snd] in H. exfalso; eapply save_never_ValueError; eassumption.
    + destruct (String.eqb (Audit.status a) "PLANNED"); cbn [andb].
      * destruct (String.eqb_spec (current_stage p) "CONTRACT") as [Ec|].
        -- intros H. no_ValueError_after_advance w. rewrite Ec. reflexivity.
        -- destruct (String.eqb (Audit.status a) "IN_PROGRESS"); cbn [andb].
           ++ destruct (String.eqb_spec (current_stage p) "AUDIT_SCHEDULED") as [Es|].
              ** intros H. no_ValueError_after_advance w. rewrite Es. reflexivity.
              ** destruct (String.eqb (Audit.status a) "COMPLETED"); cbn [andb].
                 --- destruct (String.eqb_spec (current_stage p) "AUDIT_IN_PROGRESS") as [Ei|].
                     +++ intros H. no_ValueError_after_advance w. rewrite Ei. reflexivity.
                     +++ intros H. cbn [fst snd] in H.
                         exfalso; eapply save_never_ValueError; eassumption.
                 --- intros H. cbn [fst snd] in H.
                     exfalso; eapply save_never_ValueError; eassumption.
           ++ destruct (String.eqb (Audit.status a) "COMPLETED"); cbn [andb].
              ** destruct (String.eqb_spec (current_stage p) "AUDIT_IN_PROGRESS") as [Ei|].
                 --- intros H. no_ValueError_after_advance w. rewrite Ei. reflexivity.
                 --- intros H. cbn [fst snd] in H.
                     exfalso; eapply save_never_ValueError; eassumption.
              ** intros H. cbn [fst snd] in H.
                 exfalso; eapply save_never_ValueError; eassumption.
      * destruct (String.eqb (Audit.status a) "IN_PROGRESS"); cbn [andb].
        -- destruct (String.eqb_spec (current_stage p) "AUDIT_SCHEDULED") as [Es|].
           ++ intros H. no_ValueError_after_advance w. rewrite Es. reflexivity.
           ++ destruct (String.eqb (Audit.status a) "COMPLETED"); cbn [andb].
              ** destruct (String.eqb_spec (current_stage p) "AUDIT_IN_PROGRESS") as [Ei|].
                 --- intros H. no_ValueError_after_advance w. rewrite Ei. reflexivity.
                 --- intros H. cbn [fst snd] in H.
                     exfalso; eapply save_never_ValueError; eassumption.
              ** intros H. cbn [fst snd] in H.
                 exfalso; eapply save_never_ValueError; eassumption.
        -- destruct (String.eqb (Audit.status a) "COMPLETED"); cbn [andb].
           ++ destruct (String.eqb_spec (current_stage p) "AUDIT_IN_PROGRESS") as [Ei|].
              ** intros H. no_ValueError_after_advance w. rewrite Ei. reflexivity.
              ** intros H. cbn [fst snd] in H.
                 exfalso; eapply save_never_ValueError; eassumption.
           ++ intros H. cbn [fst snd] in H.
              exfalso; eapply save_never_ValueError; eassumption.
  - intros (c & Eo & Hs & Hst). rewrite (R c Eo Hs Hst). eexists. reflexivity.
Qed.

Lemma update_raises_only_for_active_contract_witness :
  exists msg,
    fst (update_from_related_object
           (AContract (Contract.mk 1 (Some 1) None "Acme Org" None 90000 "USD" "ACTIVE" None))
           NoUser (p_lead, w_lead))
    = Raise (ValueError msg).
Proof.
  apply (proj1 (update_raises_only_for_active_contract _ NoUser p_lead w_lead));
    [discriminate|].
  eexists. split; [reflexivity|split; [reflexivity|left; reflexivity]].
Defined.

(* ================================================================== *)
(** ** Contract numbers over several creations                          *)
(* ================================================================== *)

Lemma create_appends_fresh (year : N) (year_start now : datetime)
  (rows : list BusinessDevelopment.ContractRow) :
  exists s, BusinessDevelopment.create (S (List.length rows)) year year_start now rows
            = Some (s, (rows ++ [BusinessDevelopment.mkRow s now])%list)
            /\ ~ In s (map BusinessDevelopment.contract_number rows).
Proof.
  destruct (ensure_unique_finds rows year (S (List.length rows))
              (BusinessDevelopment.count_since year_start rows + 1)%N
              (map BusinessDevelopment.contract_number rows))
    as (k & Hk & _ & Hfree & _).
  - rewrite length_map. lia.
  - intros j _ H. now apply number_exists_In.
  - exists (BusinessDevelopment.contract_number_of year k). split.
    + unfold BusinessDevelopment.create, BusinessDevelopment.generate_contract_number.
      rewrite Hk. reflexivity.
    + intros Hin. apply number_exists_In in Hin. rewrite Hin in Hfree. discriminate.
Qed.

(** X11. Contracts created one after another never share a number: from a
    table whose contract numbers are pairwise distinct, any number of
    creations succeeds, only appends rows, one per creation, and leaves the
    contract numbers pairwise distinct. *)
Theorem created_contracts_have_distinct_numbers
  (n : nat) (year : N) (year_start now : datetime)
  (rows : list BusinessDevelopment.ContractRow) :
  NoDup (map BusinessDevelopment.contract_number rows) ->
  exists added,
    create_many n year year_start now rows = Some (rows ++ added)%list
    /\ List.length added = n
    /\ NoDup (map BusinessDevelopment.contract_number (rows ++ added)).
Proof.
  revert rows. induction n as [|n IH]; intros rows ND.
  - exists []. rewrite app_nil_r. auto.
  - cbn [create_many].
    destruct (create_appends_fresh year year_start now rows) as (s & -> & Hs).
    destruct (IH (rows ++ [BusinessDevelopment.mkRow s now])%list) as (added & E & L & ND').
    + rewrite map_app. cbn [map]. apply NoDup_app; [exact ND|repeat constructor; intros []|].
      intros y Hy [<-|[]]. exact (Hs Hy).
    + exists (BusinessDevelopment.mkRow s now :: added).
      rewrite <- app_assoc in E, ND'. cbn [app] in E, ND'.
      split; [exact E|split; [cbn; lia|exact ND']].
Qed.

Lemma created_contracts_have_distinct_numbers_witness :
  exists added,
    create_many 3 2024 100 200 [BusinessDevelopment.mkRow "CON-2024-0002" 150%Z]
    = Some ([BusinessDevelopment.mkRow "CON-2024-0002" 150%Z] ++ added)%list
    /\ List.length added = 3.
Proof.
  destruct (created_contracts_have_distinct_numbers 3 2024 100 200
              [BusinessDevelopment.mkRow "CON-2024-0002" 150%Z]) as (added & E & L & _).
  - constructor; [intros []|constructor].
  - exists added. auto.
Defined.

(* ================================================================== *)
(** ** ContractTemplateService._generate_contract_number                *)
(* ================================================================== *)

Lemma prefix_append (a b : string) : String.prefix a (a ++ b) = true.
Proof.
  induction a as [|c a IH]; [destruct b; reflexivity|]. cbn.
  destruct (ascii_dec c c); [exact IH|contradiction].
Qed.

Lemma cnt_number_has_prefix (year k : N) :
  String.prefix ("CNT-" ++ str_of_N year) (cnt_number_of year k) = true.
Proof.
  unfold cnt_number_of.
  assert (A : forall a b c : string, a ++ (b ++ c) = (a ++ b) ++ c).
  { induction a as [|x a IHa]; intros b c; cbn; [reflexivity|]. now rewrite IHa. }
  rewrite A. apply prefix_append.
Qed.

Lemma cnt_number_of_inj (year a b : N) :
  cnt_number_of year a = cnt_number_of year b -> a = b.
Proof.
  unfold cnt_number_of. intros E.
  apply append_cancel_l, append_cancel_l, append_cancel_l in E.
  now apply format_0wd_inj in E.
Qed.

(** X12. [_generate_contract_number] has no retry loop: it numbers by the
    count of stored numbers that start with CNT-<year>. The number it
    returns is that of no stored contract whenever every stored number
    with that prefix is a CNT number of the year whose counter does not
    exceed their count, as it is when the numbers were handed out one by
    one and none was removed. *)
Theorem cnt_number_fresh_when_counters_are_dense
  (year : N) (rows : list BusinessDevelopment.ContractRow) :
  (forall r, In r rows ->
     String.prefix ("CNT-" ++ str_of_N year) (BusinessDevelopment.contract_number r) = true ->
     exists j, (j < yearly_count year rows)%N
               /\ BusinessDevelopment.contract_number r = cnt_number_of year j) ->
  forall r, In r rows ->
    BusinessDevelopment.contract_number r <> _generate_contract_number year rows.
Proof.
  intros H r Hr E. unfold _generate_contract_number in E.
  destruct (H r Hr) as (j & Hj & Ej).
  - rewrite E. apply cnt_number_has_prefix.
  - rewrite Ej in E. apply cnt_number_of_inj in E. lia.
Qed.

Lemma cnt_number_fresh_when_counters_are_dense_witness :
  BusinessDevelopment.contract_number (BusinessDevelopment.mkRow "CNT-2024-0001" 150%Z)
  <> _generate_contract_number 2024 [BusinessDevelopment.mkRow "CNT-2024-0001" 150%Z;
                                     BusinessDevelopment.mkRow "CON-2024-0007" 160%Z].
Proof.
  apply (cnt_number_fresh_when_counters_are_dense 2024
           [BusinessDevelopment.mkRow "CNT-2024-0001" 150%Z;
            BusinessDevelopment.mkRow "CON-2024-0007" 160%Z]).
  - intros r [<-|[<-|[]]] P.
    + exists 1%N. split; [reflexivity|reflexivity].
    + discriminate P.
  - left. reflexivity.
Defined.

(* ================================================================== *)
(** ** Certification: flags, actions and certificate numbers            *)
(* ================================================================== *)

(** [Certification.save] on a certification with a date of expiry. *)
Lemma cert_save_date (today d : date) (c : Certifications.Certification)
  (rows : list Certifications.Certification) :
  Certifications.expiry_date c = Certifications.PyDate d ->
  Certifications.save today (c, rows)
  = Certifications.Model_save
      (Certifications.set_status
         (if str_in (Certifications.status c) ["suspended"; "revoked"]
          then Certifications.status c
          else status_for today d (Certifications.status c)) c, rows).
Proof.
  intros E.
  unfold Certifications.save, bind, Certifications.get_self, Certifications.assign, ret,
    status_for; cbn [fst snd].
  rewrite E; cbn [Certifications.truthy].
  destruct (str_in _ _); cbn [negb]; [destruct c; reflexivity|].
  destruct (d - today <? 0)%Z; [reflexivity|].
  destruct (d - today <=? 90)%Z; [reflexivity|].
  destruct (String.eqb_spec (Certifications.status c) "pending") as [Ep|]; [|reflexivity].
  cbn [fst snd]. rewrite <- Ep. destruct c; reflexivity.
Qed.

Lemma cert_save_date_result (today d : date) (c : Certifications.Certification)
  (rows : list Certifications.Certification) :
  Certifications.expiry_date c = Certifications.PyDate d ->
  let st := if str_in (Certifications.status c) ["suspended"; "revoked"]
            then Certifications.status c
            else status_for today d (Certifications.status c) in
  fst (snd (Certifications.save today (c, rows))) = Certifications.set_status st c
  /\ (Certifications.number_taken c rows = false ->
      fst (Certifications.save today (c, rows)) = Ok tt
      /\ In (Certifications.set_status st c) (snd (snd (Certifications.save today (c, rows)))))
  /\ (Certifications.number_taken c rows = true ->
      fst (Certifications.save today (c, rows))
      = Raise (IntegrityError "certifications.certificate_number")
      /\ snd (snd (Certifications.save today (c, rows))) = rows).
Proof.
  intros E st. rewrite (cert_save_date today d c rows E). fold st.
  split; [apply cert_Model_save_frame|split]; intros T.
  - destruct (cert_Model_save (Certifications.set_status st c) rows T) as (A & B & C & _).
    auto.
  - rewrite (cert_Model_save_taken (Certifications.set_status st c) rows T). auto.
Qed.

(** The object [get_object] loaded from a table under its constraints holds
    a certificate number no other row has. *)
Lemma loaded_number_free (c : Certifications.Certification)
  (rows : list Certifications.Certification) :
  certificates_ok rows -> In c rows -> Certifications.number_taken c rows = false.
Proof.
  intros (_ & ND) Hin. unfold Certifications.number_taken.
  apply existsb_false. intros r Hr.
  destruct (String.eqb_spec (Certifications.certificate_number r)
                            (Certifications.certificate_number c)) as [E|]; [|reflexivity].
  assert (r = c) by (apply (NoDup_map_eq Certifications.certificate_number rows); auto).
  subst r. now rewrite Nat.eqb_refl.
Qed.

(** X13. After [save], the flags of a certification that is neither
    suspended nor revoked agree with its status: it is expired exactly when
    [is_expired] holds and expiring-soon exactly when [is_expiring_soon]
    holds; the two flags never hold together. *)
Theorem flags_agree_with_saved_status (today d : date) (c : Certifications.Certification)
  (rows : list Certifications.Certification) :
  Certifications.expiry_date c = Certifications.PyDate d ->
  Certifications.status c <> "suspended" -> Certifications.status c <> "revoked" ->
  (Certifications.status (fst (snd (Certifications.save today (c, rows)))) = "expired"
   <-> CertificationProperties.is_expired
         today (fst (snd (Certifications.save today (c, rows)))) = Ok true)
  /\ (Certifications.status (fst (snd (Certifications.save today (c, rows)))) = "expiring-soon"
      <-> CertificationProperties.is_expiring_soon
            today (fst (snd (Certifications.save today (c, rows)))) = Ok true)
  /\ ~ (CertificationProperties.is_expired
          today (fst (snd (Certifications.save today (c, rows)))) = Ok true
        /\ CertificationProperties.is_expiring_soon
             today (fst (snd (Certifications.save today (c, rows)))) = Ok true).
Proof.
  intros E Hs Hr.
  destruct (cert_save_date_result today d c rows E) as (-> & _).
  assert (Hin : str_in (Certifications.status c) ["suspended"; "revoked"] = false).
  { cbn. destruct (String.eqb_spec (Certifications.status c) "suspended"); [contradiction|].
    destruct (String.eqb_spec (Certifications.status c) "revoked"); [contradiction|].
    reflexivity. }
  rewrite Hin.
  unfold CertificationProperties.is_expired, CertificationProperties.is_expiring_soon,
    CertificationProperties.days_until_expiry, status_for.
  cbn [Certifications.expiry_date Certifications.status Certifications.set_status].
  rewrite E. cbn [Certifications.truthy].
  destruct (Z.ltb_spec (d - today) 0); destruct (Z.ltb_spec d today); try lia;
    destruct (Z.leb_spec (d - today) 90); destruct (Z.leb_spec 0 (d - today)); try lia;
    try destruct (String.eqb_spec (Certifications.status c) "pending");
    cbn [andb]; repeat split; intros; try discriminate; try reflexivity;
    try (intros [G1 G2]; first [discriminate G1|discriminate G2]).
Qed.

Lemma flags_agree_with_saved_status_witness :
  CertificationProperties.is_expiring_soon
    20000 (fst (snd (Certifications.save 20000 (cert_active, [])))) = Ok true.
Proof.
  apply (proj1 (proj2 (flags_agree_with_saved_status 20000 20030 cert_active []
                         eq_refl ltac:(discriminate) ltac:(discriminate)))).
  reflexivity.
Defined.

Lemma cert_save_string (today : date) (c : Certifications.Certification)
  (rows : list Certifications.Certification) (s : string) :
  Certifications.expiry_date c = Certifications.PyStr s -> s <> "" ->
  Certifications.save today (c, rows)
  = (Raise (TypeError "unsupported operand type(s) for -"), (c, rows)).
Proof.
  intros E Hs.
  unfold Certifications.save, bind, Certifications.get_self, raise; cbn [fst snd].
  rewrite E; cbn [Certifications.truthy].
  destruct (String.eqb_spec s ""); [contradiction|]. reflexivity.
Qed.

(** X14. The renew action answers 400 and changes nothing for an empty
    value; for a non-empty string it raises [TypeError] out of [save] with
    nothing written to the table, the object in memory already carrying the
    string and the status active; for a date the object gets the status the
    date gives, whatever the status was (expired when the new date is
    already past, expiring-soon within 90 days, active beyond), and the
    action answers 200 and stores it, as it always does for the object
    [get_object] loaded; were its certificate number held by another row,
    [save] would raise [IntegrityError] and nothing would be written. *)
Theorem renew_outcomes (v : Certifications.pyval) (today : date)
  (c : Certifications.Certification) (rows : list Certifications.Certification) :
  (Certifications.truthy v = false ->
   Certifications.renew v today (c, rows) = (Ok Certifications.HTTP_400, (c, rows)))
  /\ (forall s, v = Certifications.PyStr s -> s <> "" ->
        exists msg,
          Certifications.renew v today (c, rows)
          = (Raise (TypeError msg),
             (Certifications.set_status "active" (Certifications.set_expiry_date v c), rows)))
  /\ (forall d, v = Certifications.PyDate d ->
        Certifications.expiry_date (fst (snd (Certifications.renew v today (c, rows))))
        = Certifications.PyDate d
        /\ Certifications.status (fst (snd (Certifications.renew v today (c, rows))))
           = (if (d <? today)%Z then "expired"
              else if (d <=? today + 90)%Z then "expiring-soon" else "active")
        /\ (Certifications.number_taken c rows = false ->
            fst (Certifications.renew v today (c, rows)) = Ok Certifications.HTTP_200
            /\ In (fst (snd (Certifications.renew v today (c, rows))))
                  (snd (snd (Certifications.renew v today (c, rows)))))
        /\ (Certifications.number_taken c rows = true ->
            fst (Certifications.renew v today (c, rows))
            = Raise (IntegrityError "certifications.certificate_number")
            /\ snd (snd (Certifications.renew v today (c, rows))) = rows))
  /\ (certificates_ok rows -> In c rows -> Certifications.number_taken c rows = false).
Proof.
  split; [|split; [|split; [|apply loaded_number_free]]].
  - intros T. unfold Certifications.renew. rewrite T. reflexivity.
  - intros s -> Hs. unfold Certifications.renew. cbn [Certifications.truthy].
    destruct (String.eqb_spec s ""); [contradiction|]. cbn [negb].
    unfold bind at 1. unfold Certifications.assign at 1. cbn [fst snd].
    unfold bind at 1. unfold Certifications.assign at 1. cbn [fst snd].
    unfold bind.
    rewrite (cert_save_string today _ rows s) by (auto; destruct c; reflexivity).
    eexists. reflexivity.
  - intros d ->.
    set (c1 := Certifications.set_status "active"
                 (Certifications.set_expiry_date (Certifications.PyDate d) c)).
    assert (R : Certifications.renew (Certifications.PyDate d) today (c, rows)
                = bind (Certifications.save today)
                       (fun _ => ret Certifications.HTTP_200) (c1, rows)) by reflexivity.
    rewrite R. clear R.
    destruct (cert_save_date_result today d c1 rows eq_refl) as (B & O & X).
    cbv zeta in B, O, X.
    change (Certifications.status c1) with "active" in B, O, X.
    change (str_in "active" ["suspended"; "revoked"]) with false in B, O, X.
    cbv iota in B, O, X.
    change (Certifications.number_taken c1 rows)
      with (Certifications.number_taken c rows) in O, X.
    assert (F : status_for today d "active"
                = (if (d <? today)%Z then "expired"
                   else if (d <=? today + 90)%Z then "expiring-soon" else "active")).
    { unfold status_for. cbn [String.eqb].
      destruct (Z.ltb_spec (d - today) 0); destruct (Z.ltb_spec d today); try lia;
        [reflexivity|].
      destruct (Z.leb_spec (d - today) 90); destruct (Z.leb_spec d (today + 90)); try lia;
        reflexivity. }
    unfold bind, ret.
    destruct (Certifications.save today (c1, rows)) as [[u|e] [c2 rows2]];
      cbn [fst snd] in *; subst c2;
      (split; [reflexivity|split; [cbn [Certifications.status Certifications.set_status];
                                    exact F|split]]); intros T.
    + split; [reflexivity|]. apply (O T).
    + destruct (X T) as (X1 & _). discriminate X1.
    + destruct (O T) as (O1 & _). discriminate O1.
    + destruct (X T) as (X1 & X2). injection X1 as ->. split; [reflexivity|exact X2].
Qed.

Lemma renew_outcomes_witness :
  exists msg,
    Certifications.renew (Certifications.PyStr "2027-01-01") 20000 (cert_active, [cert_active])
    = (Raise (TypeError msg),
       (Certifications.set_status "active"
          (Certifications.set_expiry_date (Certifications.PyStr "2027-01-01") cert_active),
        [cert_active])).
Proof.
  apply (proj1 (proj2 (renew_outcomes (Certifications.PyStr "2027-01-01") 20000
                         cert_active [cert_active])) "2027-01-01" eq_refl).
  discriminate.
Defined.

(** X15. For a certification with a date of expiry: suspend and revoke
    answer 400 and change nothing when the status is already the one asked
    for, and otherwise give the object that status, which no date
    overrides; reactivate answers 400 and changes nothing unless the
    certification is suspended or revoked, and otherwise gives it the
    status expired, expiring-soon or active as the date of expiry gives.
    The action then answers 200 and stores the object, as it always does
    for the object [get_object] loaded; were its certificate number held by
    another row, [save] would raise [IntegrityError] and nothing would be
    written. *)
Theorem suspend_revoke_reactivate_outcomes (today d : date)
  (c : Certifications.Certification) (rows : list Certifications.Certification) :
  Certifications.expiry_date c = Certifications.PyDate d ->
  (Certifications.status c = "suspended" ->
   Certifications.suspend today (c, rows) = (Ok Certifications.HTTP_400, (c, rows)))
  /\ (Certifications.status c <> "suspended" ->
      fst (snd (Certifications.suspend today (c, rows)))
      = Certifications.set_status "suspended" c
      /\ (Certifications.number_taken c rows = false ->
          fst (Certifications.suspend today (c, rows)) = Ok Certifications.HTTP_200
          /\ In (Certifications.set_status "suspended" c)
                (snd (snd (Certifications.suspend today (c, rows)))))
      /\ (Certifications.number_taken c rows = true ->
          fst (Certifications.suspend today (c, rows))
          = Raise (IntegrityError "certifications.certificate_number")
          /\ snd (snd (Certifications.suspend today (c, rows))) = rows))
  /\ (Certifications.status c = "revoked" ->
      Certifications.revoke today (c, rows) = (Ok Certifications.HTTP_400, (c, rows)))
  /\ (Certifications.status c <> "revoked" ->
      fst (snd (Certifications.revoke today (c, rows)))
      = Certifications.set_status "revoked" c
      /\ (Certifications.number_taken c rows = false ->
          fst (Certifications.revoke today (c, rows)) = Ok Certifications.HTTP_200
          /\ In (Certifications.set_status "revoked" c)
                (snd (snd (Certifications.revoke today (c, rows)))))
      /\ (Certifications.number_taken c rows = true ->
          fst (Certifications.revoke today (c, rows))
          = Raise (IntegrityError "certifications.certificate_number")
          /\ snd (snd (Certifications.revoke today (c, rows))) = rows))
  /\ (Certifications.status c <> "suspended" -> Certifications.status c <> "revoked" ->
      Certifications.reactivate today (c, rows) = (Ok Certifications.HTTP_400, (c, rows)))
  /\ (Certifications.status c = "suspended" \/ Certifications.status c = "revoked" ->
      fst (snd (Certifications.reactivate today (c, rows)))
      = Certifications.set_status
          (if (d <? today)%Z then "expired"
           else if (d <=? today + 90)%Z then "expiring-soon" else "active") c
      /\ (Certifications.number_taken c rows = false ->
          fst (Certifications.reactivate today (c, rows)) = Ok Certifications.HTTP_200
          /\ In (fst (snd (Certifications.reactivate today (c, rows))))
                (snd (snd (Certifications.reactivate today (c, rows)))))
      /\ (Certifications.number_taken c rows = true ->
          fst (Certifications.reactivate today (c, rows))
          = Raise (IntegrityError "certifications.certificate_number")
          /\ snd (snd (Certifications.reactivate today (c, rows))) = rows))
  /\ (certificates_ok rows -> In c rows -> Certifications.number_taken c rows = false).
Proof.
  intros E.
  assert (S : forall st,
             let c1 := Certifications.set_status st c in
             let st' := if str_in st ["suspended"; "revoked"] then st
                        else status_for today d st in
             let out := bind (Certifications.save today)
                             (fun _ => ret Certifications.HTTP_200) (c1, rows) in
             fst (snd out) = Certifications.set_status st' c
             /\ (Certifications.number_taken c rows = false ->
                 fst out = Ok Certifications.HTTP_200
                 /\ In (Certifications.set_status st' c) (snd (snd out)))
             /\ (Certifications.number_taken c rows = true ->
                 fst out = Raise (IntegrityError "certifications.certificate_number")
                 /\ snd (snd out) = rows)).
  { intros st c1 st' out.
    assert (E1 : Certifications.expiry_date c1 = Certifications.PyDate d)
      by (unfold c1; destruct c; exact E).
    destruct (cert_save_date_result today d c1 rows E1) as (B & O & X).
    cbv zeta in B, O, X.
    replace (Certifications.status c1) with st in B, O, X by (destruct c; reflexivity).
    fold st' in B, O, X.
    replace (Certifications.set_status st' c1) with (Certifications.set_status st' c)
      in B, O, X by (destruct c; reflexivity).
    change (Certifications.number_taken c1 rows)
      with (Certifications.number_taken c rows) in O, X.
    unfold out, bind, ret.
    destruct (Certifications.save today (c1, rows)) as [[u|e] [c2 rows2]];
      cbn [fst snd] in *; (split; [exact B|split]); intros T.
    - split; [reflexivity|]. apply (O T).
    - destruct (X T) as (X1 & _). discriminate X1.
    - destruct (O T) as (O1 & _). discriminate O1.
    - destruct (X T) as (X1 & X2). injection X1 as ->. split; [reflexivity|exact X2]. }
  split; [|split; [|split; [|split; [|split; [|split; [|apply loaded_number_free]]]]]].
  - intros Hs. unfold Certifications.suspend, bind, Certifications.get_self; cbn [fst snd].
    rewrite Hs. reflexivity.
  - intros Hs.
    assert (R : Certifications.suspend today (c, rows)
                = bind (Certifications.save today) (fun _ => ret Certifications.HTTP_200)
                       (Certifications.set_status "suspended" c, rows)).
    { unfold Certifications.suspend. unfold bind at 1.
      unfold Certifications.get_self at 1. cbn [fst snd].
      destruct (String.eqb_spec (Certifications.status c) "suspended"); [contradiction|].
      reflexivity. }
    rewrite R. exact (S "suspended").
  - intros Hs. unfold Certifications.revoke, bind, Certifications.get_self; cbn [fst snd].
    rewrite Hs. reflexivity.
  - intros Hs.
    assert (R : Certifications.revoke today (c, rows)
                = bind (Certifications.save today) (fun _ => ret Certifications.HTTP_200)
                       (Certifications.set_status "revoked" c, rows)).
    { unfold Certifications.revoke. unfold bind at 1.
      unfold Certifications.get_self at 1. cbn [fst snd].
      destruct (String.eqb_spec (Certifications.status c) "revoked"); [contradiction|].
      reflexivity. }
    rewrite R. exact (S "revoked").
  - intros Hs Hr. unfold Certifications.reactivate, bind, Certifications.get_self;
      cbn [fst snd str_in existsb].
    destruct (String.eqb_spec (Certifications.status c) "suspended"); [contradiction|].
    destruct (String.eqb_spec (Certifications.status c) "revoked"); [contradiction|].
    reflexivity.
  - intros Hs.
    assert (T : str_in (Certifications.status c) ["suspended"; "revoked"] = true)
      by (destruct Hs as [-> | ->]; reflexivity).
    assert (R : Certifications.reactivate today (c, rows)
                = bind (Certifications.save today) (fun _ => ret Certifications.HTTP_200)
                       (Certifications.set_status "active" c, rows)).
    { unfold Certifications.reactivate. unfold bind at 1.
      unfold Certifications.get_self at 1. cbn [fst snd]. rewrite T. reflexivity. }
    rewrite R.
    destruct (S "active") as (B & O & X). cbv zeta in B, O, X.
    change (str_in "active" ["suspended"; "revoked"]) with false in B, O, X.
    cbv iota in B, O, X.
    assert (F : status_for today d "active"
                = (if (d <? today)%Z then "expired"
                   else if (d <=? today + 90)%Z then "expiring-soon" else "active")).
    { unfold status_for. cbn [String.eqb].
      destruct (Z.ltb_spec (d - today) 0); destruct (Z.ltb_spec d today); try lia;
        [reflexivity|].
      destruct (Z.leb_spec (d - today) 90); destruct (Z.leb_spec d (today + 90)); try lia;
        reflexivity. }
    rewrite F in B, O. split; [exact B|split; [|exact X]].
    intros Tf. destruct (O Tf) as (O1 & O2). split; [exact O1|]. rewrite B. exact O2.
Qed.

Lemma suspend_revoke_reactivate_outcomes_witness :
  fst (Certifications.reactivate 20100 (cert_expiring, [cert_expiring]))
  = Ok Certifications.HTTP_200
  /\ Certifications.status
       (fst (snd (Certifications.reactivate 20100 (cert_expiring, [cert_expiring]))))
     = "expired".
Proof.
  destruct (suspend_revoke_reactivate_outcomes 20100 20030 cert_expiring [cert_expiring]
              eq_refl) as (_ & _ & _ & _ & _ & H & F).
  destruct (H (or_introl eq_refl)) as (E & O & _).
  assert (Hok : certificates_ok [cert_expiring]).
  { split; (constructor; [intros []|constructor]). }
  split; [apply O, F; [exact Hok|left; reflexivity]|].
  rewrite E. reflexivity.
Defined.

Lemma NoDup_numbers_after_replace (x : Certifications.Certification)
  (rows : list Certifications.Certification) :
  NoDup (map Certifications.id rows) ->
  NoDup (map Certifications.certificate_number rows) ->
  (forall r, In r rows ->
     Certifications.certificate_number r = Certifications.certificate_number x ->
     Certifications.id r = Certifications.id x) ->
  NoDup (map Certifications.certificate_number
             (map (fun r => if Nat.eqb (Certifications.id r) (Certifications.id x)
                            then x else r) rows)).
Proof.
  induction rows as [|r t IH]; intros Hid Hnum Hx; [constructor|].
  cbn [map] in *. inversion Hid as [|? ? Hi Hid']; subst.
  inversion Hnum as [|? ? Hn Hnum']; subst.
  destruct (Nat.eqb_spec (Certifications.id r) (Certifications.id x)) as [E|E].
  - assert (T : map (fun r0 => if Nat.eqb (Certifications.id r0) (Certifications.id x)
                               then x else r0) t = t).
    { rewrite <- (map_id t) at 2. apply map_ext_in. intros a Ha.
      destruct (Nat.eqb_spec (Certifications.id a) (Certifications.id x)) as [Ea|];
        [|reflexivity].
      exfalso. apply Hi. rewrite E, <- Ea. now apply in_map. }
    rewrite T. constructor; [|exact Hnum'].
    intros Hin. apply in_map_iff in Hin as (a & Ea & Ha).
    apply Hi. rewrite E, <- (Hx a (or_intror Ha) Ea). now apply in_map.
  - constructor.
    + intros Hin. apply in_map_iff in Hin as (a & Ea & Ha).
      apply in_map_iff in Ha as (b & Eb & Hb).
      destruct (Nat.eqb (Certifications.id b) (Certifications.id x)).
      * subst a. apply E. apply Hx; [now left|]. now symmetry.
      * subst a. apply Hn. rewrite <- Ea. now apply in_map.
    + apply IH; auto. intros a Ha Ea. apply Hx; [now right|exact Ea].
Qed.

Lemma is_valid_number_free (data : Certifications.payload) (exclude : option nat)
  (rows : list Certifications.Certification) (r : Certifications.Certification) :
  Certifications.is_valid data exclude rows = true -> In r rows ->
  Certifications.certificate_number r = Certifications.data_certificate_number data ->
  exclude = Some (Certifications.id r).
Proof.
  unfold Certifications.is_valid. intros V Hr E.
  apply andb_prop in V as (V & _). apply andb_prop in V as (_ & V).
  apply negb_true_iff in V.
  destruct exclude as [i|].
  - destruct (Nat.eqb_spec (Certifications.id r) i) as [->|Hne]; [reflexivity|].
    exfalso. rewrite <- not_true_iff_false in V. apply V.
    apply existsb_exists. exists r. split; [exact Hr|].
    rewrite E, String.eqb_refl. cbn.
    destruct (Nat.eqb_spec (Certifications.id r) i); [contradiction|reflexivity].
  - exfalso. rewrite <- not_true_iff_false in V. apply V.
    apply existsb_exists. exists r. split; [exact Hr|].
    rewrite E, String.eqb_refl. reflexivity.
Qed.

(** X16. Certificate numbers stay unique. The create action answers 400
    and writes nothing when the number is taken, when the expiry date is
    not after the issue date, or when the status is not a choice; when it
    creates, under a fresh key, and when the update action saves a stored
    certification, keys and certificate numbers remain pairwise distinct. *)
Theorem certificate_numbers_stay_unique (today : date) (data : Certifications.payload)
  (rows : list Certifications.Certification) :
  certificates_ok rows ->
  (In (Certifications.data_certificate_number data)
      (map Certifications.certificate_number rows)
   \/ (Certifications.data_expiry_date data <= Certifications.data_issue_date data)%Z
   \/ (exists s, Certifications.data_status data = Some s
                 /\ ~ In s Certifications.STATUS_CHOICES) ->
   forall new_id,
     Certifications.create data new_id today rows = (Ok Certifications.HTTP_400, rows))
  /\ (forall new_id, ~ In new_id (map Certifications.id rows) ->
        certificates_ok (snd (Certifications.create data new_id today rows)))
  /\ (forall c, In (Certifications.id c) (map Certifications.id rows) ->
        certificates_ok (snd (snd (Certifications.update data today (c, rows))))).
Proof.
  intros (Hid & Hnum). split; [|split].
  - intros H new_id. unfold Certifications.create.
    assert (V : Certifications.is_valid data None rows = false).
    { unfold Certifications.is_valid. destruct H as [H|[H|(s & Es & Hs)]].
      - apply in_map_iff in H as (r & Er & Hr).
        assert (X : existsb (fun r0 => String.eqb (Certifications.certificate_number r0)
                                         (Certifications.data_certificate_number data)
                                       && true) rows = true).
        { apply existsb_exists. exists r. split; [exact Hr|].
          rewrite Er, String.eqb_refl. reflexivity. }
        rewrite X. cbn. now rewrite andb_false_r.
      - destruct (Z.leb_spec (Certifications.data_expiry_date data)
                             (Certifications.data_issue_date data)); [|lia].
        cbn. now rewrite andb_false_r.
      - rewrite Es.
        assert (X : str_in s Certifications.STATUS_CHOICES = false).
        { apply existsb_false. intros x Hx.
          destruct (String.eqb_spec s x); [subst; contradiction|reflexivity]. }
        rewrite X. reflexivity. }
    rewrite V. reflexivity.
  - intros new_id Hfresh. unfold Certifications.create.
    destruct (Certifications.is_valid data None rows) eqn:V; [|now split].
    match goal with
    | |- context [Certifications.save today (?o, rows)] => set (obj := o)
    end.
    rewrite (cert_save_date today (Certifications.data_expiry_date data) obj rows eq_refl).
    match goal with
    | |- context [Certifications.Model_save (?o, rows)] => set (obj' := o)
    end.
    unfold Certifications.Model_save; cbn [fst snd].
    destruct (Certifications.number_taken obj' rows);
      [cbv beta iota; cbn [fst snd]; split; assumption|].
    assert (X : existsb (fun r => Nat.eqb (Certifications.id r) (Certifications.id obj'))
                        rows = false).
    { apply existsb_false. intros r Hr.
      destruct (Nat.eqb_spec (Certifications.id r) (Certifications.id obj')) as [E|];
        [|reflexivity].
      exfalso. apply Hfresh. change new_id with (Certifications.id obj').
      rewrite <- E. now apply in_map. }
    rewrite X. cbn [snd]. split.
    + rewrite map_app. cbn [map]. apply NoDup_app; [exact Hid|repeat constructor; intros []|].
      intros y Hy [<-|[]]. exact (Hfresh Hy).
    + rewrite map_app. cbn [map]. apply NoDup_app; [exact Hnum|repeat constructor; intros []|].
      intros y Hy [<-|[]]. apply in_map_iff in Hy as (r & Er & Hr).
      pose proof (is_valid_number_free data None rows r V Hr Er) as F. discriminate F.
  - intros c Hc.
    unfold Certifications.update. unfold bind at 1.
    unfold Certifications.get_self at 1. cbn [fst snd].
    unfold bind at 1. cbn [fst snd].
    destruct (Certifications.is_valid data (Some (Certifications.id c)) rows) eqn:V;
      [|now split].
    unfold bind at 1. unfold Certifications.assign at 1. cbn [fst snd].
    rewrite bind_ret_snd.
    match goal with
    | |- context [Certifications.save today (?o, rows)] => set (obj := o)
    end.
    rewrite (cert_save_date today (Certifications.data_expiry_date data) obj rows eq_refl).
    match goal with
    | |- context [Certifications.Model_save (?o, rows)] => set (obj' := o)
    end.
    unfold Certifications.Model_save; cbn [fst snd].
    destruct (Certifications.number_taken obj' rows);
      [cbv beta iota; cbn [fst snd]; split; assumption|].
    assert (X : existsb (fun r => Nat.eqb (Certifications.id r) (Certifications.id obj'))
                        rows = true).
    { apply in_map_iff in Hc as (r & Er & Hr). apply existsb_exists. exists r.
      split; [exact Hr|]. apply Nat.eqb_eq. exact Er. }
    rewrite X. cbn [snd]. split.
    + rewrite map_map. erewrite map_ext_in; [exact Hid|].
      intros r Hr. change (Certifications.id obj') with (Certifications.id c).
      destruct (Nat.eqb_spec (Certifications.id r) (Certifications.id c)) as [e|];
        [symmetry; exact e|reflexivity].
    + apply NoDup_numbers_after_replace; auto.
      intros r Hr Er.
      pose proof (is_valid_number_free data _ rows r V Hr Er) as F.
      injection F as F. symmetry. exact F.
Qed.

Lemma certificate_numbers_stay_unique_witness :
  certificates_ok (snd (Certifications.create cert_payload 7 20000 [cert_active])).
Proof.
  assert (Hok : certificates_ok [cert_active]).
  { split; (constructor; [intros []|constructor]). }
  apply (proj1 (proj2 (certificate_numbers_stay_unique 20000 cert_payload [cert_active] Hok))).
  intros H. cbn in H. destruct H as [H|[]]. discriminate H.
Defined.

(* ================================================================== *)
(** ** What the receivers do to milestones, and a repeated signal       *)
(* ================================================================== *)

Lemma appends_bind {A B} (m : M World A) (k : A -> M World B) :
  appends_critical m -> (forall a, appends_critical (k a)) ->
  appends_critical (bind m k).
Proof.
  intros Hm Hk w. unfold bind. destruct (Hm w) as (a1 & E1 & F1).
  destruct (m w) as [[a|e] w']; cbn [snd] in *.
  - destruct (Hk a w') as (a2 & E2 & F2). exists (a1 ++ a2)%list.
    rewrite E2, E1, app_assoc. split; [reflexivity|]. apply Forall_app. auto.
  - exists a1. auto.
Qed.

Lemma appends_nothing {A} (m : M World A) :
  (forall w, pipeline_milestones (snd (m w)) = pipeline_milestones w) ->
  appends_critical m.
Proof. intros H w. exists []. rewrite app_nil_r. split; [apply H|constructor]. Qed.

Lemma appends_milestone (m : PipelineMilestone) :
  is_critical m = true -> appends_critical (milestones_create m).
Proof. intros H w. exists [m]. split; [reflexivity|]. now constructor. Qed.

Lemma call_save_milestones (p : JobPipeline) (w : World) :
  pipeline_milestones (snd (call p save w)) = pipeline_milestones w.
Proof.
  unfold call. rewrite save_unfold.
  destruct (Model_save_frame (numbered p w) w) as (_ & _ & _ & _ & _ & _ & F & _).
  destruct (Model_save _) as [[u|e] [p' w']]; exact F.
Qed.

Lemma appends_audit_milestones (p : JobPipeline) (a : Audit.t) :
  appends_critical (create_audit_milestones p a).
Proof.
  unfold create_audit_milestones.
  match goal with
  | |- appends_critical (fold_right _ _ ?l) =>
      assert (C : Forall (fun x => is_critical x = true) l);
      [|generalize dependent l]
  end.
  - apply Forall_app. split.
    + destruct (Audit.planned_start_date a); repeat constructor.
    + destruct (Audit.planned_end_date a); repeat constructor.
  - induction l as [|m l IH]; intros C; cbn [fold_right].
    + now apply appends_nothing.
    + inversion C; subst. apply appends_bind; [now apply appends_milestone|].
      intros _. now apply IH.
Qed.

Lemma appends_ret {A} (a : A) : appends_critical (ret a).
Proof. apply appends_nothing. intros w. reflexivity. Qed.

Lemma appends_get : appends_critical (@get World).
Proof. apply appends_nothing. intros w. reflexivity. Qed.

Lemma appends_now : appends_critical timezone_now.
Proof. apply appends_nothing. intros w. reflexivity. Qed.

Lemma appends_call_save (p : JobPipeline) : appends_critical (call p save).
Proof. apply appends_nothing. intros w. apply call_save_milestones. Qed.

Lemma appends_objects_create (p : JobPipeline) : appends_critical (objects_create p).
Proof. apply appends_nothing. intros w. apply (call_save_milestones p w). Qed.

Lemma appends_critical_milestone pipeline kind title due assignee :
  appends_critical (milestones_create (mkMilestone pipeline kind title due true assignee)).
Proof. apply appends_milestone. reflexivity. Qed.

Lemma appends_audit_pipeline (a : Audit.t) : appends_critical (Audit_pipeline a).
Proof. apply appends_nothing. intros w. now rewrite Audit_pipeline_reads. Qed.

Ltac appends :=
  repeat lazymatch goal with
    | |- appends_critical (bind _ _) => apply appends_bind; [|intros ?]
    | |- appends_critical (Audit_pipeline _) => apply appends_audit_pipeline
    | |- appends_critical (ret _) => apply appends_ret
    | |- appends_critical get => apply appends_get
    | |- appends_critical timezone_now => apply appends_now
    | |- appends_critical (milestones_create _) => apply appends_critical_milestone
    | |- appends_critical (call _ save) => apply appends_call_save
    | |- appends_critical (objects_create _) => apply appends_objects_create
    | |- appends_critical (create_audit_milestones _ _) => apply appends_audit_milestones
    | |- appends_critical (let _ := _ in _) => cbv zeta
    | |- appends_critical (match ?x with _ => _ end) => destruct x; cbv beta iota
    end.

(** X17. No receiver removes or alters a milestone: whatever is saved and
    whether it returns or raises, the milestone table afterwards is the
    table before followed by the milestones the receiver created, all of
    them marked critical. *)
Theorem receivers_only_append_milestones (w : World) :
  (forall l created, exists added,
     pipeline_milestones (snd (create_pipeline_from_lead l created w))
     = (pipeline_milestones w ++ added)%list
     /\ Forall (fun x => is_critical x = true) added)
  /\ (forall o created, exists added,
        pipeline_milestones (snd (update_pipeline_from_opportunity o created w))
        = (pipeline_milestones w ++ added)%list
        /\ Forall (fun x => is_critical x = true) added)
  /\ (forall c created, exists added,
        pipeline_milestones (snd (update_pipeline_from_contract c created w))
        = (pipeline_milestones w ++ added)%list
        /\ Forall (fun x => is_critical x = true) added)
  /\ (forall a created, exists added,
        pipeline_milestones (snd (update_pipeline_from_audit a created w))
        = (pipeline_milestones w ++ added)%list
        /\ Forall (fun x => is_critical x = true) added).
Proof.
  split; [|split; [|split]]; intros x created.
  - assert (H : appends_critical (create_pipeline_from_lead x created)).
    { unfold create_pipeline_from_lead, create_lead_milestones. appends. }
    apply H.
  - assert (H : appends_critical (update_pipeline_from_opportunity x created)).
    { unfold update_pipeline_from_opportunity, create_opportunity_milestones. appends. }
    apply H.
  - assert (H : appends_critical (update_pipeline_from_contract x created)).
    { unfold update_pipeline_from_contract, create_contract_milestones,
        agreement_date_or_now. appends. }
    apply H.
  - assert (H : appends_critical (update_pipeline_from_audit x created)).
    { unfold update_pipeline_from_audit. appends. }
    apply H.
Qed.

(** X18. The receiver for leads creates at most one pipeline per lead: on
    a well-numbered table, once it has run for a created lead, running it
    again for the same lead changes nothing. *)
Theorem lead_receiver_runs_once (l : Lead.t) (w : World) :
  table_ok (job_pipelines w) ->
  create_pipeline_from_lead l true (snd (create_pipeline_from_lead l true w))
  = (Ok tt, snd (create_pipeline_from_lead l true w)).
Proof.
  intros Hok.
  destruct (true && str_in (Lead.status l) ["QUALIFIED"; "PROPOSAL_SENT"])%bool eqn:C;
    [|unfold create_pipeline_from_lead; rewrite C; reflexivity].
  assert (E : filter_exists lead (Lead.id l) (snd (create_pipeline_from_lead l true w))
              = true).
  { destruct (lead_created_projected l w Hok C) as (_ & row & Hin & Hl & _).
    unfold filter_exists.
    destruct (objects_filter lead (Lead.id l) (snd (create_pipeline_from_lead l true w)))
      as [|x rest] eqn:F; [|reflexivity].
    exfalso.
    assert (X : In row (objects_filter lead (Lead.id l)
                          (snd (create_pipeline_from_lead l true w)))).
    { unfold objects_filter. apply filter_In. split; [exact Hin|].
      rewrite Hl. apply opt_nat_eqb_refl. }
    rewrite F in X. exact X. }
  set (w1 := snd (create_pipeline_from_lead l true w)) in *.
  unfold create_pipeline_from_lead. rewrite C.
  unfold bind, get. cbv beta iota. rewrite E. reflexivity.
Qed.

Lemma lead_receiver_runs_once_witness :
  create_pipeline_from_lead lead_acme true w_lead = (Ok tt, w_lead).
Proof.
  change w_lead with (snd (create_pipeline_from_lead lead_acme true w_empty)) at 1 2.
  apply (lead_receiver_runs_once lead_acme w_empty).
  split; [constructor|split; constructor].
Defined.
